(** * SA32 Modbus driver: a shallow embedding of [sa32_driver.py]

    The session object [SA32Driver] of the Python source is embedded as a
    record, its methods as functions of a small state-and-exception monad
    over the session, the outside world (the pymodbus client, the random
    generator), each returning the chronological trace of the effects it
    performs (lock regions, transport requests, sleeps, callback calls).

    Conventions, relative to the source:
    - calls to [self.logger] are elided: they touch neither the session nor
      the transport;
    - Python integers are [Z], the float-valued settings [timeout] and
      [reconnect_delay] are rationals [Q] (the driver only stores and
      forwards them), strings are [string], the dictionary
      [_mock_registers] is a [gmap Z Z] and [_callbacks] a
      [gmap string (list Callback)];
    - a float32 value is identified with its IEEE-754 binary32 bit pattern,
      a number in [0, 2^32): [struct.pack('>f', v)] lists the four bytes of
      the pattern, most significant first, and [struct.pack('<f', v)] lists
      them least significant first; for a finite value the passage between
      the Python float and its pattern is exact in both directions;
    - [raise ... from e] keeps the message and drops the cause;
    - [str.upper] is modelled on the ASCII letters, which is all the
      comparisons of [_validate_config] can tell apart;
    - a callback is known by its identity and its calls are recorded in
      the trace; what it raises is dropped by [_trigger_callbacks], and a
      callback that calls back into its session is outside the model;
    - a pymodbus client object is truthy;
    - [time.sleep] refuses a length that is negative or does not fit its
      64-bit count of nanoseconds, by an exception that is none of the
      module's own ([ValueError], [OverflowError]);
    - when pymodbus is importable, [BinaryPayloadDecoder] and
      [BinaryPayloadBuilder] are the fallback classes the module defines
      for a pymodbus without [pymodbus.payload]; when it is not, the module
      binds both names to [None]. *)

From Stdlib Require Import QArith.
From stdpp Require Import base numbers strings list gmap pretty.

#[local] Open Scope Z_scope.

(** ** Exceptions and outcomes *)

(** The exception classes of the module, and the two classes of exception
    the pymodbus client can raise: [ModbusException] (with its subclasses,
    such as [ConnectionException]) and any other [Exception]. *)
Inductive PyExc : Type :=
  | SA32ConnectionError (msg : string)
  | SA32CommunicationError (msg : string)
  | SA32ConfigurationError (msg : string)
  | SA32TimeoutError (msg : string)
  | ImportError (msg : string)
  | ModbusException (msg : string)
  | PyException (msg : string).

(** [str(e)] *)
Definition str (e : PyExc) : string :=
  match e with
  | SA32ConnectionError m | SA32CommunicationError m
  | SA32ConfigurationError m | SA32TimeoutError m | ImportError m
  | ModbusException m | PyException m => m
  end.

(** A call either returns a value or raises. *)
Inductive Outcome (A : Type) : Type :=
  | Return (a : A)
  | Raise (e : PyExc).
Arguments Return {A} a.
Arguments Raise {A} e.

(** The two kinds of failure of the operations of a session. *)
Definition is_ConnectionError (e : PyExc) : bool :=
  match e with SA32ConnectionError _ => true | _ => false end.
Definition is_CommunicationError (e : PyExc) : bool :=
  match e with SA32CommunicationError _ => true | _ => false end.

(** ** EquipmentError: the LastError slot *)

Record EquipmentError : Type := mkEquipmentError {
  status : bool;
  code : Z;
  source : string
}.

(** [EquipmentError()]: the dataclass defaults, the no-error state. *)
Definition EquipmentError_default : EquipmentError :=
  {| status := false; code := 0; source := "" |}.

(** ** Enumerations and constants *)

Inductive ModbusProtocol : Type := TCP | RTU.
Inductive RegisterType : Type := HOLDING | INPUT.
Inductive Endian : Type := BIG | LITTLE.

Definition DEFAULT_BAUDRATE : Z := 9600.
Definition DEFAULT_DATA_BITS : Z := 8.
Definition DEFAULT_PARITY : string := "N".
Definition DEFAULT_STOP_BITS : Z := 1.
Definition DEFAULT_TIMEOUT : Q := 10%Q.
Definition DEFAULT_TCP_PORT : Z := 502.
Definition DEFAULT_BYTE_ORDER : Endian := BIG.
Definition DEFAULT_WORD_ORDER : Endian := BIG.

(** [port] is a TCP port number or the name of a serial port. *)
Inductive Port : Type :=
  | PortNumber (n : Z)
  | PortName (name : string).

(** ** Constructor arguments *)

(** The parameters of [SA32Driver.__init__] ([log_level] only configures
    the logger). The session keeps them unchanged as [self.host],
    [self.port], ... *)
Record InitArgs : Type := mkInitArgs {
  protocol_name : string;
  host : string;
  port : Port;
  slave_id : Z;
  baudrate : Z;
  parity : string;
  stopbits : Z;
  bytesize : Z;
  timeout : Q;
  auto_reconnect : bool;
  reconnect_delay : Q;
  max_reconnect_attempts : Z;
  mock_mode : bool
}.

(** The default values of the signature of [__init__]. *)
Definition default_args : InitArgs :=
  {| protocol_name := "TCP"; host := "127.0.0.1";
     port := PortNumber DEFAULT_TCP_PORT; slave_id := 1;
     baudrate := DEFAULT_BAUDRATE; parity := DEFAULT_PARITY;
     stopbits := DEFAULT_STOP_BITS; bytesize := DEFAULT_DATA_BITS;
     timeout := DEFAULT_TIMEOUT; auto_reconnect := false;
     reconnect_delay := 5%Q; max_reconnect_attempts := 3;
     mock_mode := false |}.

(** ** [str.upper] on the ASCII letters *)

Definition ascii_upper (c : Ascii.ascii) : Ascii.ascii :=
  let n := Ascii.N_of_ascii c in
  if ((97 <=? n) && (n <=? 122))%N then Ascii.ascii_of_N (n - 32) else c.

Fixpoint upper (s : string) : string :=
  match s with
  | EmptyString => EmptyString
  | String c r => String (ascii_upper c) (upper r)
  end.

(** ** Configuration validation *)

Definition valid_protocols : list string := ["TCP"; "RTU"].
Definition valid_baudrates : list Z :=
  [1200; 2400; 4800; 9600; 19200; 38400; 57600; 115200].
Definition valid_bytesizes : list Z := [7; 8].
Definition valid_parities : list string := ["N"; "E"; "O"].
Definition valid_stopbits : list Z := [1; 2].

(** [SA32Driver._validate_config]: the six checks, in the order of the
    source; the first failing one raises. *)
Definition _validate_config (protocol : string) (slave_id baudrate bytesize : Z)
    (parity : string) (stopbits : Z) : Outcome unit :=
  if negb (bool_decide (upper protocol ∈ valid_protocols)) then
    Raise (SA32ConfigurationError
      ("Protocole invalide: " +:+ protocol +:+ ". Utilisez 'TCP' ou 'RTU'."))
  else if negb (bool_decide (1 ≤ slave_id ≤ 247)) then
    Raise (SA32ConfigurationError
      ("Slave ID invalide: " +:+ pretty slave_id +:+ ". Doit être entre 1 et 247."))
  else if negb (bool_decide (baudrate ∈ valid_baudrates)) then
    Raise (SA32ConfigurationError
      ("Baudrate invalide: " +:+ pretty baudrate +:+
       ". Valeurs valides: [1200, 2400, 4800, 9600, 19200, 38400, 57600, 115200]"))
  else if negb (bool_decide (bytesize ∈ valid_bytesizes)) then
    Raise (SA32ConfigurationError
      ("Bytesize invalide: " +:+ pretty bytesize +:+ ". Doit être 7 ou 8."))
  else if negb (bool_decide (upper parity ∈ valid_parities)) then
    Raise (SA32ConfigurationError
      ("Parité invalide: " +:+ parity +:+ ". Utilisez 'N', 'E' ou 'O'."))
  else if negb (bool_decide (stopbits ∈ valid_stopbits)) then
    Raise (SA32ConfigurationError
      ("Stop bits invalide: " +:+ pretty stopbits +:+ ". Doit être 1 ou 2."))
  else Return tt.

(** [ModbusProtocol[name]]: lookup of an enumeration member by name. *)
Definition ModbusProtocol_getitem (name : string) : Outcome ModbusProtocol :=
  if bool_decide (name = "TCP") then Return TCP
  else if bool_decide (name = "RTU") then Return RTU
  else Raise (PyException name).

(** ** The transport handle *)

(** A pymodbus client object, identified by the arguments of its
    constructor: [ModbusTcpClient(host, port, timeout)] or
    [ModbusSerialClient(port, baudrate, bytesize, parity, stopbits,
    timeout)]. *)
Inductive Client : Type :=
  | ModbusTcpClient (host : string) (port : Port) (timeout : Q)
  | ModbusSerialClient (port : Port) (baudrate bytesize : Z)
      (parity : string) (stopbits : Z) (timeout : Q).

(** ** Events *)

(** A registered callback, known by its identity. *)
Definition Callback : Type := nat.

(** What [_trigger_callbacks] hands to a callback: the LastError record
    for 'on_error', the dictionary [{'address': a, 'values': vs}] for
    'on_data_received'. *)
Inductive Payload : Type :=
  | ErrorData (err : EquipmentError)
  | RegisterData (address : Z) (values : list Z).

(** ** The session *)

Record SA32Driver : Type := mkSA32Driver {
  protocol : ModbusProtocol;
  settings : InitArgs;
  _client : option Client;
  _connected : bool;
  _callbacks : gmap string (list Callback);
  _mock_registers : gmap Z Z;
  _last_error : EquipmentError
}.

Definition set_client (c : option Client) (d : SA32Driver) : SA32Driver :=
  {| protocol := protocol d; settings := settings d; _client := c;
     _connected := _connected d; _callbacks := _callbacks d;
     _mock_registers := _mock_registers d; _last_error := _last_error d |}.

Definition set_connected (b : bool) (d : SA32Driver) : SA32Driver :=
  {| protocol := protocol d; settings := settings d; _client := _client d;
     _connected := b; _callbacks := _callbacks d;
     _mock_registers := _mock_registers d; _last_error := _last_error d |}.

Definition set_callbacks (cbs : gmap string (list Callback)) (d : SA32Driver)
    : SA32Driver :=
  {| protocol := protocol d; settings := settings d; _client := _client d;
     _connected := _connected d; _callbacks := cbs;
     _mock_registers := _mock_registers d; _last_error := _last_error d |}.

Definition set_mock_registers (m : gmap Z Z) (d : SA32Driver) : SA32Driver :=
  {| protocol := protocol d; settings := settings d; _client := _client d;
     _connected := _connected d; _callbacks := _callbacks d;
     _mock_registers := m; _last_error := _last_error d |}.

Definition set_last_error (e : EquipmentError) (d : SA32Driver) : SA32Driver :=
  {| protocol := protocol d; settings := settings d; _client := _client d;
     _connected := _connected d; _callbacks := _callbacks d;
     _mock_registers := _mock_registers d; _last_error := e |}.

(** The dictionary of callbacks of a fresh session. *)
Definition no_callbacks : gmap string (list Callback) :=
  <["on_connect" := []]> (<["on_disconnect" := []]>
    (<["on_error" := []]> (<["on_data_received" := []]> ∅))).

(** [SA32Driver.__init__]. [PYMODBUS_AVAILABLE] is the module-level flag
    set by the import of pymodbus. Construction either returns a complete
    session or raises: there is no third result. *)
Definition __init__ (PYMODBUS_AVAILABLE : bool) (a : InitArgs)
    : Outcome SA32Driver :=
  if negb PYMODBUS_AVAILABLE && negb (mock_mode a) then
    Raise (ImportError
      "Le module 'pymodbus' est requis. Installez-le avec: pip install pymodbus")
  else
    match _validate_config (protocol_name a) (slave_id a) (baudrate a)
            (bytesize a) (parity a) (stopbits a) with
    | Raise e => Raise e
    | Return _ =>
        match ModbusProtocol_getitem (upper (protocol_name a)) with
        | Raise e => Raise e
        | Return p =>
            Return {| protocol := p; settings := a; _client := None;
                      _connected := false; _callbacks := no_callbacks;
                      _mock_registers := ∅;
                      _last_error := EquipmentError_default |}
        end
    end.

(** ** The outside world *)

(** The reply of the pymodbus client to a register request:
    [response.isError()] holds of an exception response, which may carry
    the exception code reported by the device ([hasattr(response,
    'exception_code')]) and is printed as [repr] in messages; any other
    response carries [response.registers]. *)
Inductive Response : Type :=
  | ExceptionResponse (exception_code : option Z) (repr : string)
  | RegistersResponse (registers : list Z).

(** The four register requests, with the keyword arguments of the call. *)
Inductive Request : Type :=
  | ReadHoldingRegisters (address count slave : Z)
  | ReadInputRegisters (address count slave : Z)
  | WriteRegister (address value slave : Z)
  | WriteRegisters (address : Z) (values : list Z) (slave : Z).

(** The name of the client method a request calls. *)
Definition method_name (r : Request) : string :=
  match r with
  | ReadHoldingRegisters _ _ _ => "read_holding_registers"
  | ReadInputRegisters _ _ _ => "read_input_registers"
  | WriteRegister _ _ _ => "write_register"
  | WriteRegisters _ _ _ => "write_registers"
  end.

(** What the driver does not implement: the pymodbus client and the random
    generator, as functions of a world [W] they may change. Every call
    either returns or raises. *)
Record Transport (W : Type) : Type := mkTransport {
  PYMODBUS_AVAILABLE : bool;
  client_init : Client → W → Outcome unit * W;
  client_connect : Client → W → Outcome bool * W;
  client_close : Client → W → Outcome unit * W;
  client_request : Client → Request → W → Outcome Response * W;
  random_randint : Z → Z → W → Z * W
}.
Arguments PYMODBUS_AVAILABLE {W} _.
Arguments client_init {W} _ _ _.
Arguments client_connect {W} _ _ _.
Arguments client_close {W} _ _ _.
Arguments client_request {W} _ _ _ _.
Arguments random_randint {W} _ _ _ _.

(** The observable effects of a method, in the order they happen. What
    runs inside a [with self._lock:] block is kept together as one
    [Locked] region, so the trace shows which effects the lock covers and
    how often it is taken; a region inside a region is a re-entry of the
    reentrant lock. *)
#[warnings="-register-all"]
Inductive Effect : Type :=
  | Locked (body : list Effect)
  | ClientNew (c : Client)
  | ClientConnect (c : Client)
  | ClientClose (c : Client)
  | ClientRequest (c : Client) (r : Request)
  | Sleep (seconds : Q)
  | RandInt (lo hi : Z)
  | Invoke (event : string) (cb : Callback) (data : option Payload).

(** Transport traffic: what goes to the pymodbus client. *)
Definition is_traffic (e : Effect) : bool :=
  match e with
  | ClientConnect _ | ClientClose _ | ClientRequest _ _ => true
  | _ => false
  end.

Definition is_connect_attempt (e : Effect) : bool :=
  match e with ClientConnect _ => true | _ => false end.

Definition is_locked (e : Effect) : bool :=
  match e with Locked _ => true | _ => false end.

Definition is_invoke (event : string) (e : Effect) : bool :=
  match e with Invoke ev _ _ => bool_decide (ev = event) | _ => false end.

(** The effects of a trace with the lock regions opened up: every effect
    that is not a region, in order. *)
Fixpoint flatten_effect (e : Effect) : list Effect :=
  match e with
  | Locked body => body ≫= flatten_effect
  | _ => [e]
  end.

Definition flatten (t : list Effect) : list Effect := t ≫= flatten_effect.

(** The number of effects of a trace, regions opened up, that satisfy [p]. *)
Definition count_effects (p : Effect → bool) (t : list Effect) : nat :=
  length (filter (λ e, Is_true (p e)) (flatten t)).

(** The number of times a trace takes the lock while it is free. *)
Definition lock_acquisitions (t : list Effect) : nat :=
  length (filter (λ e, Is_true (is_locked e)) t).

(** The calls [_trigger_callbacks event data] makes to the callbacks [cbs]. *)
Definition invocations (event : string) (data : option Payload)
    (cbs : list Callback) : list Effect :=
  (λ cb, Invoke event cb data) <$> cbs.

(** ** The state monad of the methods *)

Section Monad.
Context {W : Type}.

(** The session and the world. *)
Record Sys : Type := mkSys {
  self : SA32Driver;
  world : W
}.

(** A method maps a state to its outcome, the state it leaves and the
    trace of its effects. *)
Definition M (A : Type) : Type := Sys → Outcome A * Sys * list Effect.

#[global] Instance M_ret : MRet M := λ A a s, (Return a, s, []).

#[global] Instance M_bind : MBind M := λ A B f m s,
  match m s with
  | (Return a, s1, t1) => let '(r, s2, t2) := f a s1 in (r, s2, t1 ++ t2)
  | (Raise e, s1, t1) => (Raise e, s1, t1)
  end.

Definition raise {A} (e : PyExc) : M A := λ s, (Raise e, s, []).

(** [try: body except Exception as e: handler e] *)
Definition try_except {A} (body : M A) (handler : PyExc → M A) : M A := λ s,
  match body s with
  | (Return a, s1, t1) => (Return a, s1, t1)
  | (Raise e, s1, t1) => let '(r, s2, t2) := handler e s1 in (r, s2, t1 ++ t2)
  end.

Definition get_self : M SA32Driver := λ s, (Return (self s), s, []).

Definition update_self (f : SA32Driver → SA32Driver) : M unit := λ s,
  (Return tt, {| self := f (self s); world := world s |}, []).

Definition emit (e : Effect) : M unit := λ s, (Return tt, s, [e]).

(** A call into the world. *)
Definition call_world {A} (e : Effect) (f : W → Outcome A * W) : M A := λ s,
  let '(r, w) := f (world s) in
  (r, {| self := self s; world := w |}, [e]).

(** [with self._lock: body]: the lock is released on every exit. *)
Definition with_lock {A} (body : M A) : M A := λ s,
  let '(r, s1, t1) := body s in (r, s1, [Locked t1]).

(** [for x in xs: acc = body acc x], for a loop that carries [acc]. *)
Fixpoint foldM {A B} (body : B → A → M B) (acc : B) (xs : list A) : M B :=
  match xs with
  | [] => mret acc
  | x :: rest => acc' ← body acc x; foldM body acc' rest
  end.

(** [for x in xs: body x], where [body] answers [Some v] for
    [return v] and [None] to go on; [None] when the loop runs out. *)
Fixpoint for_return {A R} (xs : list A) (body : A → M (option R))
    : M (option R) :=
  match xs with
  | [] => mret None
  | x :: rest =>
      r ← body x;
      match r with
      | Some v => mret (Some v)
      | None => for_return rest body
      end
  end.
End Monad.
Arguments Sys W : clear implicits.
Arguments M W A : clear implicits.

(** [enumerate(values)] *)
Definition enumerate {A} (values : list A) : list (Z * A) :=
  zip (seqZ 0 (Z.of_nat (length values))) values.

(** [list.remove(x)]: drops the first occurrence. *)
Fixpoint remove_first (x : Callback) (l : list Callback) : list Callback :=
  match l with
  | [] => []
  | y :: rest => if bool_decide (y = x) then rest else y :: remove_first x rest
  end.

(** ** [time.sleep] *)

(** The largest and smallest timestamps of the C clock, in nanoseconds. *)
Definition PyTime_MAX : Z := 9223372036854775807.
Definition PyTime_MIN : Z := -9223372036854775808.

(** What [time.sleep(secs)] raises instead of sleeping: OverflowError
    when [secs], in nanoseconds, does not fit the C timestamp, and
    ValueError when it is negative. *)
Definition sleep_error (secs : Q) : option PyExc :=
  let ns := (secs * 1000000000)%Q in
  if negb (Qle_bool (inject_Z PyTime_MIN) ns && Qle_bool ns (inject_Z PyTime_MAX))
  then Some (PyException "timestamp too large to convert to C PyTime_t")
  else if negb (Qle_bool 0 secs)
  then Some (PyException "sleep length must be non-negative")
  else None.

(** ** The float codec: the fallback payload classes of the module *)

(** [struct.pack('>f', v)] and [struct.pack('<f', v)] on the binary32
    pattern [v]: its four bytes, most or least significant first. *)
Definition struct_pack_f (byteorder : Endian) (v : Z) : list Z :=
  let b3 := (v / 16777216) `mod` 256 in
  let b2 := (v / 65536) `mod` 256 in
  let b1 := (v / 256) `mod` 256 in
  let b0 := v `mod` 256 in
  match byteorder with
  | BIG => [b3; b2; b1; b0]
  | LITTLE => [b0; b1; b2; b3]
  end.

(** [struct.unpack('>f', bs)[0]] and [struct.unpack('<f', bs)[0]]: the
    pattern read back from exactly four bytes; any other length raises
    [struct.error]. *)
Definition struct_unpack_f (byteorder : Endian) (bs : list Z) : Outcome Z :=
  match bs with
  | [x0; x1; x2; x3] =>
      match byteorder with
      | BIG => Return (((x0 * 256 + x1) * 256 + x2) * 256 + x3)
      | LITTLE => Return (((x3 * 256 + x2) * 256 + x1) * 256 + x0)
      end
  | _ => Raise (PyException "unpack requires a buffer of 4 bytes")
  end.

(** [reg.to_bytes(2, byteorder='big')]: raises [OverflowError] outside
    [0, 65535]. *)
Definition to_bytes_2_big (reg : Z) : Outcome (list Z) :=
  if bool_decide (0 ≤ reg ≤ 65535) then Return [reg / 256; reg `mod` 256]
  else Raise (PyException "int too big to convert").

(** [int.from_bytes(bs, byteorder='big')] *)
Definition int_from_bytes_big (bs : list Z) : Z :=
  foldl (λ acc b, acc * 256 + b) 0 bs.

Record BinaryPayloadBuilder : Type := mkBuilder {
  builder_byteorder : Endian;
  builder_payload : list Z
}.

(** [BinaryPayloadBuilder(byteorder, wordorder)]: the word order is
    accepted and not kept. *)
Definition BinaryPayloadBuilder_init (byteorder wordorder : Endian)
    : BinaryPayloadBuilder :=
  {| builder_byteorder := byteorder; builder_payload := [] |}.

Definition add_32bit_float (value : Z) (b : BinaryPayloadBuilder)
    : BinaryPayloadBuilder :=
  {| builder_byteorder := builder_byteorder b;
     builder_payload :=
       builder_payload b ++ struct_pack_f (builder_byteorder b) value |}.

(** The loop of [to_registers]: [payload[i:i+2]] for [i = 0, 2, ...],
    each slice read as a big-endian integer. *)
Fixpoint registers_of_bytes (payload : list Z) : list Z :=
  match payload with
  | [] => []
  | [x] => [int_from_bytes_big [x]]
  | x :: y :: rest => int_from_bytes_big [x; y] :: registers_of_bytes rest
  end.

Definition to_registers (b : BinaryPayloadBuilder) : list Z :=
  registers_of_bytes (builder_payload b).

Record BinaryPayloadDecoder : Type := mkDecoder {
  decoder_payload : list Z;
  decoder_byteorder : Endian
}.

(** [b''.join(reg.to_bytes(2, byteorder='big') for reg in registers)] *)
Fixpoint join_registers (registers : list Z) : Outcome (list Z) :=
  match registers with
  | [] => Return []
  | reg :: rest =>
      match to_bytes_2_big reg with
      | Raise e => Raise e
      | Return bs =>
          match join_registers rest with
          | Raise e => Raise e
          | Return tl => Return (bs ++ tl)
          end
      end
  end.

(** [BinaryPayloadDecoder.fromRegisters(registers, byteorder, wordorder)] *)
Definition fromRegisters (registers : list Z) (byteorder wordorder : Endian)
    : Outcome BinaryPayloadDecoder :=
  match join_registers registers with
  | Raise e => Raise e
  | Return payload =>
      Return {| decoder_payload := payload; decoder_byteorder := byteorder |}
  end.

Definition decode_32bit_float (d : BinaryPayloadDecoder) : Outcome Z :=
  struct_unpack_f (decoder_byteorder d) (take 4 (decoder_payload d)).

(** The two halves of the codec as [write_float] and [read_float] use
    them: a value to its registers, and registers back to a value. *)
Definition encode_float (byteorder wordorder : Endian) (value : Z) : list Z :=
  to_registers
    (add_32bit_float value (BinaryPayloadBuilder_init byteorder wordorder)).

Definition decode_float (byteorder wordorder : Endian) (registers : list Z)
    : Outcome Z :=
  match fromRegisters registers byteorder wordorder with
  | Raise e => Raise e
  | Return decoder => decode_32bit_float decoder
  end.

(** The binary32 patterns, and the finite ones among them: those whose
    exponent field is not all ones. *)
Definition is_float32 (v : Z) : Prop := 0 ≤ v < 4294967296.

Definition float32_exponent (v : Z) : Z := (v / 8388608) `mod` 256.

Definition is_finite32 (v : Z) : Prop :=
  is_float32 v ∧ float32_exponent v ≠ 255.

(** ** The methods of [SA32Driver] *)

Section Methods.
Context {W : Type} (tr : Transport W).

#[local] Abbreviation M := (M W).

(** *** Callbacks *)

Definition register_callback (event : string) (callback : Callback) : M unit :=
  d ← get_self;
  match _callbacks d !! event with
  | Some cbs =>
      update_self (set_callbacks (<[event := cbs ++ [callback]]> (_callbacks d)))
  | None => mret tt
  end.

Definition unregister_callback (event : string) (callback : Callback) : M unit :=
  d ← get_self;
  match _callbacks d !! event with
  | Some cbs =>
      if bool_decide (callback ∈ cbs) then
        update_self
          (set_callbacks (<[event := remove_first callback cbs]> (_callbacks d)))
      else mret tt
  | None => mret tt
  end.

(** Every callback registered for [event] is called, in registration
    order; what a callback raises is logged and dropped, so the calls
    are all the session sees of them. *)
Definition _trigger_callbacks (event : string) (data : option Payload) : M unit :=
  d ← get_self;
  match _callbacks d !! event with
  | Some cbs => foldM (λ _ callback, emit (Invoke event callback data)) tt cbs
  | None => mret tt
  end.

(** *** Connection *)

(** The client [connect] builds for the protocol of the session. *)
Definition new_client (d : SA32Driver) : Client :=
  let a := settings d in
  match protocol d with
  | TCP => ModbusTcpClient (host a) (port a) (timeout a)
  | RTU =>
      ModbusSerialClient (port a) (baudrate a) (bytesize a) (parity a)
        (stopbits a) (timeout a)
  end.

(** [self._last_error = err; self._trigger_callbacks('on_error', err)] *)
Definition record_error (err : EquipmentError) : M unit :=
  update_self (set_last_error err);;
  _trigger_callbacks "on_error" (Some (ErrorData err)).

Definition connect : M bool :=
  with_lock (
    d ← get_self;
    if _connected d then mret true
    else if mock_mode (settings d) then
      update_self (set_connected true);;
      _trigger_callbacks "on_connect" None;;
      mret true
    else
      try_except
        (let c := new_client d in
         (if PYMODBUS_AVAILABLE tr
          then call_world (ClientNew c) (client_init tr c)
          else raise (PyException "'NoneType' object is not callable"));;
         update_self (set_client (Some c));;
         opened ← call_world (ClientConnect c) (client_connect tr c);
         if opened : bool then
           update_self (set_connected true);;
           update_self (set_last_error EquipmentError_default);;
           _trigger_callbacks "on_connect" None;;
           mret true
         else
           raise (SA32ConnectionError
                    "Impossible de se connecter à l'équipement SA32"))
        (λ e,
           let error_msg := "Erreur lors de la connexion: " +:+ str e in
           record_error {| status := true; code := -1; source := error_msg |};;
           raise (SA32ConnectionError error_msg))).

Definition disconnect : M unit :=
  with_lock (
    d ← get_self;
    if negb (_connected d) then mret tt
    else if mock_mode (settings d) then
      update_self (set_connected false);;
      _trigger_callbacks "on_disconnect" None
    else
      try_except
        (match _client d with
         | Some c => call_world (ClientClose c) (client_close tr c)
         | None => mret tt
         end;;
         update_self (set_connected false);;
         update_self (set_client None);;
         _trigger_callbacks "on_disconnect" None)
        (λ e,
           update_self (set_connected false);;
           update_self (set_client None))).

Definition is_connected : M bool :=
  d ← get_self; mret (_connected d).

(** [time.sleep(secs)]: the thread sleeps, or the call raises at once. *)
Definition time_sleep (secs : Q) : M unit :=
  match sleep_error secs with
  | Some e => raise e
  | None => emit (Sleep secs)
  end.

(** The body of the loop of [_attempt_reconnect], for one value of
    [attempt]: [Some True] stands for [return True], [None] for going on
    with the loop. Only [SA32ConnectionError] is caught, and what
    [time.sleep] raises in the handler leaves the loop and the method. *)
Definition reconnect_attempt (attempt : Z) : M (option bool) :=
  try_except
    (ok ← connect;
     if ok : bool then mret (Some true) else mret None)
    (λ e,
       match e with
       | SA32ConnectionError _ =>
           d ← get_self;
           (if bool_decide (attempt < max_reconnect_attempts (settings d))
            then time_sleep (reconnect_delay (settings d))
            else mret tt);;
           mret None
       | _ => raise e
       end).

(** [attempt] runs over [range(1, self.max_reconnect_attempts + 1)];
    when the loop runs out the method returns False. *)
Definition _attempt_reconnect : M bool :=
  d ← get_self;
  r ← for_return (seqZ 1 (max_reconnect_attempts (settings d))) reconnect_attempt;
  match r with
  | Some b => mret b
  | None => mret false
  end.

(** The result of [_attempt_reconnect] is not looked at. *)
Definition _ensure_connected : M unit :=
  d ← get_self;
  if negb (_connected d) then
    if auto_reconnect (settings d) then
      _ ← _attempt_reconnect; mret tt
    else
      let error_msg := "Aucune connexion active. Appelez connect() d'abord." in
      record_error {| status := true; code := -1; source := error_msg |};;
      raise (SA32ConnectionError error_msg)
  else mret tt.

(** *** The simulated backend *)

(** The body of the loop of [_mock_read_registers], for one [i]: an
    address never seen gets a random value, which is stored; the value
    at the address is appended to [values]. *)
Definition mock_read_step (address : Z) (values : list Z) (i : Z) : M (list Z) :=
  let addr := address + i in
  d ← get_self;
  match _mock_registers d !! addr with
  | Some v => mret (values ++ [v])
  | None =>
      v ← call_world (RandInt 0 65535)
            (λ w, let '(v, w') := random_randint tr 0 65535 w in (Return v, w'));
      update_self (λ d, set_mock_registers (<[addr := v]> (_mock_registers d)) d);;
      mret (values ++ [v])
  end.

(** [i] runs over [range(count)]. *)
Definition _mock_read_registers (address count : Z) : M (list Z) :=
  foldM (mock_read_step address) [] (seqZ 0 count).

Definition _mock_write_register (address value : Z) : M bool :=
  update_self (λ d, set_mock_registers (<[address := value]> (_mock_registers d)) d);;
  mret true.

(** The body of the mock loop of [write_registers], for one pair of
    [enumerate(values)]. *)
Definition mock_write_step (address : Z) (_ : unit) (iv : Z * Z) : M unit :=
  let '(i, value) := iv in
  _ ← _mock_write_register (address + i) value; mret tt.

Definition set_mock_register (address value : Z) : M unit :=
  d ← get_self;
  if mock_mode (settings d) then
    update_self (λ d, set_mock_registers (<[address := value]> (_mock_registers d)) d)
  else mret tt.

(** *** Register access *)

(** [self._client.<method>(...)]: on [None] the attribute lookup raises
    [AttributeError]. *)
Definition client_call (req : Request) : M Response :=
  d ← get_self;
  match _client d with
  | Some c => call_world (ClientRequest c req) (client_request tr c req)
  | None =>
      raise (PyException
               ("'NoneType' object has no attribute '" +:+ method_name req +:+ "'"))
  end.

(** [except ModbusException] catches the pymodbus class and, when
    pymodbus is missing, every [Exception] ([ModbusException = Exception]). *)
Definition caught_as_ModbusException (e : PyExc) : bool :=
  match e with
  | ModbusException _ => true
  | _ => negb (PYMODBUS_AVAILABLE tr)
  end.

(** The two [except] clauses that close every register operation:
    [what] is "la lecture" or "l'écriture". *)
Definition communication_failure {A} (what : string) (e : PyExc) : M A :=
  if caught_as_ModbusException e then
    let error_msg := "Exception Modbus: " +:+ str e in
    record_error {| status := true; code := -2; source := error_msg |};;
    raise (SA32CommunicationError error_msg)
  else
    let error_msg := "Erreur inattendue lors de " +:+ what +:+ ": " +:+ str e in
    record_error {| status := true; code := -3; source := error_msg |};;
    raise (SA32CommunicationError error_msg).

(** The branch [if response.isError()], inside the [try]. *)
Definition response_error {A} (what : string) (exception_code : option Z)
    (repr : string) : M A :=
  let error_msg := "Erreur Modbus lors de " +:+ what +:+ ": " +:+ repr in
  update_self (set_last_error
    {| status := true; code := default (-1) exception_code; source := error_msg |});;
  raise (SA32CommunicationError error_msg).

(** [read_holding_registers] and [read_input_registers] have the same
    body but for the client method they call. *)
Definition read_registers (kind : RegisterType) (address count : Z) : M (list Z) :=
  _ensure_connected;;
  with_lock (
    d ← get_self;
    if mock_mode (settings d) then
      values ← _mock_read_registers address count;
      _trigger_callbacks "on_data_received" (Some (RegisterData address values));;
      mret values
    else
      try_except
        (response ← client_call
           (match kind with
            | HOLDING => ReadHoldingRegisters address count (slave_id (settings d))
            | INPUT => ReadInputRegisters address count (slave_id (settings d))
            end);
         match response with
         | ExceptionResponse exception_code repr =>
             response_error "la lecture" exception_code repr
         | RegistersResponse values =>
             update_self (set_last_error EquipmentError_default);;
             _trigger_callbacks "on_data_received"
               (Some (RegisterData address values));;
             mret values
         end)
        (communication_failure "la lecture")).

Definition read_holding_registers : Z → Z → M (list Z) := read_registers HOLDING.
Definition read_input_registers : Z → Z → M (list Z) := read_registers INPUT.

(** [result[0] if result else None] *)
Definition read_holding_register (address : Z) : M (option Z) :=
  result ← read_holding_registers address 1; mret (head result).

Definition read_input_register (address : Z) : M (option Z) :=
  result ← read_input_registers address 1; mret (head result).

Definition write_register (address value : Z) : M bool :=
  _ensure_connected;;
  with_lock (
    d ← get_self;
    if mock_mode (settings d) then _mock_write_register address value
    else
      try_except
        (response ← client_call (WriteRegister address value (slave_id (settings d)));
         match response with
         | ExceptionResponse exception_code repr =>
             response_error "l'écriture" exception_code repr
         | RegistersResponse _ =>
             update_self (set_last_error EquipmentError_default);;
             mret true
         end)
        (communication_failure "l'écriture")).

Definition write_registers (address : Z) (values : list Z) : M bool :=
  _ensure_connected;;
  with_lock (
    d ← get_self;
    if mock_mode (settings d) then
      foldM (mock_write_step address) tt (enumerate values);;
      mret true
    else
      try_except
        (response ← client_call (WriteRegisters address values (slave_id (settings d)));
         match response with
         | ExceptionResponse exception_code repr =>
             response_error "l'écriture" exception_code repr
         | RegistersResponse _ =>
             update_self (set_last_error EquipmentError_default);;
             mret true
         end)
        (communication_failure "l'écriture")).

(** *** 32-bit floats *)

(** The result of a codec call, inside a method. *)
Definition lift_outcome {A} (o : Outcome A) : M A := λ s, (o, s, []).

Definition read_float (address : Z) (register_type : RegisterType)
    (byte_order word_order : option Endian) : M (option Z) :=
  let byte_order := default DEFAULT_BYTE_ORDER byte_order in
  let word_order := default DEFAULT_WORD_ORDER word_order in
  registers ← match register_type with
              | HOLDING => read_holding_registers address 2
              | INPUT => read_input_registers address 2
              end;
  match registers with
  | [] => mret None
  | _ =>
      if PYMODBUS_AVAILABLE tr then
        decoder ← lift_outcome (fromRegisters registers byte_order word_order);
        value ← lift_outcome (decode_32bit_float decoder);
        mret (Some value)
      else
        raise (PyException "'NoneType' object has no attribute 'fromRegisters'")
  end.

Definition write_float (address value : Z) (byte_order word_order : option Endian)
    : M bool :=
  let byte_order := default DEFAULT_BYTE_ORDER byte_order in
  let word_order := default DEFAULT_WORD_ORDER word_order in
  if PYMODBUS_AVAILABLE tr then
    let builder := BinaryPayloadBuilder_init byte_order word_order in
    let builder := add_32bit_float value builder in
    let registers := to_registers builder in
    write_registers address registers
  else raise (PyException "'NoneType' object is not callable").

(** *** LastError *)

Definition get_last_error : M EquipmentError :=
  d ← get_self; mret (_last_error d).

Definition clear_error : M unit :=
  update_self (set_last_error EquipmentError_default).
End Methods.

(** ** A scripted transport, for running the methods on concrete inputs *)

(** The world of the scripted transport: what [client.connect()] and
    [client.close()] answer, the replies to the register requests, handed
    out in order, and the values of the random generator. *)
Record Script : Type := mkScript {
  open_result : Outcome bool;
  close_result : Outcome unit;
  replies : list (Outcome Response);
  randoms : list Z
}.

Definition scripted : Transport Script :=
  {| PYMODBUS_AVAILABLE := true;
     client_init := λ _ w, (Return tt, w);
     client_connect := λ _ w, (open_result w, w);
     client_close := λ _ w, (close_result w, w);
     client_request := λ _ _ w,
       match replies w with
       | r :: rest =>
           (r, {| open_result := open_result w; close_result := close_result w;
                  replies := rest; randoms := randoms w |})
       | [] => (Raise (ModbusException "No response received"), w)
       end;
     random_randint := λ lo _ w,
       match randoms w with
       | v :: rest =>
           (v, {| open_result := open_result w; close_result := close_result w;
                  replies := replies w; randoms := rest |})
       | [] => (lo, w)
       end |}.

(** A session as [__init__] leaves it, for valid arguments. *)
Definition fresh (p : ModbusProtocol) (a : InitArgs) : SA32Driver :=
  {| protocol := p; settings := a; _client := None; _connected := false;
     _callbacks := no_callbacks; _mock_registers := ∅;
     _last_error := EquipmentError_default |}.

Definition start {W} (d : SA32Driver) (w : W) : Sys W :=
  {| self := d; world := w |}.

(** One call after another on the same session, whatever the first one
    answers: the caller catches what it raises. *)
Definition and_then {W A B} (m : M W A) (k : M W B) : M W B := λ s,
  let '(_, s1, t1) := m s in
  let '(r, s2, t2) := k s1 in
  (r, s2, t1 ++ t2).

(** ** Predicates and inputs of the properties *)

(** What [_validate_config] accepts. The timeout, the reconnect delay and
    the number of reconnect attempts are not among its parameters. *)
Definition valid_config (a : InitArgs) : Prop :=
  upper (protocol_name a) ∈ valid_protocols ∧
  1 ≤ slave_id a ≤ 247 ∧
  baudrate a ∈ valid_baudrates ∧
  bytesize a ∈ valid_bytesizes ∧
  upper (parity a) ∈ valid_parities ∧
  stopbits a ∈ valid_stopbits.

Definition with_timeout (t : Q) (a : InitArgs) : InitArgs :=
  {| protocol_name := protocol_name a; host := host a; port := port a;
     slave_id := slave_id a; baudrate := baudrate a; parity := parity a;
     stopbits := stopbits a; bytesize := bytesize a; timeout := t;
     auto_reconnect := auto_reconnect a; reconnect_delay := reconnect_delay a;
     max_reconnect_attempts := max_reconnect_attempts a;
     mock_mode := mock_mode a |}.

(** The register map after the mock branch of [write_registers] has
    stored the enumerated values [ivs] from [address] on. *)
Definition store_all (address : Z) (ivs : list (Z * Z)) (m : gmap Z Z)
    : gmap Z Z :=
  foldl (λ m '(i, value), <[address + i := value]> m) m ivs.

(** The four public register operations, and what they return. *)
Inductive RegisterOp : Type :=
  | ReadHolding (address count : Z)
  | ReadInput (address count : Z)
  | WriteSingle (address value : Z)
  | WriteMultiple (address : Z) (values : list Z).

Inductive Value : Type :=
  | Registers (values : list Z)
  | Written (ok : bool).

Definition map_outcome {A B} (f : A → B) (o : Outcome A) : Outcome B :=
  match o with
  | Return a => Return (f a)
  | Raise e => Raise e
  end.

Definition run_op {W} (tr : Transport W) (op : RegisterOp)
    : M W Value := λ s,
  match op with
  | ReadHolding address count =>
      let '(r, s1, t) := read_holding_registers tr address count s in
      (map_outcome Registers r, s1, t)
  | ReadInput address count =>
      let '(r, s1, t) := read_input_registers tr address count s in
      (map_outcome Registers r, s1, t)
  | WriteSingle address value =>
      let '(r, s1, t) := write_register tr address value s in
      (map_outcome Written r, s1, t)
  | WriteMultiple address values =>
      let '(r, s1, t) := write_registers tr address values s in
      (map_outcome Written r, s1, t)
  end.

(** What no method changes once the session is built. *)
Definition same_config (d d' : SA32Driver) : Prop :=
  settings d' = settings d ∧ protocol d' = protocol d ∧
  _callbacks d' = _callbacks d ∧ _mock_registers d' = _mock_registers d.

(** A transport whose open always fails: pymodbus is there and the client
    can be built, but [client.connect()] never answers True (it answers
    False or raises). *)
Definition open_always_fails {W} (tr : Transport W) : Prop :=
  PYMODBUS_AVAILABLE tr = true ∧
  (∀ c w, (client_init tr c w).1 = Return tt) ∧
  (∀ c w, (client_connect tr c w).1 ≠ Return true).

(** The state and the presence of the transport handle agree. *)
Definition handle_consistent (d : SA32Driver) : Prop :=
  _connected d = true ↔ is_Some (_client d).

(** What a method hands on to the next one: the configuration, and, for a
    non-mock session, a handle whenever the session is Connected. *)
Definition keeps (d d' : SA32Driver) : Prop :=
  same_config d d' ∧
  (mock_mode (settings d) = false →
   (_connected d = true → is_Some (_client d)) →
   _connected d' = true → is_Some (_client d')).

(** No transport traffic outside the lock regions of a trace. *)
Definition traffic_under_lock (t : list Effect) : Prop :=
  Forall (λ e, is_traffic e = false) t.

(** A transport that never opens: [client.connect()] answers False, and a
    request on the unopened client raises pymodbus's ConnectionException. *)
Definition refusing : Transport unit :=
  {| PYMODBUS_AVAILABLE := true;
     client_init := λ _ w, (Return tt, w);
     client_connect := λ _ w, (Return false, w);
     client_close := λ _ w, (Return tt, w);
     client_request := λ _ _ w,
       (Raise (ModbusException "Modbus Error: [Connection] Not connected"), w);
     random_randint := λ lo _ w, (lo, w) |}.

(** [SA32Driver(auto_reconnect=True, max_reconnect_attempts=3,
    reconnect_delay=0)] *)
Definition reconnecting_args : InitArgs :=
  {| protocol_name := "TCP"; host := "127.0.0.1";
     port := PortNumber DEFAULT_TCP_PORT; slave_id := 1;
     baudrate := DEFAULT_BAUDRATE; parity := DEFAULT_PARITY;
     stopbits := DEFAULT_STOP_BITS; bytesize := DEFAULT_DATA_BITS;
     timeout := DEFAULT_TIMEOUT; auto_reconnect := true;
     reconnect_delay := 0%Q; max_reconnect_attempts := 3;
     mock_mode := false |}.

(** What a register operation does once [_ensure_connected] has returned
    and left the session [d0]: its transport or mock access runs in one
    lock region of its own; the connection state and the handle are not
    touched; when it returns, LastError is as before in mock mode and is
    reset otherwise; when it raises, it raises SA32CommunicationError on
    a non-mock session, with an error recorded. *)
Definition access_facts (d0 : SA32Driver) (r : Outcome Value) (d1 : SA32Driver)
    (t : list Effect) : Prop :=
  (∃ body, t = [Locked body] ∧ Forall (λ e, is_locked e = false) body) ∧
  settings d1 = settings d0 ∧ _connected d1 = _connected d0 ∧
  _client d1 = _client d0 ∧
  match r with
  | Return _ =>
      _last_error d1
      = if mock_mode (settings d0) then _last_error d0 else EquipmentError_default
  | Raise e =>
      is_CommunicationError e = true ∧ mock_mode (settings d0) = false ∧
      status (_last_error d1) = true
  end.

Definition is_sleep (e : Effect) : bool :=
  match e with Sleep _ => true | _ => false end.

(** The lock region of one [connect()]: no region and no sleep inside,
    and at most one [client.connect()]. *)
Definition connect_region (body : list Effect) : Prop :=
  Forall (λ e, is_locked e = false ∧ is_sleep e = false) body ∧
  (count_effects is_connect_attempt body ≤ 1)%nat.

(** The shape of the trace of a reconnect loop: the lock regions of the
    [connect()] calls, each taken and released on its own, and sleeps,
    which all happen while the lock is free. *)
Definition reconnect_step (e : Effect) : Prop :=
  match e with
  | Locked body => connect_region body
  | Sleep _ => True
  | _ => False
  end.

Definition reconnect_trace (t : list Effect) : Prop := Forall reconnect_step t.

(** Concrete sessions for the scenarios below. *)
Definition mock_args : InitArgs :=
  {| protocol_name := "TCP"; host := "127.0.0.1";
     port := PortNumber DEFAULT_TCP_PORT; slave_id := 1;
     baudrate := DEFAULT_BAUDRATE; parity := DEFAULT_PARITY;
     stopbits := DEFAULT_STOP_BITS; bytesize := DEFAULT_DATA_BITS;
     timeout := DEFAULT_TIMEOUT; auto_reconnect := false;
     reconnect_delay := 5%Q; max_reconnect_attempts := 3;
     mock_mode := true |}.

(** The client [connect] builds for [SA32Driver()]. *)
Definition tcp_client : Client :=
  ModbusTcpClient "127.0.0.1" (PortNumber DEFAULT_TCP_PORT) DEFAULT_TIMEOUT.

(** [SA32Driver()] after a successful [connect()]. *)
Definition tcp_connected : SA32Driver :=
  set_connected true (set_client (Some tcp_client) (fresh TCP default_args)).

(** [d] with the single callback [cb] registered for [event]. *)
Definition with_callback (event : string) (cb : Callback) (d : SA32Driver)
    : SA32Driver :=
  set_callbacks (<[event := [cb]]> (_callbacks d)) d.

(** A world of the scripted transport that opens and closes normally and
    answers the register requests with [rs]. *)
Definition answering (rs : list (Outcome Response)) : Script :=
  {| open_result := Return true; close_result := Return tt;
     replies := rs; randoms := [] |}.

(** An exception response of the device with exception code 2 (illegal
    data address). *)
Definition illegal_address_repr : string :=
  "ExceptionResponse(dev_id=1, function_code=131, exception_code=2)".

Definition illegal_address : Response :=
  ExceptionResponse (Some 2) illegal_address_repr.

(** A world whose [client.close()] raises. *)
Definition failing_close : Script :=
  {| open_result := Return true;
     close_result := Raise (PyException "[Errno 9] Bad file descriptor");
     replies := []; randoms := [] |}.

(** [SA32Driver(mock_mode=True)] after [connect()]. *)
Definition mock_connected : SA32Driver :=
  set_connected true (fresh TCP mock_args).

(** [SA32Driver()] connected, after a read that failed on a transport
    exception. *)
Definition tcp_after_failure : SA32Driver :=
  set_last_error
    {| status := true; code := -2;
       source := "Exception Modbus: No response received" |}
    tcp_connected.

(** [SA32Driver(timeout=0)] *)
Definition zero_timeout_args : InitArgs := with_timeout 0%Q default_args.

(** The public operations of the connection and of register access. *)
Inductive PublicCall : Type :=
  | CallConnect
  | CallDisconnect
  | CallOp (op : RegisterOp).

(** The state a public call leaves, whether it returns or raises. *)
Definition after_call {W} (tr : Transport W) (c : PublicCall) (s : Sys W)
    : Sys W :=
  match c with
  | CallConnect => (connect tr s).1.2
  | CallDisconnect => (disconnect tr s).1.2
  | CallOp op => (run_op tr op s).1.2
  end.

Definition after_calls {W} (tr : Transport W) (cs : list PublicCall)
    (s : Sys W) : Sys W :=
  foldl (λ s c, after_call tr c s) s cs.

(** ** The context manager *)

Section ContextManager.
Context {W : Type} (tr : Transport W).

(** [__enter__]: connects and returns the session itself. *)
Definition __enter__ : M W unit :=
  _ ← connect tr; mret tt.

(** [__exit__]: disconnects and returns False, whatever exception the
    block raised: exceptions are not suppressed. *)
Definition __exit__ : M W bool :=
  disconnect tr;; mret false.

(** [with driver: body]. When [__enter__] raises, neither the block nor
    [__exit__] runs; otherwise [__exit__] runs on every exit of the block,
    and an exception of the block goes on unless [__exit__] answers a true
    value ([None] stands for a suppressed exception). *)
Definition with_statement {A} (body : M W A) : M W (option A) := λ s,
  match __enter__ s with
  | (Raise e, s1, t1) => (Raise e, s1, t1)
  | (Return _, s1, t1) =>
      let '(r, s2, t2) := body s1 in
      match __exit__ s2 with
      | (Raise e, s3, t3) => (Raise e, s3, t1 ++ t2 ++ t3)
      | (Return suppress, s3, t3) =>
          (match r with
           | Return a => Return (Some a)
           | Raise e => if suppress then Return None else Raise e
           end, s3, t1 ++ t2 ++ t3)
      end
  end.
End ContextManager.

(** ** More predicates of the properties *)

(** Everything that reaches pymodbus: building a client and calling it. *)
Definition is_client_effect (e : Effect) : bool :=
  match e with
  | ClientNew _ | ClientConnect _ | ClientClose _ | ClientRequest _ _ => true
  | _ => false
  end.

(** The request a register operation sends, for the slave of the session. *)
Definition op_request (op : RegisterOp) (slave : Z) : Request :=
  match op with
  | ReadHolding address count => ReadHoldingRegisters address count slave
  | ReadInput address count => ReadInputRegisters address count slave
  | WriteSingle address value => WriteRegister address value slave
  | WriteMultiple address values => WriteRegisters address values slave
  end.

(** What a register operation returns for a normal response. *)
Definition op_value (op : RegisterOp) (registers : list Z) : Value :=
  match op with
  | ReadHolding _ _ | ReadInput _ _ => Registers registers
  | WriteSingle _ _ | WriteMultiple _ _ => Written true
  end.

(** The events a register operation fires for a normal response: reads
    hand the registers to 'on_data_received', writes fire nothing. *)
Definition op_events (op : RegisterOp) (registers : list Z)
    (d : SA32Driver) : list Effect :=
  match op with
  | ReadHolding address _ | ReadInput address _ =>
      invocations "on_data_received" (Some (RegisterData address registers))
        (default [] (_callbacks d !! "on_data_received"))
  | WriteSingle _ _ | WriteMultiple _ _ => []
  end.

(** "la lecture" for a read, "l'écriture" for a write. *)
Definition op_what (op : RegisterOp) : string :=
  match op with
  | ReadHolding _ _ | ReadInput _ _ => "la lecture"
  | WriteSingle _ _ | WriteMultiple _ _ => "l'écriture"
  end.

Definition in_16_bits (v : Z) : Prop := 0 ≤ v ≤ 65535.

(** The LastError the session records when an operation finds it
    Disconnected and auto-reconnect is off. *)
Definition no_connection_error : EquipmentError :=
  {| status := true; code := -1;
     source := "Aucune connexion active. Appelez connect() d'abord." |}.

(** The LastError the [except] clauses of a register operation record for
    the exception [e]: code -2 and the prefix "Exception Modbus" when the
    first clause catches it, code -3 and the prefix "Erreur inattendue"
    otherwise. *)
Definition failure_record {W} (tr : Transport W) (what : string) (e : PyExc)
    : EquipmentError :=
  if caught_as_ModbusException tr e then
    {| status := true; code := -2; source := "Exception Modbus: " +:+ str e |}
  else
    {| status := true; code := -3;
       source := "Erreur inattendue lors de " +:+ what +:+ ": " +:+ str e |}.

(** [xs] with [sep] between every two neighbours. *)
Fixpoint between {A} (sep : A) (xs : list A) : list A :=
  match xs with
  | [] => []
  | [x] => [x]
  | x :: rest => x :: sep :: between sep rest
  end.

(** The lock region of a [connect()] that failed on the transport: one
    [client.connect()], no region and no sleep inside. *)
Definition failed_connect_region (body : list Effect) : Prop :=
  Forall (λ e, is_locked e = false ∧ is_sleep e = false) body ∧
  count_effects is_connect_attempt body = 1%nat.

(** The exception the branch [if response.isError()] raises. *)
Definition response_exception (what repr : string) : PyExc :=
  SA32CommunicationError ("Erreur Modbus lors de " +:+ what +:+ ": " +:+ repr).

(** The trace of a public call, whether it returns or raises. *)
Definition trace_of_call {W} (tr : Transport W) (c : PublicCall) (s : Sys W)
    : list Effect :=
  match c with
  | CallConnect => (connect tr s).2
  | CallDisconnect => (disconnect tr s).2
  | CallOp op => (run_op tr op s).2
  end.


(** [a] with the given [auto_reconnect] and [max_reconnect_attempts]. *)
Definition with_reconnect (auto : bool) (attempts : Z) (a : InitArgs) : InitArgs :=
  {| protocol_name := protocol_name a; host := host a; port := port a;
     slave_id := slave_id a; baudrate := baudrate a; parity := parity a;
     stopbits := stopbits a; bytesize := bytesize a; timeout := timeout a;
     auto_reconnect := auto; reconnect_delay := reconnect_delay a;
     max_reconnect_attempts := attempts;
     mock_mode := mock_mode a |}.

(** [a] with the given [reconnect_delay]. *)
Definition with_reconnect_delay (delay : Q) (a : InitArgs) : InitArgs :=
  {| protocol_name := protocol_name a; host := host a; port := port a;
     slave_id := slave_id a; baudrate := baudrate a; parity := parity a;
     stopbits := stopbits a; bytesize := bytesize a; timeout := timeout a;
     auto_reconnect := auto_reconnect a; reconnect_delay := delay;
     max_reconnect_attempts := max_reconnect_attempts a;
     mock_mode := mock_mode a |}.

(** A connected mock session whose registers 100 and 101 hold 70000 and
    0, as [set_mock_register] or a mock write leaves them. *)
Definition mock_with_wide_register : SA32Driver :=
  set_mock_registers (<[100 := 70000]> (<[101 := 0]> ∅)) mock_connected.

(** The binary32 pattern of 3.14159274, the float nearest to pi. *)
Definition float32_pi : Z := 1078530011.


(** * Properties *)

(** ** Construction *)

Lemma protocol_getitem_valid (name : string) :
  name ∈ valid_protocols → ∃ p, ModbusProtocol_getitem name = Return p.
Proof.
  unfold valid_protocols, ModbusProtocol_getitem.
  rewrite !elem_of_cons, elem_of_nil.
  intros [-> | [-> | []]]; [exists TCP | exists RTU]; reflexivity.
Qed.

Lemma validate_config_accepts (a : InitArgs) :
  valid_config a →
  _validate_config (protocol_name a) (slave_id a) (baudrate a) (bytesize a)
    (parity a) (stopbits a) = Return tt.
Proof.
  intros (Hp & Hs & Hb & Hz & Hy & Ht). unfold _validate_config.
  rewrite !bool_decide_eq_true_2 by assumption. reflexivity.
Qed.

Lemma validate_config_rejects (a : InitArgs) :
  ¬ valid_config a →
  ∃ msg, _validate_config (protocol_name a) (slave_id a) (baudrate a)
           (bytesize a) (parity a) (stopbits a)
         = Raise (SA32ConfigurationError msg).
Proof.
  intros Hbad. unfold _validate_config.
  repeat (case_bool_decide; simpl; [| eexists; reflexivity]).
  exfalso. apply Hbad. repeat split; tauto.
Qed.

(** C7, as amended. Construction checks the protocol name, the slave id,
    the baud rate, the byte size, the parity and the stop bits before any
    session exists: with pymodbus importable or in mock mode, it returns a
    complete fresh session when the six are valid and raises
    SA32ConfigurationError otherwise; the timeout is not examined, so the
    verdict is the same for every timeout, positive or not. *)
Theorem init_validates_six_parameters (available : bool) (a : InitArgs) :
  available = true ∨ mock_mode a = true →
  (valid_config a → ∃ p, __init__ available a = Return (fresh p a)) ∧
  (¬ valid_config a →
     ∃ msg, __init__ available a = Raise (SA32ConfigurationError msg)) ∧
  (∀ t : Q, valid_config (with_timeout t a) ↔ valid_config a).
Proof.
  intros Hav.
  assert (Himp : negb available && negb (mock_mode a) = false).
  { destruct Hav as [-> | ->]; [reflexivity | apply andb_false_r]. }
  unfold __init__. rewrite Himp. split; [| split].
  - intros Hv. rewrite (validate_config_accepts a Hv).
    destruct (protocol_getitem_valid (upper (protocol_name a))) as [p Hp].
    { apply Hv. }
    rewrite Hp. exists p. reflexivity.
  - intros Hbad. destruct (validate_config_rejects a Hbad) as [msg Hmsg].
    rewrite Hmsg. exists msg. reflexivity.
  - intros t. reflexivity.
Qed.

(** ** The float codec *)

Lemma byte_range (x : Z) : 0 ≤ x `mod` 256 < 256.
Proof. apply Z.mod_pos_bound. lia. Qed.

Lemma int_from_bytes_big_pair (x y : Z) :
  int_from_bytes_big [x; y] = x * 256 + y.
Proof. unfold int_from_bytes_big. simpl. lia. Qed.

Lemma to_bytes_of_two_bytes (x y : Z) :
  0 ≤ x < 256 → 0 ≤ y < 256 →
  to_bytes_2_big (int_from_bytes_big [x; y]) = Return [x; y].
Proof.
  intros Hx Hy. rewrite int_from_bytes_big_pair. unfold to_bytes_2_big.
  rewrite bool_decide_eq_true_2 by lia.
  replace ((x * 256 + y) / 256) with x by (apply Z.div_unique with y; lia).
  replace ((x * 256 + y) `mod` 256) with y by (apply Z.mod_unique with x; lia).
  reflexivity.
Qed.

Lemma float32_bytes (v : Z) :
  is_float32 v →
  (((v / 16777216) `mod` 256 * 256 + (v / 65536) `mod` 256) * 256
     + (v / 256) `mod` 256) * 256 + v `mod` 256 = v.
Proof.
  unfold is_float32. intros Hv.
  pose proof (Z.div_mod v 256 ltac:(lia)) as H0.
  pose proof (Z.div_mod (v / 256) 256 ltac:(lia)) as H1.
  pose proof (Z.div_mod (v / 256 / 256) 256 ltac:(lia)) as H2.
  rewrite Z.div_div in H1, H2 by lia.
  rewrite Z.div_div in H2 by lia.
  change (256 * 256) with 65536 in *. change (65536 * 256) with 16777216 in *.
  assert (H3 : (v / 16777216) `mod` 256 = v / 16777216).
  { apply Z.mod_small. split.
    - apply Z.div_pos; lia.
    - apply Z.div_lt_upper_bound; lia. }
  lia.
Qed.

Lemma decode_encode_float (byteorder wordorder : Endian) (v : Z) :
  is_float32 v →
  decode_float byteorder wordorder (encode_float byteorder wordorder v) = Return v.
Proof.
  intros Hv. pose proof (float32_bytes v Hv) as Hsum.
  pose proof (byte_range (v / 16777216)) as R3.
  pose proof (byte_range (v / 65536)) as R2.
  pose proof (byte_range (v / 256)) as R1.
  pose proof (byte_range v) as R0.
  unfold decode_float, fromRegisters, encode_float, to_registers,
    add_32bit_float, BinaryPayloadBuilder_init, decode_32bit_float.
  destruct byteorder; simpl;
    rewrite !to_bytes_of_two_bytes by assumption; simpl; f_equal; lia.
Qed.

(** C8. For every finite float32 value [v], given by its bit pattern, and
    every byte order and word order, encoding [v] into registers gives
    exactly two 16-bit registers, and decoding them with the same orders
    gives back the pattern of [v], bit for bit. Signed zero and the
    subnormals are among the patterns covered. *)
Theorem float_codec_round_trip (byteorder wordorder : Endian) (v : Z) :
  is_finite32 v →
  (∃ hi lo, encode_float byteorder wordorder v = [hi; lo] ∧
            0 ≤ hi ≤ 65535 ∧ 0 ≤ lo ≤ 65535) ∧
  decode_float byteorder wordorder (encode_float byteorder wordorder v) = Return v.
Proof.
  intros [Hv _]. split.
  - pose proof (byte_range (v / 16777216)) as R3.
    pose proof (byte_range (v / 65536)) as R2.
    pose proof (byte_range (v / 256)) as R1.
    pose proof (byte_range v) as R0.
    destruct byteorder; eexists _, _; (split; [reflexivity |]);
      rewrite !int_from_bytes_big_pair; lia.
  - apply decode_encode_float, Hv.
Qed.

(** ** The monad and the callbacks *)

Ltac run_monad :=
  unfold mbind, mret, M_bind, M_ret, get_self, update_self, raise,
    try_except, with_lock, call_world; simpl.

Section Properties.
Context {W : Type} (tr : Transport W).

Lemma invoke_all (event : string) (data : option Payload)
    (cbs : list Callback) (s : Sys W) :
  foldM (λ _ callback, emit (Invoke event callback data)) tt cbs s
  = (Return tt, s, invocations event data cbs).
Proof.
  induction cbs as [| cb cbs IH]; [reflexivity |].
  simpl. unfold mbind, M_bind. simpl. rewrite IH. reflexivity.
Qed.

(** [_trigger_callbacks] calls the registered callbacks and changes
    neither the session nor the world. *)
Lemma trigger_callbacks_run (event : string) (data : option Payload) (s : Sys W) :
  _trigger_callbacks event data s
  = (Return tt, s,
     invocations event data (default [] (_callbacks (self s) !! event))).
Proof.
  unfold _trigger_callbacks. run_monad.
  destruct (_callbacks (self s) !! event) as [cbs |]; simpl.
  - rewrite invoke_all. reflexivity.
  - reflexivity.
Qed.

Lemma record_error_run (err : EquipmentError) (d : SA32Driver) (w : W) :
  record_error err {| self := d; world := w |}
  = (Return tt, {| self := set_last_error err d; world := w |},
     invocations "on_error" (Some (ErrorData err))
       (default [] (_callbacks d !! "on_error"))).
Proof.
  unfold record_error. run_monad. rewrite trigger_callbacks_run. reflexivity.
Qed.

Lemma ensure_connected_when_connected (s : Sys W) :
  _connected (self s) = true → _ensure_connected tr s = (Return tt, s, []).
Proof.
  intros Hc. unfold _ensure_connected. run_monad. rewrite Hc. reflexivity.
Qed.
End Properties.

(** ** The simulated backend *)

Section MockBackend.
Context {W : Type} (tr : Transport W).

Lemma mock_write_loop (address : Z) (ivs : list (Z * Z)) (d : SA32Driver) (w : W) :
  foldM (mock_write_step address) tt ivs {| self := d; world := w |}
  = (Return tt,
     {| self := set_mock_registers (store_all address ivs (_mock_registers d)) d;
        world := w |}, []).
Proof.
  revert d. induction ivs as [| [i v] ivs IH]; intros d.
  - destruct d. reflexivity.
  - simpl. unfold mbind at 1. unfold M_bind at 1.
    unfold mock_write_step at 1. unfold _mock_write_register.
    unfold mbind, M_bind, mret, M_ret, update_self. simpl.
    rewrite IH. reflexivity.
Qed.

Lemma store_all_untouched (address j : Z) (ivs : list (Z * Z)) (m : gmap Z Z) :
  (∀ i v, (i, v) ∈ ivs → i ≠ j) →
  store_all address ivs m !! (address + j) = m !! (address + j).
Proof.
  revert m. induction ivs as [| [i v] ivs IH]; intros m Hne; [reflexivity |].
  simpl. rewrite IH.
  - apply lookup_insert_ne. specialize (Hne i v (list_elem_of_here _ _)). lia.
  - intros i' v' Hin. apply (Hne i' v'). apply list_elem_of_further, Hin.
Qed.

Lemma enumerate_from_cons (k : Z) (v : Z) (vs : list Z) :
  zip (seqZ k (Z.of_nat (length (v :: vs)))) (v :: vs)
  = (k, v) :: zip (seqZ (Z.succ k) (Z.of_nat (length vs))) vs.
Proof.
  rewrite length_cons, Nat2Z.inj_succ, seqZ_cons by lia.
  rewrite Z.pred_succ. reflexivity.
Qed.

(** After the values are stored, each of them is found at its address. *)
Lemma store_all_lookup (address k : Z) (vs : list Z) (m : gmap Z Z) :
  Forall2 (λ i v,
      store_all address (zip (seqZ k (Z.of_nat (length vs))) vs) m
        !! (address + i) = Some v)
    (seqZ k (Z.of_nat (length vs))) vs.
Proof.
  revert k m. induction vs as [| v vs IH]; intros k m; [constructor |].
  rewrite enumerate_from_cons.
  rewrite length_cons, Nat2Z.inj_succ, (seqZ_cons k), Z.pred_succ by lia.
  constructor.
  - simpl. rewrite store_all_untouched.
    + apply lookup_insert_eq.
    + intros i v' Hin. apply elem_of_zip_l in Hin.
      apply elem_of_seqZ in Hin. lia.
  - simpl. apply IH.
Qed.

(** Reading addresses that all hold a value returns the values, draws
    no random number and leaves the session as it is. *)
Lemma mock_read_loop_present (address : Z) (idx vals acc : list Z)
    (d : SA32Driver) (w : W) :
  Forall2 (λ i v, _mock_registers d !! (address + i) = Some v) idx vals →
  foldM (mock_read_step tr address) acc idx {| self := d; world := w |}
  = (Return (acc ++ vals), {| self := d; world := w |}, []).
Proof.
  intros Hall. revert acc.
  induction Hall as [| i v idx vals Hi _ IH]; intros acc.
  - simpl. rewrite app_nil_r. reflexivity.
  - simpl. unfold mbind at 1. unfold M_bind at 1.
    unfold mock_read_step at 1.
    unfold mbind at 1. unfold M_bind at 1. unfold get_self at 1. simpl.
    rewrite Hi. unfold mret at 1. unfold M_ret at 1.
    rewrite IH. rewrite <- app_assoc. reflexivity.
Qed.
End MockBackend.

Section MockRoundTrip.
Context {W : Type} (tr : Transport W).

(** The mock branch of [write_registers]: the values are stored from
    [address] on, under one lock acquisition, and nothing else happens. *)
Lemma mock_write_registers_run (address : Z) (vs : list Z) (d : SA32Driver) (w : W) :
  mock_mode (settings d) = true →
  _connected d = true →
  write_registers tr address vs {| self := d; world := w |}
  = (Return true,
     {| self := set_mock_registers
                  (store_all address (enumerate vs) (_mock_registers d)) d;
        world := w |},
     [Locked []]).
Proof.
  intros Hmock Hconn.
  unfold write_registers. unfold mbind at 1. unfold M_bind at 1.
  rewrite ensure_connected_when_connected by exact Hconn.
  unfold with_lock. unfold mbind at 1. unfold M_bind at 1.
  unfold get_self at 1. simpl. rewrite Hmock.
  unfold mbind at 1. unfold M_bind at 1.
  rewrite mock_write_loop. reflexivity.
Qed.

(** The mock branch of a read whose addresses all hold a value: the
    values are returned, in order, and handed to the 'on_data_received'
    callbacks; the session does not change. *)
Lemma mock_read_stored_run (kind : RegisterType) (address : Z) (vs : list Z)
    (d : SA32Driver) (w : W) :
  mock_mode (settings d) = true →
  _connected d = true →
  Forall2 (λ i v, _mock_registers d !! (address + i) = Some v)
    (seqZ 0 (Z.of_nat (length vs))) vs →
  read_registers tr kind address (Z.of_nat (length vs)) {| self := d; world := w |}
  = (Return vs, {| self := d; world := w |},
     [Locked (invocations "on_data_received" (Some (RegisterData address vs))
                (default [] (_callbacks d !! "on_data_received")))]).
Proof.
  intros Hmock Hconn Hall.
  unfold read_registers. unfold mbind at 1. unfold M_bind at 1.
  rewrite ensure_connected_when_connected by exact Hconn.
  unfold with_lock. unfold mbind at 1. unfold M_bind at 1.
  unfold get_self at 1. simpl. rewrite Hmock.
  unfold mbind at 1. unfold M_bind at 1.
  unfold _mock_read_registers.
  rewrite (mock_read_loop_present tr address _ vs [] d w Hall).
  unfold mbind at 1. unfold M_bind at 1.
  rewrite trigger_callbacks_run. unfold mret, M_ret. simpl.
  rewrite app_nil_r. reflexivity.
Qed.

(** C9. On a connected mock-mode session, for every address and every
    sequence [vs] of values (the non-empty sequences of 16-bit unsigned
    values among them), [write_registers address vs] returns True and a
    following [read_holding_registers address len(vs)] returns exactly
    [vs], in order. *)
Theorem mock_write_then_read (address : Z) (vs : list Z) (s : Sys W) :
  mock_mode (settings (self s)) = true →
  _connected (self s) = true →
  ∃ s1 t1 s2 t2,
    write_registers tr address vs s = (Return true, s1, t1) ∧
    read_holding_registers tr address (Z.of_nat (length vs)) s1
    = (Return vs, s2, t2).
Proof.
  destruct s as [d w]. simpl. intros Hmock Hconn.
  eexists _, _, _, _. split.
  - apply mock_write_registers_run; assumption.
  - apply mock_read_stored_run; [exact Hmock | exact Hconn |].
    apply store_all_lookup.
Qed.

(** A float written by [write_float] on a connected mock-mode session is
    read back by [read_float], bit for bit, with the same orders, where
    the payload classes are bound. *)
Lemma mock_write_float_then_read (address v : Z) (byte_order word_order : option Endian)
    (d : SA32Driver) (w : W) :
  PYMODBUS_AVAILABLE tr = true →
  mock_mode (settings d) = true →
  _connected d = true →
  is_float32 v →
  ∃ s1 t1 s2 t2,
    write_float tr address v byte_order word_order {| self := d; world := w |}
    = (Return true, s1, t1) ∧
    read_float tr address HOLDING byte_order word_order s1
    = (Return (Some v), s2, t2).
Proof.
  intros Hav Hmock Hconn Hv.
  pose proof (decode_encode_float (default DEFAULT_BYTE_ORDER byte_order)
                (default DEFAULT_WORD_ORDER word_order) v Hv) as Hdec.
  unfold decode_float, encode_float in Hdec.
  unfold write_float, read_float, read_holding_registers. rewrite Hav.
  assert (Hregs : ∃ hi lo,
    to_registers
      (add_32bit_float v
         (BinaryPayloadBuilder_init (default DEFAULT_BYTE_ORDER byte_order)
            (default DEFAULT_WORD_ORDER word_order))) = [hi; lo]).
  { destruct (default DEFAULT_BYTE_ORDER byte_order); eexists _, _; reflexivity. }
  destruct Hregs as (hi & lo & Hregs). rewrite Hregs in *.
  destruct (fromRegisters [hi; lo] _ _) as [decoder | e] eqn:Hfrom;
    [| discriminate Hdec].
  eexists _, _, _, _. split.
  - apply mock_write_registers_run; assumption.
  - unfold mbind at 1. unfold M_bind at 1.
    change 2 with (Z.of_nat (length [hi; lo])).
    rewrite mock_read_stored_run;
      [| exact Hmock | exact Hconn | apply store_all_lookup].
    unfold lift_outcome. unfold mbind at 1. unfold M_bind at 1.
    rewrite Hfrom. unfold mbind at 1. unfold M_bind at 1. rewrite Hdec.
    reflexivity.
Qed.

(** C10. On a connected mock-mode session a read of [count = 0]
    registers does not fail: it returns the empty list, calls every
    'on_data_received' callback with [{'address': address, 'values': []}]
    inside the lock, draws no random value and leaves the session, its
    mock register map included, unchanged. *)
Theorem mock_read_of_zero_registers (address : Z) (s : Sys W) :
  mock_mode (settings (self s)) = true →
  _connected (self s) = true →
  read_holding_registers tr address 0 s
  = (Return [], s,
     [Locked (invocations "on_data_received" (Some (RegisterData address []))
                (default [] (_callbacks (self s) !! "on_data_received")))]).
Proof.
  intros Hmock Hconn.
  unfold read_holding_registers, read_registers.
  unfold mbind at 1. unfold M_bind at 1.
  rewrite ensure_connected_when_connected by exact Hconn.
  unfold with_lock. unfold mbind at 1. unfold M_bind at 1.
  unfold get_self at 1. simpl. rewrite Hmock.
  unfold _mock_read_registers. simpl.
  unfold mbind at 1. unfold M_bind at 1. unfold mret at 1. unfold M_ret at 1.
  unfold mbind at 1. unfold M_bind at 1.
  rewrite trigger_callbacks_run. unfold mret, M_ret. simpl.
  rewrite app_nil_r. reflexivity.
Qed.
End MockRoundTrip.

(** ** Connection *)

Section Connection.
Context {W : Type} (tr : Transport W).

Lemma invocations_not_locked (event : string) (data : option Payload)
    (cbs : list Callback) :
  Forall (λ e, is_locked e = false) (invocations event data cbs).
Proof.
  unfold invocations. apply Forall_fmap, Forall_true. intros cb. reflexivity.
Qed.

Lemma invocations_no_traffic (event : string) (data : option Payload)
    (cbs : list Callback) :
  Forall (λ e, is_traffic e = false) (invocations event data cbs).
Proof.
  unfold invocations. apply Forall_fmap, Forall_true. intros cb. reflexivity.
Qed.

(** What every call of [connect] does, whatever the transport answers:
    it takes the lock once, for all its effects; it returns True or
    raises SA32ConnectionError; it changes neither the settings, the
    callbacks nor the mock registers; the session is Connected after a
    return and keeps its state after a raise; a mock session keeps its
    LastError; a Connected session has a handle if it had one. *)
Lemma connect_facts (d : SA32Driver) (w : W) :
  let '(r, s1, t) := connect tr {| self := d; world := w |} in
  (∃ body, t = [Locked body] ∧ Forall (λ e, is_locked e = false) body) ∧
  keeps d (self s1) ∧
  (mock_mode (settings d) = true → _last_error (self s1) = _last_error d) ∧
  match r with
  | Return b => b = true ∧ _connected (self s1) = true
  | Raise e => is_ConnectionError e = true ∧ _connected (self s1) = _connected d
               ∧ mock_mode (settings d) = false
  end.
Proof.
  unfold connect, keeps, same_config. run_monad.
  destruct (_connected d) eqn:Hconn; simpl.
  { repeat split; eauto. }
  destruct (mock_mode (settings d)) eqn:Hmock; simpl.
  { rewrite trigger_callbacks_run. simpl.
    repeat split; eauto; try discriminate.
    eexists. split; [reflexivity |]. rewrite app_nil_r.
    apply invocations_not_locked. }
  destruct (PYMODBUS_AVAILABLE tr); simpl.
  - destruct (client_init tr (new_client d) w) as [[[] | e] w0]; simpl.
    + destruct (client_connect tr (new_client d) w0) as [[[|] | e] w1]; simpl;
        rewrite ?trigger_callbacks_run, ?record_error_run; simpl;
        (repeat split; eauto; try discriminate; try (eexists; reflexivity));
        (eexists; split; [reflexivity |]);
        rewrite ?app_nil_r; repeat constructor;
        apply invocations_not_locked.
    + rewrite record_error_run. simpl.
      repeat split; eauto; try discriminate; try (intros; congruence).
      eexists; split; [reflexivity |].
      rewrite ?app_nil_r; repeat constructor; apply invocations_not_locked.
  - rewrite record_error_run. simpl.
    repeat split; eauto; try discriminate; try (intros; congruence).
    eexists; split; [reflexivity |].
    rewrite ?app_nil_r; repeat constructor; apply invocations_not_locked.
Qed.

(** A failed open: [connect] raises SA32ConnectionError, records the
    error, calls the 'on_error' callbacks, and leaves the session
    Disconnected with the client it has just built still in [_client]. *)
Lemma connect_when_open_fails (d : SA32Driver) (w : W) :
  open_always_fails tr →
  _connected d = false →
  mock_mode (settings d) = false →
  ∃ msg err w1,
    connect tr {| self := d; world := w |}
    = (Raise (SA32ConnectionError msg),
       {| self := set_last_error err (set_client (Some (new_client d)) d);
          world := w1 |},
       [Locked ([ClientNew (new_client d); ClientConnect (new_client d)]
                ++ invocations "on_error" (Some (ErrorData err))
                     (default [] (_callbacks d !! "on_error")))]) ∧
    status err = true ∧ code err = -1.
Proof.
  intros (Hav & Hinit & Hopen) Hconn Hmock.
  unfold connect. run_monad. rewrite Hconn, Hmock, Hav. simpl.
  specialize (Hinit (new_client d) w).
  destruct (client_init tr (new_client d) w) as [r0 w0]. simpl in Hinit.
  subst r0. simpl.
  specialize (Hopen (new_client d) w0).
  destruct (client_connect tr (new_client d) w0) as [[[|] | e] w1];
    simpl in *; [congruence | |];
    rewrite record_error_run; simpl; rewrite ?app_nil_r;
    eexists _, _, _; (split; [reflexivity |]); split; reflexivity.
Qed.
End Connection.

(** ** Counting effects *)

Lemma flatten_app (t1 t2 : list Effect) :
  flatten (t1 ++ t2) = flatten t1 ++ flatten t2.
Proof. unfold flatten. apply bind_app. Qed.

Lemma count_effects_app (p : Effect → bool) (t1 t2 : list Effect) :
  count_effects p (t1 ++ t2) = (count_effects p t1 + count_effects p t2)%nat.
Proof.
  unfold count_effects. rewrite flatten_app, filter_app, length_app. reflexivity.
Qed.

Lemma count_effects_locked (p : Effect → bool) (body : list Effect) :
  count_effects p [Locked body] = count_effects p body.
Proof.
  unfold count_effects, flatten. simpl. rewrite app_nil_r. reflexivity.
Qed.

Lemma count_effects_invocations (p : Effect → bool) (event : string)
    (data : option Payload) (cbs : list Callback) :
  (∀ cb, p (Invoke event cb data) = false) →
  count_effects p (invocations event data cbs) = 0%nat.
Proof.
  intros Hp. induction cbs as [| cb cbs IH]; [reflexivity |].
  change (invocations event data (cb :: cbs))
    with ([Invoke event cb data] ++ invocations event data cbs).
  rewrite count_effects_app, IH. unfold count_effects, flatten. simpl.
  rewrite filter_cons_False; [reflexivity |]. rewrite Hp. simpl. tauto.
Qed.

Lemma lock_acquisitions_app (t1 t2 : list Effect) :
  lock_acquisitions (t1 ++ t2)
  = (lock_acquisitions t1 + lock_acquisitions t2)%nat.
Proof. unfold lock_acquisitions. rewrite filter_app, length_app. reflexivity. Qed.

(** ** Reconnection *)

Lemma keeps_refl (d : SA32Driver) : keeps d d.
Proof. unfold keeps, same_config. tauto. Qed.

Lemma keeps_trans (d1 d2 d3 : SA32Driver) :
  keeps d1 d2 → keeps d2 d3 → keeps d1 d3.
Proof.
  unfold keeps, same_config.
  intros ((Hs & Hp & Hc & Hm) & H12) ((Hs' & Hp' & Hc' & Hm') & H23).
  rewrite Hs in *. repeat split; try congruence. tauto.
Qed.

Lemma reconnect_trace_under_lock (t : list Effect) :
  reconnect_trace t → traffic_under_lock t.
Proof.
  unfold reconnect_trace, traffic_under_lock. intros Ht.
  eapply Forall_impl; [exact Ht |].
  intros [] H; simpl in *; tauto || reflexivity.
Qed.

Lemma invocations_quiet (event : string) (data : option Payload)
    (cbs : list Callback) :
  Forall (λ e, is_locked e = false ∧ is_sleep e = false)
    (invocations event data cbs).
Proof.
  unfold invocations. apply Forall_fmap, Forall_true. intros cb. split; reflexivity.
Qed.

Lemma connect_region_invocations (pre : list Effect) (event : string)
    (data : option Payload) (cbs : list Callback) :
  Forall (λ e, is_locked e = false ∧ is_sleep e = false) pre →
  (count_effects is_connect_attempt pre ≤ 1)%nat →
  connect_region (pre ++ invocations event data cbs).
Proof.
  intros Hpre Hcount. split.
  - apply Forall_app. split; [exact Hpre | apply invocations_quiet].
  - rewrite count_effects_app, count_effects_invocations by reflexivity. lia.
Qed.

Section Reconnect.
Context {W : Type} (tr : Transport W).

(** The trace of [connect] is one lock region, with no region and no
    sleep inside and at most one [client.connect()]. *)
Lemma connect_region_facts (d : SA32Driver) (w : W) :
  ∃ body,
    (connect tr {| self := d; world := w |}).2 = [Locked body] ∧
    connect_region body.
Proof.
  unfold connect. run_monad.
  destruct (_connected d); simpl.
  { eexists. split; [reflexivity |]. split; [constructor | vm_compute; lia]. }
  destruct (mock_mode (settings d)); simpl.
  { rewrite trigger_callbacks_run. simpl. rewrite ?app_nil_r.
    eexists. split; [reflexivity |].
    apply (connect_region_invocations []); [constructor | vm_compute; lia]. }
  destruct (PYMODBUS_AVAILABLE tr); simpl.
  - destruct (client_init tr (new_client d) w) as [[[] | e] w0]; simpl.
    + destruct (client_connect tr (new_client d) w0) as [[[|] | e] w1]; simpl;
        rewrite ?trigger_callbacks_run, ?record_error_run; simpl;
        rewrite ?app_nil_r; (eexists; split; [reflexivity |]);
        apply (connect_region_invocations [ClientNew _; ClientConnect _]);
        (repeat constructor) || (vm_compute; lia).
    + rewrite record_error_run. simpl. rewrite ?app_nil_r.
      eexists. split; [reflexivity |].
      apply (connect_region_invocations [ClientNew _]);
        (repeat constructor) || (vm_compute; lia).
  - rewrite record_error_run. simpl. rewrite ?app_nil_r.
    eexists. split; [reflexivity |].
    apply (connect_region_invocations []); [constructor | vm_compute; lia].
Qed.

(** A [connect] that raises has recorded its error. *)
Lemma connect_raise_status (d : SA32Driver) (w : W) (e : PyExc) (s1 : Sys W)
    (t : list Effect) :
  connect tr {| self := d; world := w |} = (Raise e, s1, t) →
  status (_last_error (self s1)) = true.
Proof.
  unfold connect. run_monad.
  destruct (_connected d); simpl; [discriminate |].
  destruct (mock_mode (settings d)); simpl.
  { rewrite trigger_callbacks_run. simpl. discriminate. }
  destruct (PYMODBUS_AVAILABLE tr); simpl.
  - destruct (client_init tr (new_client d) w) as [[[] | e0] w0]; simpl.
    + destruct (client_connect tr (new_client d) w0) as [[[|] | e0] w1]; simpl;
        rewrite ?trigger_callbacks_run, ?record_error_run; simpl;
        intros H; inversion H; subst; reflexivity.
    + rewrite record_error_run. simpl. intros H; inversion H; subst; reflexivity.
  - rewrite record_error_run. simpl. intros H; inversion H; subst; reflexivity.
Qed.

(** One turn of the reconnect loop: it ends the loop with the session
    Connected, or goes on with the session as it was, or raises what
    [time.sleep] raised for the delay of the session, which happens only
    after a failed [connect] that is not the last. Its transport traffic
    is inside the lock region of its [connect] and its sleep is outside. *)
Lemma reconnect_attempt_facts (attempt : Z) (d : SA32Driver) (w : W) :
  let '(r, s1, t) := reconnect_attempt tr attempt {| self := d; world := w |} in
  keeps d (self s1) ∧
  reconnect_trace t ∧
  (mock_mode (settings d) = true → _last_error (self s1) = _last_error d) ∧
  ((r = Return (Some true) ∧ _connected (self s1) = true) ∨
   (r = Return None ∧ _connected (self s1) = _connected d) ∨
   (∃ e, r = Raise e ∧
         sleep_error (reconnect_delay (settings d)) = Some e ∧
         attempt < max_reconnect_attempts (settings d) ∧
         _connected (self s1) = _connected d ∧
         mock_mode (settings d) = false ∧
         status (_last_error (self s1)) = true)).
Proof.
  unfold reconnect_attempt, try_except. unfold mbind at 1. unfold M_bind at 1.
  pose proof (connect_facts tr d w) as H.
  destruct (connect_region_facts d w) as (body' & Hbody' & Hregion).
  pose proof (connect_raise_status d w) as Hstatus.
  destruct (connect tr {| self := d; world := w |}) as [[[b | e] s1] t].
  - destruct H as ((body & -> & Hb) & Hk & Hl & -> & Hc). run_monad.
    simpl in Hbody'. injection Hbody' as ->.
    split; [exact Hk |]. split; [constructor; [exact Hregion | constructor] |].
    split; [exact Hl |]. left. split; [reflexivity | exact Hc].
  - destruct H as ((body & -> & Hb) & Hk & Hl & He & Hc & Hm).
    simpl in Hbody'. injection Hbody' as ->.
    specialize (Hstatus e s1 _ eq_refl).
    assert (Hset : settings (self s1) = settings d) by apply Hk.
    destruct e; try discriminate He.
    unfold mbind at 1. unfold M_bind at 1. unfold get_self at 1. simpl.
    rewrite Hset. unfold mbind at 1. unfold M_bind at 1.
    case_bool_decide as Hlt.
    + unfold time_sleep.
      destruct (sleep_error (reconnect_delay (settings d))) as [e |] eqn:Hsleep.
      * unfold raise. simpl. rewrite ?app_nil_r.
        split; [exact Hk |]. split; [constructor; [exact Hregion | constructor] |].
        split; [exact Hl |]. right. right. exists e. auto 10.
      * unfold emit. run_monad.
        split; [exact Hk |].
        split; [constructor; [exact Hregion | constructor; [exact I | constructor]] |].
        split; [exact Hl |]. right. left. split; [reflexivity | exact Hc].
    + run_monad.
      split; [exact Hk |]. split; [constructor; [exact Hregion | constructor] |].
      split; [exact Hl |]. right. left. split; [reflexivity | exact Hc].
Qed.

Lemma reconnect_loop_facts (xs : list Z) (d : SA32Driver) (w : W) :
  let '(r, s1, t) :=
    for_return xs (reconnect_attempt tr) {| self := d; world := w |} in
  keeps d (self s1) ∧
  reconnect_trace t ∧
  (mock_mode (settings d) = true → _last_error (self s1) = _last_error d) ∧
  ((r = Return (Some true) ∧ _connected (self s1) = true) ∨
   (r = Return None ∧ _connected (self s1) = _connected d) ∨
   (∃ e x, r = Raise e ∧
           sleep_error (reconnect_delay (settings d)) = Some e ∧
           x ∈ xs ∧ x < max_reconnect_attempts (settings d) ∧
           _connected (self s1) = _connected d ∧
           mock_mode (settings d) = false ∧
           status (_last_error (self s1)) = true)).
Proof.
  revert d w. induction xs as [| x xs IH]; intros d w.
  - simpl. split; [apply keeps_refl |]. split; [constructor |].
    split; [reflexivity |]. right. left. split; reflexivity.
  - simpl. unfold mbind at 1. unfold M_bind at 1.
    pose proof (reconnect_attempt_facts x d w) as H.
    destruct (reconnect_attempt tr x {| self := d; world := w |})
      as [[r [d1 w1]] t].
    destruct H as (Hk & Ht & Hl & [[-> Hc] | [[-> Hc] | (e & -> & He)]]);
      simpl in *.
    + rewrite app_nil_r. split; [exact Hk |]. split; [exact Ht |].
      split; [exact Hl |]. left. split; [reflexivity | exact Hc].
    + specialize (IH d1 w1).
      destruct (for_return xs (reconnect_attempt tr) {| self := d1; world := w1 |})
        as [[r' s2] t'].
      destruct IH as (Hk' & Ht' & Hl' & Hr).
      assert (Hset : settings d1 = settings d) by apply Hk.
      rewrite Hset in Hl', Hr.
      split; [eapply keeps_trans; eauto |].
      split; [apply Forall_app; split; assumption |].
      split; [intros Hm; rewrite Hl', Hl by exact Hm; reflexivity |].
      destruct Hr as [[-> Hc'] | [[-> Hc'] | (e & y & -> & Hs & Hy & Hlt & Hc' & Hm & Hst)]].
      * left. split; congruence.
      * right. left. split; congruence.
      * right. right. exists e, y.
        split; [reflexivity |]. split; [exact Hs |].
        split; [apply elem_of_cons; right; exact Hy |].
        split; [exact Hlt |]. split; [congruence |]. split; assumption.
    + destruct He as (Hs & Hlt & Hc & Hm & Hst).
      split; [exact Hk |]. split; [exact Ht |]. split; [exact Hl |].
      right. right. exists e, x.
      split; [reflexivity |]. split; [exact Hs |].
      split; [apply elem_of_cons; left; reflexivity |]. auto.
Qed.

(** [_ensure_connected] returns, or raises SA32ConnectionError on a
    Disconnected session without auto-reconnect, or lets through what
    [time.sleep] raised for the delay of the session, after a failed
    [connect] of the reconnect loop that was not the last; when it
    returns, a mock session has kept its LastError, and when it raises,
    the session is Disconnected and has an error recorded. *)
Lemma ensure_connected_facts (d : SA32Driver) (w : W) :
  let '(r, s1, t) := _ensure_connected tr {| self := d; world := w |} in
  same_config d (self s1) ∧
  traffic_under_lock t ∧
  (_connected d = true → t = []) ∧
  (auto_reconnect (settings d) = true → reconnect_trace t) ∧
  match r with
  | Return _ =>
      keeps d (self s1) ∧
      (_connected d = true ∨ auto_reconnect (settings d) = true) ∧
      (mock_mode (settings d) = true → _last_error (self s1) = _last_error d)
  | Raise e =>
      _connected d = false ∧ _connected (self s1) = false ∧
      status (_last_error (self s1)) = true ∧
      ((is_ConnectionError e = true ∧ auto_reconnect (settings d) = false ∧
        _client (self s1) = _client d) ∨
       (sleep_error (reconnect_delay (settings d)) = Some e ∧
        auto_reconnect (settings d) = true ∧
        mock_mode (settings d) = false ∧
        1 < max_reconnect_attempts (settings d)))
  end.
Proof.
  unfold _ensure_connected. run_monad.
  destruct (_connected d) eqn:Hconn; simpl.
  { split; [repeat split |]. split; [constructor |].
    split; [reflexivity |]. split; [constructor |].
    split; [apply keeps_refl |]. split; [left; reflexivity | reflexivity]. }
  destruct (auto_reconnect (settings d)) eqn:Hauto; simpl.
  - unfold _attempt_reconnect. run_monad.
    pose proof (reconnect_loop_facts
                  (seqZ 1 (max_reconnect_attempts (settings d))) d w) as H.
    destruct (for_return _ (reconnect_attempt tr) {| self := d; world := w |})
      as [[r s1] t].
    destruct H as (Hk & Ht & Hl & [[-> Hc] | [[-> Hc] | (e & x & -> & Hs & Hx & Hlt & Hc & Hm & Hst)]]);
      simpl; rewrite ?app_nil_r;
      (split; [apply Hk |]);
      (split; [apply reconnect_trace_under_lock, Ht |]);
      (split; [discriminate |]); (split; [intros _; exact Ht |]).
    + split; [exact Hk |]. split; [right; reflexivity | exact Hl].
    + split; [exact Hk |]. split; [right; reflexivity | exact Hl].
    + split; [reflexivity |]. split; [congruence |]. split; [exact Hst |].
      right. split; [exact Hs |]. split; [reflexivity |]. split; [exact Hm |].
      apply elem_of_seqZ in Hx. lia.
  - rewrite record_error_run. simpl.
    split; [repeat split |].
    split; [rewrite app_nil_r; apply invocations_no_traffic |].
    split; [discriminate |]. split; [discriminate |].
    split; [reflexivity |]. split; [exact Hconn |]. split; [reflexivity |].
    left. repeat split.
Qed.
End Reconnect.

Lemma new_client_same_config (d d' : SA32Driver) :
  same_config d d' → new_client d' = new_client d.
Proof. intros (Hs & Hp & _). unfold new_client. rewrite Hs, Hp. reflexivity. Qed.

Lemma count_effects_zero (p : Effect → bool) (t : list Effect) :
  Forall (λ e, is_locked e = false ∧ p e = false) t →
  count_effects p t = 0%nat.
Proof.
  induction 1 as [| e t [Hl Hp] _ IH]; [reflexivity |].
  change (e :: t) with ([e] ++ t). rewrite count_effects_app, IH.
  unfold count_effects, flatten. simpl.
  destruct e; try discriminate Hl; simpl;
    (rewrite filter_cons_False; [reflexivity |]);
    simpl in *; rewrite Hp; simpl; tauto.
Qed.

Lemma failed_connect_region_shape (c : Client) (event : string)
    (data : option Payload) (cbs : list Callback) :
  failed_connect_region
    ([ClientNew c; ClientConnect c] ++ invocations event data cbs).
Proof.
  split.
  - apply Forall_app. split; [| apply invocations_quiet].
    repeat constructor.
  - rewrite count_effects_app, count_effects_invocations by reflexivity.
    reflexivity.
Qed.

Lemma failed_connect_region_is_connect_region (body : list Effect) :
  failed_connect_region body → connect_region body.
Proof. intros [Hq Hc]. split; [exact Hq | lia]. Qed.

Lemma between_cons_cons {A} (sep x y : A) (l : list A) :
  between sep (x :: y :: l) = [x; sep] ++ between sep (y :: l).
Proof. reflexivity. Qed.

(** The trace of a run of failed connects with a sleep between every
    two: as many lock acquisitions and [client.connect()] calls as there
    are connects, one sleep fewer, and every sleep with the lock free. *)
Lemma between_regions_counts (q : Q) (bodies : list (list Effect)) :
  Forall failed_connect_region bodies →
  count_effects is_connect_attempt (between (Sleep q) (Locked <$> bodies))
  = length bodies ∧
  lock_acquisitions (between (Sleep q) (Locked <$> bodies)) = length bodies ∧
  count_effects is_sleep (between (Sleep q) (Locked <$> bodies))
  = pred (length bodies) ∧
  reconnect_trace (between (Sleep q) (Locked <$> bodies)).
Proof.
  induction 1 as [| b bs Hb Hbs IH]; [repeat split; constructor |].
  assert (Hone : count_effects is_connect_attempt [Locked b] = 1%nat
                 ∧ count_effects is_sleep [Locked b] = 0%nat).
  { rewrite !count_effects_locked. split; [apply Hb |].
    apply count_effects_zero. eapply Forall_impl; [apply Hb |].
    simpl. tauto. }
  destruct Hone as [Hc Hs].
  destruct bs as [| b' bs].
  - simpl. rewrite Hc, Hs. split; [reflexivity |]. split; [reflexivity |].
    split; [reflexivity |]. constructor; [| constructor].
    apply failed_connect_region_is_connect_region, Hb.
  - destruct IH as (IHc & IHl & IHs & IHt).
    rewrite fmap_cons, fmap_cons, between_cons_cons. rewrite <- fmap_cons.
    change [Locked b; Sleep q] with ([Locked b] ++ [Sleep q]).
    rewrite <- !app_assoc, !count_effects_app, !lock_acquisitions_app.
    rewrite Hc, Hs, IHc, IHl, IHs. simpl length.
    split; [reflexivity |]. split; [reflexivity |]. split; [reflexivity |].
    constructor; [apply failed_connect_region_is_connect_region, Hb |].
    constructor; [exact I | exact IHt].
Qed.

Section ExhaustedReconnect.
Context {W : Type} (tr : Transport W).
Hypothesis Hfails : open_always_fails tr.

(** One turn of the reconnect loop when the open fails: a failed
    [connect] in its lock region, followed, unless the turn is the last,
    by the sleep, or by what [time.sleep] raises. *)
Lemma reconnect_attempt_when_open_fails (attempt : Z) (d : SA32Driver) (w : W) :
  _connected d = false →
  mock_mode (settings d) = false →
  ∃ d1 w1 body,
    reconnect_attempt tr attempt {| self := d; world := w |}
    = (if bool_decide (attempt < max_reconnect_attempts (settings d)) then
         match sleep_error (reconnect_delay (settings d)) with
         | None => (Return None, {| self := d1; world := w1 |},
                    [Locked body; Sleep (reconnect_delay (settings d))])
         | Some e => (Raise e, {| self := d1; world := w1 |}, [Locked body])
         end
       else (Return None, {| self := d1; world := w1 |}, [Locked body])) ∧
    failed_connect_region body ∧
    same_config d d1 ∧ mock_mode (settings d1) = false ∧
    _connected d1 = false ∧ _client d1 = Some (new_client d) ∧
    status (_last_error d1) = true ∧ code (_last_error d1) = -1.
Proof using Hfails.
  intros Hconn Hmock.
  destruct (connect_when_open_fails tr d w Hfails Hconn Hmock)
    as (msg & err & w1 & Hrun & Hstatus & Hcode).
  unfold reconnect_attempt, try_except. unfold mbind at 1. unfold M_bind at 1.
  rewrite Hrun. run_monad. unfold time_sleep.
  eexists _, _, _. split.
  - case_bool_decide; [destruct (sleep_error _) |]; simpl;
      rewrite ?app_nil_r; reflexivity.
  - split; [apply failed_connect_region_shape |].
    split; [repeat split |]. split; [exact Hmock |].
    split; [exact Hconn |]. split; [reflexivity |].
    split; [exact Hstatus | exact Hcode].
Qed.

(** The turns [k], [k+1], ..., [max_reconnect_attempts] of the reconnect
    loop when every open fails and [time.sleep] accepts the delay: one
    failed [connect] for each turn, and the sleep between every two. *)
Lemma reconnect_loop_when_open_fails (n : nat) (k : Z) (d : SA32Driver) (w : W) :
  _connected d = false →
  mock_mode (settings d) = false →
  1 ≤ k →
  k + Z.of_nat n = max_reconnect_attempts (settings d) + 1 →
  (1 < max_reconnect_attempts (settings d) →
   sleep_error (reconnect_delay (settings d)) = None) →
  ∃ d1 w1 bodies,
    for_return (seqZ k (Z.of_nat n)) (reconnect_attempt tr)
      {| self := d; world := w |}
    = (Return None, {| self := d1; world := w1 |},
       between (Sleep (reconnect_delay (settings d))) (Locked <$> bodies)) ∧
    length bodies = n ∧ Forall failed_connect_region bodies ∧
    same_config d d1 ∧ _connected d1 = false ∧
    (n ≠ 0%nat → status (_last_error d1) = true).
Proof using Hfails.
  revert k d w. induction n as [| n IH]; intros k d w Hconn Hmock Hk Hmax Hsleep.
  - exists d, w, []. simpl. split; [reflexivity |]. split; [reflexivity |].
    split; [constructor |]. split; [repeat split |]. split; [exact Hconn |].
    congruence.
  - rewrite seqZ_cons by lia.
    replace (Z.pred (Z.of_nat (S n))) with (Z.of_nat n) by lia.
    destruct (reconnect_attempt_when_open_fails k d w Hconn Hmock)
      as (d1 & w1 & body & Hrun & Hbody & Hsame & Hmock1 & Hconn1 & _ & Hst1 & _).
    assert (Hset : settings d1 = settings d) by apply Hsame.
    destruct (IH (Z.succ k) d1 w1 Hconn1 Hmock1) as
      (d2 & w2 & bodies & Hloop & Hlen & Hall & Hsame2 & Hconn2 & Hst2);
      [lia | rewrite Hset; lia | rewrite Hset; exact Hsleep |].
    rewrite Hset in Hloop.
    simpl. unfold mbind at 1. unfold M_bind at 1. rewrite Hrun.
    exists d2, w2, (body :: bodies).
    split.
    + case_bool_decide as Hlt.
      * rewrite Hsleep by lia. rewrite Hloop.
        destruct bodies as [| b bs]; [simpl in Hlen; lia |]. reflexivity.
      * rewrite Hloop.
        destruct bodies as [| b bs]; [reflexivity | simpl in Hlen; lia].
    + split; [simpl; congruence |]. split; [constructor; assumption |].
      split.
      { destruct Hsame as (? & ? & ? & ?), Hsame2 as (? & ? & ? & ?).
        repeat split; congruence. }
      split; [exact Hconn2 |]. intros _.
      destruct n as [| n']; [| apply Hst2; discriminate].
      simpl in Hloop. injection Hloop as <- _ _. exact Hst1.
Qed.

(** C1, what the code does. With auto-reconnect on a Disconnected
    non-mock session, a transport whose open always fails, and a reconnect
    delay [time.sleep] accepts (a condition only when more than one
    attempt is allowed, as no sleep follows the last), [_ensure_connected]
    makes exactly [max_reconnect_attempts] connect attempts, each under
    its own lock acquisition, and then returns normally: no
    SA32ConnectionError is raised and the session is still
    Disconnected. *)
Theorem exhausted_reconnect_returns (d : SA32Driver) (w : W) :
  mock_mode (settings d) = false →
  auto_reconnect (settings d) = true →
  _connected d = false →
  (1 < max_reconnect_attempts (settings d) →
   sleep_error (reconnect_delay (settings d)) = None) →
  ∃ s1 t,
    _ensure_connected tr {| self := d; world := w |} = (Return tt, s1, t) ∧
    _connected (self s1) = false ∧
    count_effects is_connect_attempt t
    = Z.to_nat (max_reconnect_attempts (settings d)) ∧
    lock_acquisitions t = Z.to_nat (max_reconnect_attempts (settings d)).
Proof using Hfails.
  intros Hmock Hauto Hconn Hsleep.
  unfold _ensure_connected, _attempt_reconnect. run_monad.
  rewrite Hconn, Hauto. simpl.
  destruct (decide (max_reconnect_attempts (settings d) ≤ 0)) as [Hmax | Hmax].
  { rewrite seqZ_nil by lia. simpl.
    eexists _, _. split; [reflexivity |]. split; [exact Hconn |].
    rewrite Z2Nat.nonpos by lia. split; reflexivity. }
  destruct (reconnect_loop_when_open_fails
              (Z.to_nat (max_reconnect_attempts (settings d))) 1 d w Hconn Hmock)
    as (d1 & w1 & bodies & Hrun & Hlen & Hall & _ & Hconn1 & _);
    [lia | lia | exact Hsleep |].
  rewrite Z2Nat.id in Hrun by lia. rewrite Hrun. simpl.
  destruct (between_regions_counts (reconnect_delay (settings d)) bodies Hall)
    as (Hcount & Hlock & _).
  eexists _, _. split; [reflexivity |]. rewrite !app_nil_r.
  rewrite Hcount, Hlock, Hlen. auto.
Qed.
End ExhaustedReconnect.

(** ** Register access *)

Section RegisterAccess.
Context {W : Type} (tr : Transport W).

(** The loop of [_mock_read_registers] always returns; it only adds to
    the mock registers and only draws random numbers. *)
Lemma mock_read_loop_facts (address : Z) (idx acc : list Z)
    (d : SA32Driver) (w : W) :
  ∃ vs m w1 t,
    foldM (mock_read_step tr address) acc idx {| self := d; world := w |}
    = (Return vs, {| self := set_mock_registers m d; world := w1 |}, t) ∧
    Forall (λ e, is_locked e = false) t.
Proof.
  revert acc d w. induction idx as [| i idx IH]; intros acc d w.
  - exists acc, (_mock_registers d), w, []. split; [| constructor].
    destruct d. reflexivity.
  - simpl. unfold mbind at 1. unfold M_bind at 1.
    unfold mock_read_step at 1.
    unfold mbind at 1. unfold M_bind at 1. unfold get_self at 1. simpl.
    destruct (_mock_registers d !! (address + i)) as [v |].
    + unfold mret at 1. unfold M_ret at 1.
      destruct (IH (acc ++ [v]) d w) as (vs & m & w1 & t & Hrun & Ht).
      rewrite Hrun. exists vs, m, w1, t. split; [reflexivity | exact Ht].
    + run_monad. destruct (random_randint tr 0 65535 w) as [v w0]. simpl.
      destruct (IH (acc ++ [v])
                  (set_mock_registers (<[address + i := v]> (_mock_registers d)) d)
                  w0) as (vs & m & w1 & t & Hrun & Ht).
      rewrite Hrun. exists vs, m, w1, (RandInt 0 65535 :: t).
      split; [reflexivity |]. constructor; [reflexivity | exact Ht].
Qed.

(** Both [except] clauses record an error, call the 'on_error'
    callbacks and raise SA32CommunicationError, with code -2 or -3. *)
Lemma communication_failure_run {A} (what : string) (e : PyExc)
    (d : SA32Driver) (w : W) :
  ∃ msg err,
    communication_failure (A := A) tr what e {| self := d; world := w |}
    = (Raise (SA32CommunicationError msg),
       {| self := set_last_error err d; world := w |},
       invocations "on_error" (Some (ErrorData err))
         (default [] (_callbacks d !! "on_error"))) ∧
    status err = true ∧
    code err = (if caught_as_ModbusException tr e then -2 else -3).
Proof.
  unfold communication_failure.
  destruct (caught_as_ModbusException tr e);
    unfold mbind at 1; unfold M_bind at 1;
    rewrite record_error_run; run_monad; rewrite app_nil_r;
    eexists _, _; (split; [reflexivity |]); split; reflexivity.
Qed.

Lemma invocations_cons_not_locked (e : Effect) (event : string)
    (data : option Payload) (cbs : list Callback) :
  is_locked e = false →
  Forall (λ e, is_locked e = false) (e :: invocations event data cbs).
Proof. intros He. constructor; [exact He | apply invocations_not_locked]. Qed.

(** The non-mock branch of a register operation, case by case: no
    handle, an exception response, a normal response, an exception. *)
Ltac non_mock_access :=
  unfold try_except, client_call; unfold mbind at 1; unfold M_bind at 1;
  unfold mbind at 1; unfold M_bind at 1; unfold get_self at 1; simpl;
  match goal with
  | |- context [_client ?d0] => destruct (_client d0) as [c |] eqn:Hclient
  end;
  [ unfold call_world;
    match goal with
    | |- context [client_request ?tr ?c ?req ?w0] =>
        destruct (client_request tr c req w0)
          as [[[exception_code repr | registers] | e] w1]
    end; simpl
  | unfold raise at 1; simpl ];
  try (unfold response_error; unfold mbind at 1; unfold M_bind at 1;
       unfold update_self at 1; unfold raise at 1; simpl);
  try match goal with
  | |- context [@communication_failure _ _ ?A ?what ?e ?s] =>
      let msg := fresh "msg" in
      let err := fresh "err" in
      let Hrun := fresh "Hrun" in
      let Hst := fresh "Hst" in
      destruct (communication_failure_run (A := A) what e
                  (self s) (world s)) as (msg & err & Hrun & Hst & _);
      simpl in Hrun; rewrite Hrun; simpl
  end;
  try (run_monad; rewrite ?trigger_callbacks_run; simpl);
  (eexists; split; [reflexivity |]; unfold access_facts; simpl;
   try match goal with H : mock_mode _ = _ |- _ => rewrite H end; split;
   [ eexists; split; [reflexivity |]; rewrite ?app_nil_r;
     repeat (constructor; [reflexivity |]);
     first [apply invocations_not_locked | constructor]
   | repeat split; assumption || reflexivity ]).

(** Every register operation is [_ensure_connected] followed by one
    lock region; see [access_facts]. *)
Lemma run_op_facts (op : RegisterOp) (d : SA32Driver) (w : W) :
  let '(r0, s0, t0) := _ensure_connected tr {| self := d; world := w |} in
  let '(r, s1, t) := run_op tr op {| self := d; world := w |} in
  match r0 with
  | Raise e0 => r = Raise e0 ∧ s1 = s0 ∧ t = t0
  | Return _ =>
      ∃ t1, t = t0 ++ t1 ∧ access_facts (self s0) r (self s1) t1
  end.
Proof.
  destruct op as [address count | address count | address value | address values];
    unfold run_op, read_holding_registers, read_input_registers, read_registers,
      write_register, write_registers;
    unfold mbind at 1; unfold M_bind at 1;
    destruct (_ensure_connected tr {| self := d; world := w |})
      as [[[[] | e0] [d0 w0]] t0]; simpl; try (repeat split; reflexivity);
    unfold with_lock; unfold mbind at 1; unfold M_bind at 1;
    unfold get_self at 1; simpl;
    destruct (mock_mode (settings d0)) eqn:Hmock.
  all: try non_mock_access.
  - (* read_holding_registers, mock *)
    unfold mbind at 1. unfold M_bind at 1. unfold _mock_read_registers.
    destruct (mock_read_loop_facts address (seqZ 0 count) [] d0 w0)
      as (vs & m & w1 & t & Hrun & Ht).
    rewrite Hrun. unfold mbind at 1. unfold M_bind at 1.
    rewrite trigger_callbacks_run. unfold mret, M_ret. simpl.
    eexists. split; [reflexivity |]. unfold access_facts. simpl.
    rewrite Hmock. split; [| repeat split].
    eexists. split; [reflexivity |]. rewrite app_nil_r.
    apply Forall_app. split; [exact Ht | apply invocations_not_locked].
  - (* read_input_registers, mock *)
    unfold mbind at 1. unfold M_bind at 1. unfold _mock_read_registers.
    destruct (mock_read_loop_facts address (seqZ 0 count) [] d0 w0)
      as (vs & m & w1 & t & Hrun & Ht).
    rewrite Hrun. unfold mbind at 1. unfold M_bind at 1.
    rewrite trigger_callbacks_run. unfold mret, M_ret. simpl.
    eexists. split; [reflexivity |]. unfold access_facts. simpl.
    rewrite Hmock. split; [| repeat split].
    eexists. split; [reflexivity |]. rewrite app_nil_r.
    apply Forall_app. split; [exact Ht | apply invocations_not_locked].
  - (* write_register, mock *)
    unfold _mock_write_register. run_monad.
    eexists. split; [reflexivity |]. unfold access_facts. simpl.
    rewrite Hmock. split; [| repeat split].
    eexists. split; [reflexivity | constructor].
  - (* write_registers, mock *)
    unfold mbind at 1. unfold M_bind at 1. rewrite mock_write_loop.
    unfold mret, M_ret. simpl.
    eexists. split; [reflexivity |]. unfold access_facts. simpl.
    rewrite Hmock. split; [| repeat split].
    eexists. split; [reflexivity | constructor].
Qed.
End RegisterAccess.

(** ** Failure paths *)

Section FailurePaths.
Context {W : Type} (tr : Transport W).

(** C2, what the code does. On a connected non-mock session whose
    transport answers a read with an exception response carrying the
    device's exception code [k], [read_holding_registers] raises
    SA32CommunicationError and calls the 'on_error' callbacks, but the
    LastError it leaves, and hands to the callbacks, has the code of the
    generic [except] clause that caught the operation's own exception:
    -3 (-2 without pymodbus), whatever [k] is. *)
Theorem exception_code_overwritten (address count k : Z) (repr : string)
    (d : SA32Driver) (c : Client) (w w1 : W) :
  mock_mode (settings d) = false →
  _connected d = true →
  _client d = Some c →
  client_request tr c (ReadHoldingRegisters address count (slave_id (settings d))) w
  = (Return (ExceptionResponse (Some k) repr), w1) →
  ∃ msg err,
    read_holding_registers tr address count {| self := d; world := w |}
    = (Raise (SA32CommunicationError msg),
       {| self := set_last_error err d; world := w1 |},
       [Locked (ClientRequest c
                  (ReadHoldingRegisters address count (slave_id (settings d)))
                :: invocations "on_error" (Some (ErrorData err))
                     (default [] (_callbacks d !! "on_error")))]) ∧
    status err = true ∧
    code err = (if PYMODBUS_AVAILABLE tr then -3 else -2).
Proof.
  intros Hmock Hconn Hclient Hreply.
  unfold read_holding_registers, read_registers.
  unfold mbind at 1. unfold M_bind at 1.
  rewrite ensure_connected_when_connected by exact Hconn.
  unfold with_lock. unfold mbind at 1. unfold M_bind at 1.
  unfold get_self at 1. simpl. rewrite Hmock.
  unfold try_except, client_call. unfold mbind at 1. unfold M_bind at 1.
  unfold mbind at 1. unfold M_bind at 1. unfold get_self at 1. simpl.
  rewrite Hclient. unfold call_world. simpl. rewrite Hreply. simpl.
  match goal with
  | |- context [@communication_failure _ _ ?A ?what ?e ?s] =>
      destruct (communication_failure_run (A := A) tr what e (self s) (world s))
        as (msg & err & Hrun & Hst & Hcode)
  end.
  simpl in Hrun. rewrite Hrun. simpl.
  exists msg, err. split; [reflexivity |]. split; [exact Hst |].
  rewrite Hcode. simpl. destruct (PYMODBUS_AVAILABLE tr); reflexivity.
Qed.

(** C6, what the code does. On a Connected non-mock session whose
    [client.close()] raises, [disconnect] returns, the session is
    Disconnected and the handle dropped, but no 'on_disconnect' callback
    is called: the trace holds the close alone. *)
Theorem close_failure_skips_disconnect_event (d : SA32Driver) (c : Client)
    (e : PyExc) (w w1 : W) :
  mock_mode (settings d) = false →
  _connected d = true →
  _client d = Some c →
  client_close tr c w = (Raise e, w1) →
  disconnect tr {| self := d; world := w |}
  = (Return tt,
     {| self := set_client None (set_connected false d); world := w1 |},
     [Locked [ClientClose c]]).
Proof.
  intros Hmock Hconn Hclient Hclose.
  unfold disconnect. run_monad. rewrite Hconn, Hmock, Hclient. simpl.
  rewrite Hclose. reflexivity.
Qed.

(** When the close returns, the same call ends with the calls to the
    'on_disconnect' callbacks. *)
Lemma close_success_fires_disconnect_event (d : SA32Driver) (c : Client)
    (w w1 : W) :
  mock_mode (settings d) = false →
  _connected d = true →
  _client d = Some c →
  client_close tr c w = (Return tt, w1) →
  disconnect tr {| self := d; world := w |}
  = (Return tt,
     {| self := set_client None (set_connected false d); world := w1 |},
     [Locked (ClientClose c
              :: invocations "on_disconnect" None
                   (default [] (_callbacks d !! "on_disconnect")))]).
Proof.
  intros Hmock Hconn Hclient Hclose.
  unfold disconnect. run_monad. rewrite Hconn, Hmock, Hclient. simpl.
  rewrite Hclose. simpl. rewrite trigger_callbacks_run. simpl.
  rewrite ?app_nil_r. reflexivity.
Qed.

(** C4, what the code does. When the open fails on a Disconnected
    non-mock session, [connect] raises SA32ConnectionError and leaves
    the session Disconnected with the client it built still in
    [_client]: state and handle disagree. *)
Theorem failed_connect_keeps_handle (d : SA32Driver) (w : W) :
  open_always_fails tr →
  mock_mode (settings d) = false →
  _connected d = false →
  ∃ e s1 t,
    connect tr {| self := d; world := w |} = (Raise e, s1, t) ∧
    is_ConnectionError e = true ∧
    _connected (self s1) = false ∧
    _client (self s1) = Some (new_client d) ∧
    ¬ handle_consistent (self s1).
Proof.
  intros Hfails Hmock Hconn.
  destruct (connect_when_open_fails tr d w Hfails Hconn Hmock)
    as (msg & err & w1 & Hrun & _).
  rewrite Hrun. eexists _, _, _. split; [reflexivity |].
  split; [reflexivity |]. split; [exact Hconn |]. split; [reflexivity |].
  unfold handle_consistent. simpl. rewrite Hconn.
  intros [_ H]. discriminate H. eexists. reflexivity.
Qed.
End FailurePaths.

(** ** LastError and the lock *)

Section Operations.
Context {W : Type} (tr : Transport W).

(** C3, as amended. When a register operation returns, a mock-mode
    session has the LastError it had before the call, and a non-mock
    session has the no-error state: the success path of the transport
    branch resets the slot. [clear_error] resets it, and a fresh session
    starts with the no-error state. *)
Theorem last_error_after_success (op : RegisterOp) (s s1 : Sys W) (v : Value)
    (t : list Effect) :
  run_op tr op s = (Return v, s1, t) →
  _last_error (self s1)
  = (if mock_mode (settings (self s)) then _last_error (self s)
     else EquipmentError_default) ∧
  clear_error s1
  = (Return tt,
     {| self := set_last_error EquipmentError_default (self s1);
        world := world s1 |}, []) ∧
  (∀ p a, _last_error (fresh p a) = EquipmentError_default).
Proof.
  destruct s as [d w]. intros Hrun. split; [| split; reflexivity].
  pose proof (run_op_facts tr op d w) as H.
  pose proof (ensure_connected_facts tr d w) as He.
  destruct (_ensure_connected tr {| self := d; world := w |})
    as [[[[] | e0] s0] t0]; rewrite Hrun in H.
  - destruct H as (t1 & _ & _ & Hset & _ & _ & Hlast).
    destruct He as ((Hs & _) & _ & _ & _ & _ & _ & Hkeep).
    simpl. rewrite Hlast, Hs.
    destruct (mock_mode (settings d)); [apply Hkeep |]; reflexivity.
  - destruct H as (H & _). discriminate H.
Qed.

End Operations.

(** ** The properties on concrete sessions *)

Lemma refusing_never_opens : open_always_fails refusing.
Proof.
  split; [reflexivity |]. split; intros c w; simpl; [reflexivity | discriminate].
Qed.

(** C1 on [SA32Driver(auto_reconnect=True, max_reconnect_attempts=3,
    reconnect_delay=0)] and the transport that never opens: three connect
    attempts, then a normal return. *)
Lemma exhausted_reconnect_returns_witness :
  open_always_fails refusing ∧
  mock_mode (settings (fresh TCP reconnecting_args)) = false ∧
  auto_reconnect (settings (fresh TCP reconnecting_args)) = true ∧
  _connected (fresh TCP reconnecting_args) = false ∧
  sleep_error (reconnect_delay (settings (fresh TCP reconnecting_args))) = None ∧
  ∃ s1 t,
    _ensure_connected refusing (start (fresh TCP reconnecting_args) tt)
    = (Return tt, s1, t) ∧
    _connected (self s1) = false ∧
    count_effects is_connect_attempt t = 3%nat ∧
    lock_acquisitions t = 3%nat.
Proof.
  split; [exact refusing_never_opens |].
  split; [reflexivity |]. split; [reflexivity |]. split; [reflexivity |].
  split; [reflexivity |].
  apply (exhausted_reconnect_returns refusing refusing_never_opens
           (fresh TCP reconnecting_args) tt); reflexivity.
Defined.

(** The read that called [_ensure_connected] then goes on to the unopened
    client and fails with SA32CommunicationError, code -2. *)
Example read_after_exhausted_reconnect :
  let '(r, s1, t) :=
    read_holding_registers refusing 100 2 (start (fresh TCP reconnecting_args) tt) in
  r = Raise (SA32CommunicationError
               "Exception Modbus: Modbus Error: [Connection] Not connected") ∧
  code (_last_error (self s1)) = -2 ∧
  _connected (self s1) = false ∧
  count_effects is_connect_attempt t = 3%nat.
Proof. vm_compute. repeat split. Qed.

(** With [reconnect_delay=-1], which [__init__] accepts, the same read is
    left by the ValueError of [time.sleep] after the first failed
    connect: neither three attempts nor a normal return of
    [_ensure_connected]. *)
Example negative_delay_leaves_the_reconnect_loop :
  let a := with_reconnect_delay (-1) reconnecting_args in
  let '(r, s1, t) := read_holding_registers refusing 100 2 (start (fresh TCP a) tt) in
  valid_config a ∧
  r = Raise (PyException "sleep length must be non-negative") ∧
  code (_last_error (self s1)) = -1 ∧
  _connected (self s1) = false ∧
  count_effects is_connect_attempt t = 1%nat ∧
  count_effects is_sleep t = 0%nat.
Proof.
  split; [unfold valid_config; simpl; repeat split; set_solver || lia |].
  vm_compute. repeat split.
Qed.

(** C2 on a connected [SA32Driver()] whose device answers a read with
    exception code 2: LastError ends with code -3. *)
Lemma exception_code_overwritten_witness :
  mock_mode (settings tcp_connected) = false ∧
  _connected tcp_connected = true ∧
  _client tcp_connected = Some tcp_client ∧
  client_request scripted tcp_client (ReadHoldingRegisters 100 2 1)
    (answering [Return illegal_address])
  = (Return illegal_address, answering []) ∧
  ∃ msg err,
    read_holding_registers scripted 100 2
      {| self := tcp_connected; world := answering [Return illegal_address] |}
    = (Raise (SA32CommunicationError msg),
       {| self := set_last_error err tcp_connected; world := answering [] |},
       [Locked [ClientRequest tcp_client (ReadHoldingRegisters 100 2 1)]]) ∧
    status err = true ∧ code err = -3.
Proof.
  split; [reflexivity |]. split; [reflexivity |]. split; [reflexivity |].
  split; [reflexivity |].
  apply (exception_code_overwritten scripted 100 2 2 illegal_address_repr
           tcp_connected tcp_client
           (answering [Return illegal_address]) (answering []));
    reflexivity.
Defined.

(** C6 on a connected [SA32Driver()] with an 'on_disconnect' callback
    registered and a [close()] that raises: the callback is not called. *)
Lemma close_failure_skips_disconnect_event_witness :
  mock_mode (settings (with_callback "on_disconnect" 1%nat tcp_connected)) = false ∧
  _connected (with_callback "on_disconnect" 1%nat tcp_connected) = true ∧
  _client (with_callback "on_disconnect" 1%nat tcp_connected) = Some tcp_client ∧
  client_close scripted tcp_client failing_close
  = (Raise (PyException "[Errno 9] Bad file descriptor"), failing_close) ∧
  _callbacks (with_callback "on_disconnect" 1%nat tcp_connected) !! "on_disconnect"
  = Some [1%nat] ∧
  disconnect scripted
    {| self := with_callback "on_disconnect" 1%nat tcp_connected;
       world := failing_close |}
  = (Return tt,
     {| self := set_client None
                  (set_connected false
                     (with_callback "on_disconnect" 1%nat tcp_connected));
        world := failing_close |},
     [Locked [ClientClose tcp_client]]).
Proof.
  split; [reflexivity |]. split; [reflexivity |]. split; [reflexivity |].
  split; [reflexivity |]. split; [reflexivity |].
  apply (close_failure_skips_disconnect_event scripted
           (with_callback "on_disconnect" 1%nat tcp_connected) tcp_client
           (PyException "[Errno 9] Bad file descriptor")
           failing_close failing_close); reflexivity.
Defined.

(** The same session with a [close()] that returns: the callback is
    called. *)
Example close_success_calls_the_callback :
  (disconnect scripted
     {| self := with_callback "on_disconnect" 1%nat tcp_connected;
        world := answering [] |}).2
  = [Locked [ClientClose tcp_client; Invoke "on_disconnect" 1%nat None]].
Proof. reflexivity. Qed.

(** C4 on [SA32Driver()] and the transport that never opens. *)
Lemma failed_connect_keeps_handle_witness :
  open_always_fails refusing ∧
  mock_mode (settings (fresh TCP default_args)) = false ∧
  _connected (fresh TCP default_args) = false ∧
  ∃ e s1 t,
    connect refusing {| self := fresh TCP default_args; world := tt |}
    = (Raise e, s1, t) ∧
    is_ConnectionError e = true ∧
    _connected (self s1) = false ∧
    _client (self s1) = Some tcp_client ∧
    ¬ handle_consistent (self s1).
Proof.
  split; [exact refusing_never_opens |].
  split; [reflexivity |]. split; [reflexivity |].
  apply (failed_connect_keeps_handle refusing (fresh TCP default_args) tt
           refusing_never_opens); reflexivity.
Defined.

(** C3, the claim refuted: [SA32Driver()] connects, a first read fails on
    a transport exception and records an error, a second read succeeds,
    and the recorded error is gone. *)
Lemma successful_read_resets_last_error :
  let '(_, s1, _) :=
    and_then (connect scripted) (read_holding_registers scripted 100 1)
      (start (fresh TCP default_args)
         (answering [Raise (ModbusException "No response received");
                     Return (RegistersResponse [7])])) in
  let '(r, s2, _) := read_holding_registers scripted 100 1 s1 in
  _last_error (self s1)
  = {| status := true; code := -2;
       source := "Exception Modbus: No response received" |} ∧
  r = Return [7] ∧
  _last_error (self s2) = EquipmentError_default ∧
  _last_error (self s2) ≠ _last_error (self s1).
Proof. vm_compute. repeat split. discriminate. Qed.

(** C3, as amended, on the connected [SA32Driver()] with an error
    recorded, whose next read succeeds. *)
Lemma last_error_after_success_witness :
  ∃ s1 t,
    run_op scripted (ReadHolding 100 1)
      {| self := tcp_after_failure;
         world := answering [Return (RegistersResponse [7])] |}
    = (Return (Registers [7]), s1, t) ∧
    _last_error (self s1) = EquipmentError_default ∧
    clear_error s1
    = (Return tt,
       {| self := set_last_error EquipmentError_default (self s1);
          world := world s1 |}, []) ∧
    (∀ p a, _last_error (fresh p a) = EquipmentError_default).
Proof.
  eexists _, _.
  assert (Hrun :
    run_op scripted (ReadHolding 100 1)
      {| self := tcp_after_failure;
         world := answering [Return (RegistersResponse [7])] |}
    = (Return (Registers [7]),
       {| self := set_last_error EquipmentError_default tcp_after_failure;
          world := answering [] |},
       [Locked [ClientRequest tcp_client (ReadHoldingRegisters 100 1 1)]]))
    by reflexivity.
  split; [exact Hrun |].
  exact (last_error_after_success scripted _ _ _ _ _ Hrun).
Defined.


(** C7, the claim refuted: [SA32Driver(timeout=0)] is built. *)
Lemma zero_timeout_is_accepted :
  (timeout zero_timeout_args <= 0)%Q ∧
  __init__ true zero_timeout_args = Return (fresh TCP zero_timeout_args).
Proof. split; [discriminate | reflexivity]. Qed.

(** C7, as amended, on the default arguments. *)
Lemma init_validates_six_parameters_witness :
  (true = true ∨ mock_mode default_args = true) ∧
  (valid_config default_args →
   ∃ p, __init__ true default_args = Return (fresh p default_args)) ∧
  (¬ valid_config default_args →
   ∃ msg, __init__ true default_args = Raise (SA32ConfigurationError msg)) ∧
  (∀ t : Q, valid_config (with_timeout t default_args) ↔ valid_config default_args).
Proof.
  split; [left; reflexivity |].
  apply (init_validates_six_parameters true default_args). left. reflexivity.
Defined.

(** C8 on negative zero, [0x80000000], and on the smallest subnormal,
    [0x00000001]. *)
Lemma float_codec_round_trip_witness :
  is_finite32 2147483648 ∧
  (∃ hi lo, encode_float BIG LITTLE 2147483648 = [hi; lo] ∧
            0 ≤ hi ≤ 65535 ∧ 0 ≤ lo ≤ 65535) ∧
  decode_float BIG LITTLE (encode_float BIG LITTLE 2147483648) = Return 2147483648.
Proof.
  assert (H : is_finite32 2147483648).
  { split; [unfold is_float32; lia | vm_compute; discriminate]. }
  split; [exact H |].
  apply (float_codec_round_trip BIG LITTLE 2147483648 H).
Defined.

Example float_codec_subnormal :
  encode_float LITTLE BIG 1 = [256; 0] ∧
  decode_float LITTLE BIG [256; 0] = Return 1.
Proof. split; reflexivity. Qed.

(** C9 on the example of the test suite: four values at 2000. *)
Lemma mock_write_then_read_witness :
  mock_mode (settings mock_connected) = true ∧
  _connected mock_connected = true ∧
  ∃ s1 t1 s2 t2,
    write_registers scripted 2000 [111; 222; 333; 444]
      {| self := mock_connected; world := answering [] |}
    = (Return true, s1, t1) ∧
    read_holding_registers scripted 2000 4 s1 = (Return [111; 222; 333; 444], s2, t2).
Proof.
  split; [reflexivity |]. split; [reflexivity |].
  apply (mock_write_then_read scripted 2000 [111; 222; 333; 444]
           {| self := mock_connected; world := answering [] |});
    reflexivity.
Defined.

(** C10 on a connected mock session with one 'on_data_received'
    callback. *)
Lemma mock_read_of_zero_registers_witness :
  mock_mode (settings (with_callback "on_data_received" 1%nat mock_connected)) = true ∧
  _connected (with_callback "on_data_received" 1%nat mock_connected) = true ∧
  read_holding_registers scripted 100 0
    {| self := with_callback "on_data_received" 1%nat mock_connected;
       world := answering [] |}
  = (Return [],
     {| self := with_callback "on_data_received" 1%nat mock_connected;
        world := answering [] |},
     [Locked [Invoke "on_data_received" 1%nat (Some (RegisterData 100 []))]]).
Proof.
  split; [reflexivity |]. split; [reflexivity |].
  apply (mock_read_of_zero_registers scripted 100
           {| self := with_callback "on_data_received" 1%nat mock_connected;
              world := answering [] |}); reflexivity.
Defined.

(** ** State and handle *)

Section StateAndHandle.
Context {W : Type} (tr : Transport W).

(** [disconnect] always returns and leaves the session Disconnected. *)
Lemma disconnect_facts (d : SA32Driver) (w : W) :
  let '(r, s1, t) := disconnect tr {| self := d; world := w |} in
  r = Return tt ∧ _connected (self s1) = false ∧ same_config d (self s1) ∧
  (_connected d = true → mock_mode (settings d) = false →
   _client (self s1) = None).
Proof.
  unfold disconnect, same_config. run_monad.
  destruct (_connected d) eqn:Hconn; simpl.
  2: { repeat split; try assumption; discriminate. }
  destruct (mock_mode (settings d)) eqn:Hmock; simpl.
  { rewrite trigger_callbacks_run. simpl. repeat split; discriminate. }
  destruct (_client d) as [c |]; simpl.
  - destruct (client_close tr c w) as [[[] | e] w1]; simpl;
      rewrite ?trigger_callbacks_run; simpl; repeat split.
  - rewrite trigger_callbacks_run. simpl. repeat split.
Qed.

(** One half of the agreement between state and handle holds after every
    public call, failure paths included: a Connected non-mock session has
    a transport handle. *)
Lemma connected_has_handle_step (c : PublicCall) (d : SA32Driver) (w : W) :
  mock_mode (settings d) = false →
  (_connected d = true → is_Some (_client d)) →
  settings (self (after_call tr c {| self := d; world := w |})) = settings d ∧
  (_connected (self (after_call tr c {| self := d; world := w |})) = true →
   is_Some (_client (self (after_call tr c {| self := d; world := w |})))).
Proof.
  intros Hmock Hinv. destruct c as [| | op]; unfold after_call.
  - pose proof (connect_facts tr d w) as H.
    destruct (connect tr {| self := d; world := w |}) as [[r s1] t].
    destruct H as (_ & ((Hs & _) & Hk) & _). simpl. split; [exact Hs |].
    apply Hk; assumption.
  - pose proof (disconnect_facts d w) as H.
    destruct (disconnect tr {| self := d; world := w |}) as [[r s1] t].
    destruct H as (_ & Hc & (Hs & _) & _). simpl. split; [exact Hs |].
    rewrite Hc. discriminate.
  - pose proof (run_op_facts tr op d w) as H.
    pose proof (ensure_connected_facts tr d w) as He.
    destruct (_ensure_connected tr {| self := d; world := w |})
      as [[r0 s0] t0].
    destruct (run_op tr op {| self := d; world := w |}) as [[r s1] t].
    destruct He as ((Hs & _) & _ & _ & _ & He). simpl.
    destruct r0 as [[] | e0].
    + destruct H as (t1 & _ & _ & Hs1 & Hc1 & Hcl1 & _).
      destruct He as ((_ & Hk) & _).
      split; [congruence |]. rewrite Hc1, Hcl1. apply Hk; assumption.
    + destruct H as (_ & -> & _). destruct He as (_ & Hc0 & _).
      split; [exact Hs |]. rewrite Hc0. discriminate.
Qed.

(** X30. From a freshly constructed non-mock session, after any sequence
    of [connect], [disconnect] and register operations on any transport,
    failures included, a Connected session has a transport handle. *)
Lemma connected_has_handle (cs : list PublicCall) (p : ModbusProtocol)
    (a : InitArgs) (w : W) :
  mock_mode a = false →
  _connected (self (after_calls tr cs (start (fresh p a) w))) = true →
  is_Some (_client (self (after_calls tr cs (start (fresh p a) w)))).
Proof.
  intros Hmock. unfold after_calls.
  assert (Hgen : ∀ s : Sys W,
    mock_mode (settings (self s)) = false →
    (_connected (self s) = true → is_Some (_client (self s))) →
    _connected (self (foldl (λ s c, after_call tr c s) s cs)) = true →
    is_Some (_client (self (foldl (λ s c, after_call tr c s) s cs)))).
  { induction cs as [| c cs IH]; intros s Hm Hinv; simpl; [exact Hinv |].
    destruct s as [d w0].
    destruct (connected_has_handle_step c d w0 Hm Hinv) as [Hs Hinv'].
    apply IH; [simpl in *; congruence | exact Hinv']. }
  apply Hgen; [exact Hmock | discriminate].
Qed.
End StateAndHandle.

(** ** The test suite, replayed on the model *)

(** [test_read_not_connected], [test_on_error_callback] and
    [test_clear_error]: a read on a session that never connected raises
    SA32ConnectionError, calls the 'on_error' callback once, with the
    lock free, and records an error that [clear_error] removes. *)
Example test_read_not_connected :
  let '(r, s1, t) :=
    and_then (register_callback "on_error" 1%nat) (read_holding_register scripted 1000)
      (start (fresh TCP mock_args) (answering [])) in
  let '(_, s2, _) := clear_error s1 in
  r = Raise (SA32ConnectionError "Aucune connexion active. Appelez connect() d'abord.") ∧
  t = [Invoke "on_error" 1%nat (Some (ErrorData (_last_error (self s1))))] ∧
  status (_last_error (self s1)) = true ∧
  code (_last_error (self s1)) = -1 ∧
  _last_error (self s2) = EquipmentError_default.
Proof. vm_compute. repeat split. Qed.

(** [test_set_mock_register] and [test_read_holding_register_mock] *)
Example test_set_mock_register :
  (and_then (connect scripted)
     (and_then (set_mock_register 1000 12345) (read_holding_register scripted 1000))
     (start (fresh TCP mock_args) (answering []))).1.1
  = Return (Some 12345).
Proof. reflexivity. Qed.

(** [test_mock_persistence]: the value drawn by the first read of an
    address is the value of the second read. *)
Example test_mock_persistence :
  let w := {| open_result := Return true; close_result := Return tt;
              replies := []; randoms := [4242; 17] |} in
  let '(r1, s1, t1) :=
    and_then (connect scripted) (read_holding_register scripted 8000)
      (start (fresh TCP mock_args) w) in
  let '(r2, s2, t2) := read_holding_register scripted 8000 s1 in
  r1 = Return (Some 4242) ∧ r2 = Return (Some 4242) ∧
  t1 = [Locked []; Locked [RandInt 0 65535]] ∧
  t2 = [Locked []].
Proof. vm_compute. repeat split. Qed.

(** [test_connect_already_connected] and [test_on_connect_callback]: the
    second [connect()] returns True and calls no callback. *)
Example test_connect_already_connected :
  let '(r, s1, t) :=
    and_then (register_callback "on_connect" 1%nat)
      (and_then (connect scripted) (connect scripted))
      (start (fresh TCP mock_args) (answering [])) in
  r = Return true ∧ _connected (self s1) = true ∧
  t = [Locked [Invoke "on_connect" 1%nat None]; Locked []].
Proof. vm_compute. repeat split. Qed.

(** [test_unregister_callback] *)
Example test_unregister_callback :
  (and_then (register_callback "on_connect" 1%nat)
     (and_then (unregister_callback "on_connect" 1%nat) (connect scripted))
     (start (fresh TCP mock_args) (answering []))).2
  = [Locked []].
Proof. reflexivity. Qed.

(** [test_write_float_mock]: 123.456 is written as the binary32 value
    nearest to it, [0x42F6E979], and read back. *)
Example test_write_float_mock :
  (and_then (connect scripted)
     (and_then (write_float scripted 3000 1123477881 None None)
        (read_float scripted 3000 HOLDING None None))
     (start (fresh TCP mock_args) (answering []))).1.1
  = Return (Some 1123477881).
Proof. reflexivity. Qed.

(** [test_disconnect_not_connected] and [test_context_manager]: on a
    Disconnected session [disconnect()] does nothing; after a connect it
    calls the 'on_disconnect' callbacks. *)
Example test_disconnect :
  let '(r1, s1, t1) := disconnect scripted (start (fresh TCP mock_args) (answering [])) in
  let '(r2, s2, t2) :=
    and_then (register_callback "on_disconnect" 1%nat)
      (and_then (connect scripted) (disconnect scripted)) s1 in
  r1 = Return tt ∧ t1 = [Locked []] ∧ _connected (self s1) = false ∧
  r2 = Return tt ∧ _connected (self s2) = false ∧
  count_effects (is_invoke "on_disconnect") t2 = 1%nat.
Proof. vm_compute. repeat split. Qed.

(** * Further properties *)

(** ** Connecting and disconnecting *)

Section ConnectAndDisconnect.
Context {W : Type} (tr : Transport W).

Lemma connect_when_connected (s : Sys W) :
  _connected (self s) = true → connect tr s = (Return true, s, [Locked []]).
Proof.
  intros Hconn. unfold connect. run_monad. rewrite Hconn. reflexivity.
Qed.

(** What a raising [connect] leaves behind. *)
Lemma connect_failure_facts (d : SA32Driver) (w : W) (e : PyExc) (s1 : Sys W)
    (t : list Effect) :
  connect tr {| self := d; world := w |} = (Raise e, s1, t) →
  _connected d = false ∧ mock_mode (settings d) = false ∧
  ∃ cause body,
    e = SA32ConnectionError ("Erreur lors de la connexion: " +:+ cause) ∧
    _last_error (self s1)
    = {| status := true; code := -1;
         source := "Erreur lors de la connexion: " +:+ cause |} ∧
    _connected (self s1) = false ∧
    Forall (λ e, is_client_effect e = true) body ∧
    t = [Locked (body ++ invocations "on_error"
                           (Some (ErrorData (_last_error (self s1))))
                           (default [] (_callbacks d !! "on_error")))].
Proof.
  unfold connect. run_monad.
  destruct (_connected d) eqn:Hconn; simpl; [discriminate |].
  destruct (mock_mode (settings d)) eqn:Hmock; simpl.
  { rewrite trigger_callbacks_run. simpl. discriminate. }
  destruct (PYMODBUS_AVAILABLE tr); simpl.
  - destruct (client_init tr (new_client d) w) as [[[] | e0] w0]; simpl.
    + destruct (client_connect tr (new_client d) w0) as [[[|] | e0] w1]; simpl;
        rewrite ?trigger_callbacks_run, ?record_error_run; simpl;
        intros H; try discriminate H; injection H as <- <- <-;
        (split; [reflexivity |]); (split; [reflexivity |]);
        eexists _, [ClientNew (new_client d); ClientConnect (new_client d)];
        simpl; rewrite ?app_nil_r; repeat split; try assumption; repeat constructor.
    + rewrite record_error_run. simpl. intros H. injection H as <- <- <-.
      split; [reflexivity |]. split; [reflexivity |].
      eexists _, [ClientNew (new_client d)].
      simpl; rewrite ?app_nil_r; repeat split; try assumption; repeat constructor.
  - rewrite record_error_run. simpl. intros H. injection H as <- <- <-.
    split; [reflexivity |]. split; [reflexivity |].
    eexists _, [].
    simpl; rewrite ?app_nil_r; repeat split; try assumption; repeat constructor.
Qed.

(** X1. [connect] takes the lock exactly once, with all its transport traffic
    inside, and keeps the configuration. It returns True, the session
    being Connected, or raises SA32ConnectionError, the session being
    Disconnected as before: it never returns False, and it never raises on
    a mock or on a Connected session. *)
Theorem connect_returns_true_or_raises (s : Sys W) :
  let '(r, s1, t) := connect tr s in
  lock_acquisitions t = 1%nat ∧ traffic_under_lock t ∧
  same_config (self s) (self s1) ∧
  match r with
  | Return b => b = true ∧ _connected (self s1) = true
  | Raise e =>
      is_ConnectionError e = true ∧ _connected (self s1) = false ∧
      _connected (self s) = false ∧ mock_mode (settings (self s)) = false
  end.
Proof.
  destruct s as [d w].
  pose proof (connect_facts tr d w) as H.
  pose proof (connect_failure_facts d w) as Hf.
  destruct (connect tr {| self := d; world := w |}) as [[r s1] t].
  destruct H as ((body & -> & _) & (Hsame & _) & _ & Hr).
  split; [reflexivity |]. split; [repeat constructor |].
  split; [exact Hsame |].
  destruct r as [b | e]; [exact Hr |].
  destruct (Hf e s1 _ eq_refl) as (Hc & Hm & cause & body' & -> & _ & Hc1 & _).
  simpl. auto.
Qed.

(** X2. Connecting is idempotent: once a [connect] has returned, another
    [connect] returns True without touching the session, the transport or
    the callbacks. *)
Theorem second_connect_is_silent (s s1 : Sys W) (b : bool) (t : list Effect) :
  connect tr s = (Return b, s1, t) →
  connect tr s1 = (Return true, s1, [Locked []]).
Proof.
  destruct s as [d w]. intros Hrun.
  pose proof (connect_facts tr d w) as H. rewrite Hrun in H.
  destruct H as (_ & _ & _ & _ & Hconn).
  apply connect_when_connected, Hconn.
Qed.

(** X3. A successful open on a non-mock session: the client is built, opened
    and kept as the handle, the session is Connected, LastError is reset
    and the 'on_connect' callbacks are called last, inside the lock. *)
Theorem successful_open_resets_last_error (d : SA32Driver) (w w1 w2 : W) :
  PYMODBUS_AVAILABLE tr = true →
  mock_mode (settings d) = false →
  _connected d = false →
  client_init tr (new_client d) w = (Return tt, w1) →
  client_connect tr (new_client d) w1 = (Return true, w2) →
  connect tr {| self := d; world := w |}
  = (Return true,
     {| self := set_last_error EquipmentError_default
                  (set_connected true (set_client (Some (new_client d)) d));
        world := w2 |},
     [Locked ([ClientNew (new_client d); ClientConnect (new_client d)]
              ++ invocations "on_connect" None
                   (default [] (_callbacks d !! "on_connect")))]).
Proof.
  intros Hav Hmock Hconn Hinit Hopen.
  unfold connect. run_monad. rewrite Hconn, Hmock, Hav. simpl.
  rewrite Hinit. simpl. rewrite Hopen. simpl.
  rewrite trigger_callbacks_run. simpl. rewrite ?app_nil_r. reflexivity.
Qed.

(** X4. Whenever [connect] raises, the exception is an SA32ConnectionError
    that carries the message of its cause, LastError holds that message
    with code -1, and the 'on_error' callbacks have been called with this
    LastError, inside the lock, after whatever traffic the attempt made. *)
Theorem failed_connect_records_error (s s1 : Sys W) (e : PyExc) (t : list Effect) :
  connect tr s = (Raise e, s1, t) →
  _last_error (self s1) = {| status := true; code := -1; source := str e |} ∧
  is_ConnectionError e = true ∧
  ∃ body,
    Forall (λ e, is_client_effect e = true) body ∧
    t = [Locked (body ++ invocations "on_error"
                           (Some (ErrorData (_last_error (self s1))))
                           (default [] (_callbacks (self s) !! "on_error")))].
Proof.
  destruct s as [d w]. intros Hrun.
  destruct (connect_failure_facts d w e s1 t Hrun)
    as (_ & _ & cause & body & -> & Hlast & _ & Hbody & Ht).
  split; [exact Hlast |]. split; [reflexivity |].
  exists body. split; [exact Hbody | exact Ht].
Qed.

(** X5. [disconnect] never raises, whatever [close()] does: it takes the lock
    once, returns, leaves the session Disconnected with its configuration,
    and leaves no handle on a non-mock session that was Connected. On a
    session that is already Disconnected it does nothing at all. *)
Theorem disconnect_always_disconnects (s : Sys W) :
  let '(r, s1, t) := disconnect tr s in
  r = Return tt ∧ _connected (self s1) = false ∧
  same_config (self s) (self s1) ∧
  _last_error (self s1) = _last_error (self s) ∧
  lock_acquisitions t = 1%nat ∧ traffic_under_lock t ∧
  (_connected (self s) = true → mock_mode (settings (self s)) = false →
   _client (self s1) = None) ∧
  (_connected (self s) = false → s1 = s ∧ t = [Locked []]).
Proof.
  destruct s as [d w]. unfold disconnect, same_config. run_monad.
  destruct (_connected d) eqn:Hconn; simpl.
  2: { repeat split; try assumption; try discriminate; repeat constructor. }
  destruct (mock_mode (settings d)) eqn:Hmock; simpl.
  { rewrite trigger_callbacks_run. simpl.
    repeat split; try discriminate; repeat constructor. }
  destruct (_client d) as [c |]; simpl.
  - destruct (client_close tr c w) as [[[] | e] w1]; simpl;
      rewrite ?trigger_callbacks_run; simpl;
      repeat split; try discriminate; repeat constructor.
  - rewrite trigger_callbacks_run. simpl.
    repeat split; try discriminate; repeat constructor.
Qed.
End ConnectAndDisconnect.

(** ** Ensuring the connection *)

Section EnsureConnected.
Context {W : Type} (tr : Transport W).

Lemma ensure_connected_refuses (d : SA32Driver) (w : W) :
  _connected d = false →
  auto_reconnect (settings d) = false →
  _ensure_connected tr {| self := d; world := w |}
  = (Raise (SA32ConnectionError (source no_connection_error)),
     {| self := set_last_error no_connection_error d; world := w |},
     invocations "on_error" (Some (ErrorData no_connection_error))
       (default [] (_callbacks d !! "on_error"))).
Proof.
  intros Hconn Hauto. unfold _ensure_connected. run_monad.
  rewrite Hconn, Hauto. simpl. rewrite record_error_run. simpl.
  rewrite app_nil_r. reflexivity.
Qed.

(** X6. A register operation on a Disconnected session without auto-reconnect
    fails before it takes the lock or touches the transport or the mock
    registers: it raises SA32ConnectionError, LastError gets code -1, and
    the 'on_error' callbacks are called with it, outside any lock
    region. *)
Theorem disconnected_operation_fails (op : RegisterOp) (d : SA32Driver) (w : W) :
  _connected d = false →
  auto_reconnect (settings d) = false →
  run_op tr op {| self := d; world := w |}
  = (Raise (SA32ConnectionError (source no_connection_error)),
     {| self := set_last_error no_connection_error d; world := w |},
     invocations "on_error" (Some (ErrorData no_connection_error))
       (default [] (_callbacks d !! "on_error"))).
Proof.
  intros Hconn Hauto.
  destruct op; unfold run_op, read_holding_registers, read_input_registers,
    read_registers, write_register, write_registers;
    unfold mbind at 1; unfold M_bind at 1;
    rewrite ensure_connected_refuses by assumption; reflexivity.
Qed.

(** One turn of the reconnect loop takes the lock exactly once. *)
Lemma reconnect_attempt_locks_once (attempt : Z) (d : SA32Driver) (w : W) :
  lock_acquisitions (reconnect_attempt tr attempt {| self := d; world := w |}).2
  = 1%nat.
Proof.
  unfold reconnect_attempt, try_except. unfold mbind at 1. unfold M_bind at 1.
  pose proof (connect_facts tr d w) as H.
  destruct (connect tr {| self := d; world := w |}) as [[[b | e] s1] t].
  - destruct H as ((body & -> & _) & _ & _ & -> & _). reflexivity.
  - destruct H as ((body & -> & _) & _ & _ & He & _).
    destruct e; try discriminate He. run_monad. unfold time_sleep.
    destruct (bool_decide _); [destruct (sleep_error _) |]; reflexivity.
Qed.

(** The turns [k], [k+1], ... of the reconnect loop: the loop stops at
    the first [connect] that returns, or makes every attempt of its list,
    or is left by what [time.sleep] raises after a failed attempt that is
    not the last. *)
Lemma reconnect_loop_attempts (n : nat) (k : Z) (d : SA32Driver) (w : W) :
  let '(r, s1, t) :=
    for_return (seqZ k (Z.of_nat n)) (reconnect_attempt tr)
      {| self := d; world := w |} in
  (r = Return (Some true) ∧ _connected (self s1) = true ∧
   (1 ≤ lock_acquisitions t ≤ n)%nat) ∨
  (r = Return None ∧ _connected (self s1) = _connected d ∧
   lock_acquisitions t = n) ∨
  (∃ e, r = Raise e ∧ _connected (self s1) = _connected d ∧
        (1 ≤ lock_acquisitions t ≤ n)%nat ∧
        k + Z.of_nat (lock_acquisitions t) - 1
        < max_reconnect_attempts (settings d)).
Proof.
  revert k d w. induction n as [| n IH]; intros k d w.
  - simpl. right. left. repeat split.
  - rewrite seqZ_cons by lia.
    replace (Z.pred (Z.of_nat (S n))) with (Z.of_nat n) by lia.
    simpl. unfold mbind at 1. unfold M_bind at 1.
    pose proof (reconnect_attempt_facts tr k d w) as H.
    pose proof (reconnect_attempt_locks_once k d w) as Hone.
    destruct (reconnect_attempt tr k {| self := d; world := w |})
      as [[r [d1 w1]] t].
    simpl in Hone.
    destruct H as (Hk & _ & _ & [[-> Hc] | [[-> Hc] | (e & -> & _ & Hlt & Hc & _)]]);
      simpl in *.
    + left. rewrite app_nil_r, Hone. repeat split; [exact Hc | lia | lia].
    + specialize (IH (Z.succ k) d1 w1).
      destruct (for_return _ (reconnect_attempt tr) {| self := d1; world := w1 |})
        as [[r' s2] t'].
      assert (Hset : settings d1 = settings d) by apply Hk.
      rewrite lock_acquisitions_app, Hone. rewrite Hset in IH.
      destruct IH as [(-> & Hc' & Hl) | [(-> & Hc' & Hl) | (e & -> & Hc' & Hl & Hlt)]].
      * left. repeat split; try congruence; lia.
      * right. left. repeat split; try congruence; lia.
      * right. right. exists e. repeat split; try congruence; lia.
    + right. right. exists e. rewrite Hone.
      repeat split; try congruence; lia.
Qed.

Lemma sleep_error_is_foreign (secs : Q) (e : PyExc) :
  sleep_error secs = Some e →
  is_ConnectionError e = false ∧ is_CommunicationError e = false.
Proof.
  unfold sleep_error. intros H.
  repeat (destruct (negb _) in H); inversion H; subst; split; reflexivity.
Qed.

(** X7. With auto-reconnect, [_ensure_connected] on a Disconnected
    session raises none of the module's exceptions, whatever the
    transport does. It returns with the session Connected after at most
    [max_reconnect_attempts] calls of [connect], or Disconnected after
    exactly that many, and it always returns when [time.sleep] accepts
    the reconnect delay; otherwise it may be left, with the session
    Disconnected, by what [time.sleep] raises after a failed attempt that
    is not the last. Each [connect] holds the lock on its own, with at
    most one [client.connect()] inside, and every sleep happens with the
    lock free. *)
Theorem auto_reconnect_outcomes (d : SA32Driver) (w : W) :
  auto_reconnect (settings d) = true →
  _connected d = false →
  ∃ r s1 t,
    _ensure_connected tr {| self := d; world := w |} = (r, s1, t) ∧
    reconnect_trace t ∧
    (sleep_error (reconnect_delay (settings d)) = None → r = Return tt) ∧
    match r with
    | Return _ =>
        (_connected (self s1) = true ∧
         (1 ≤ lock_acquisitions t
          ≤ Z.to_nat (max_reconnect_attempts (settings d)))%nat) ∨
        (_connected (self s1) = false ∧
         lock_acquisitions t = Z.to_nat (max_reconnect_attempts (settings d)))
    | Raise e =>
        sleep_error (reconnect_delay (settings d)) = Some e ∧
        is_ConnectionError e = false ∧ is_CommunicationError e = false ∧
        mock_mode (settings d) = false ∧
        _connected (self s1) = false ∧
        (1 ≤ lock_acquisitions t
         < Z.to_nat (max_reconnect_attempts (settings d)))%nat
    end.
Proof.
  intros Hauto Hconn. unfold _ensure_connected, _attempt_reconnect. run_monad.
  rewrite Hconn, Hauto. simpl.
  destruct (decide (max_reconnect_attempts (settings d) ≤ 0)) as [Hmax | Hmax].
  { rewrite seqZ_nil by lia. simpl. eexists _, _, _. split; [reflexivity |].
    split; [constructor |]. split; [reflexivity |]. right.
    rewrite Z2Nat.nonpos by lia. split; [exact Hconn | reflexivity]. }
  pose proof (reconnect_loop_attempts
                (Z.to_nat (max_reconnect_attempts (settings d))) 1 d w) as H.
  rewrite Z2Nat.id in H by lia.
  pose proof (reconnect_loop_facts tr
                (seqZ 1 (max_reconnect_attempts (settings d))) d w) as Hf.
  destruct (for_return _ (reconnect_attempt tr) {| self := d; world := w |})
    as [[r s1] t].
  destruct Hf as (_ & Ht & _ & Hf).
  destruct H as [(-> & Hc & Hl) | [(-> & Hc & Hl) | (e & -> & Hc & Hl & Hlt)]];
    simpl; rewrite ?app_nil_r; eexists _, _, _; (split; [reflexivity |]);
    (split; [exact Ht |]).
  - split; [reflexivity |]. left. split; assumption.
  - split; [reflexivity |]. right. split; congruence.
  - destruct Hf as [[Hf _] | [[Hf _] | (e' & x & Hf & Hs & _ & _ & _ & Hm & _)]];
      try discriminate Hf.
    injection Hf as <-.
    destruct (sleep_error_is_foreign _ _ Hs) as [Hn1 Hn2].
    split; [rewrite Hs; discriminate |].
    split; [exact Hs |]. split; [exact Hn1 |]. split; [exact Hn2 |].
    split; [exact Hm |]. split; [congruence |]. lia.
Qed.
End EnsureConnected.

Section ReconnectDelays.
Context {W : Type} (tr : Transport W).
Hypothesis Hfails : open_always_fails tr.

(** X8. When every open fails on a Disconnected non-mock session with
    auto-reconnect, the trace of [_ensure_connected] is exactly one lock
    region for each of the [max_reconnect_attempts] failed connects, with
    one sleep of [reconnect_delay] between every two regions, with the
    lock free: a pause after each attempt but the last, none before the
    first and none after the last, [max_reconnect_attempts - 1] in all.
    This needs a delay [time.sleep] accepts when more than one attempt is
    allowed; with a delay it refuses, [_ensure_connected] is left by the
    exception of [time.sleep] right after the first failed connect, with
    the session Disconnected and code -1 in LastError. *)
Theorem reconnect_sleeps_between_attempts (d : SA32Driver) (w : W) :
  mock_mode (settings d) = false →
  auto_reconnect (settings d) = true →
  _connected d = false →
  ((1 < max_reconnect_attempts (settings d) →
    sleep_error (reconnect_delay (settings d)) = None) →
   ∃ s1 bodies,
     _ensure_connected tr {| self := d; world := w |}
     = (Return tt, s1,
        between (Sleep (reconnect_delay (settings d))) (Locked <$> bodies)) ∧
     length bodies = Z.to_nat (max_reconnect_attempts (settings d)) ∧
     Forall failed_connect_region bodies ∧
     count_effects is_sleep
       (between (Sleep (reconnect_delay (settings d))) (Locked <$> bodies))
     = Z.to_nat (max_reconnect_attempts (settings d) - 1)) ∧
  (∀ e, 1 < max_reconnect_attempts (settings d) →
        sleep_error (reconnect_delay (settings d)) = Some e →
   ∃ s1 body,
     _ensure_connected tr {| self := d; world := w |}
     = (Raise e, s1, [Locked body]) ∧
     failed_connect_region body ∧
     _connected (self s1) = false ∧
     status (_last_error (self s1)) = true ∧
     code (_last_error (self s1)) = -1).
Proof using Hfails.
  intros Hmock Hauto Hconn. split.
  - intros Hsleep.
    unfold _ensure_connected, _attempt_reconnect. run_monad.
    rewrite Hconn, Hauto. simpl.
    destruct (decide (max_reconnect_attempts (settings d) ≤ 0)) as [Hmax | Hmax].
    { rewrite seqZ_nil by lia. simpl. exists {| self := d; world := w |}, [].
      rewrite !Z2Nat.nonpos by lia.
      split; [reflexivity |]. split; [reflexivity |].
      split; [constructor | reflexivity]. }
    destruct (reconnect_loop_when_open_fails tr Hfails
                (Z.to_nat (max_reconnect_attempts (settings d))) 1 d w Hconn Hmock)
      as (d1 & w1 & bodies & Hrun & Hlen & Hall & _);
      [lia | lia | exact Hsleep |].
    rewrite Z2Nat.id in Hrun by lia. rewrite Hrun. simpl. rewrite !app_nil_r.
    destruct (between_regions_counts (reconnect_delay (settings d)) bodies Hall)
      as (_ & _ & Hsleeps & _).
    eexists _, bodies. split; [reflexivity |]. split; [exact Hlen |].
    split; [exact Hall |]. rewrite Hsleeps, Hlen. lia.
  - intros e Hmax Hsleep.
    unfold _ensure_connected, _attempt_reconnect. run_monad.
    rewrite Hconn, Hauto. simpl. rewrite seqZ_cons by lia. simpl.
    unfold mbind at 1. unfold M_bind at 1.
    destruct (reconnect_attempt_when_open_fails tr Hfails 1 d w Hconn Hmock)
      as (d1 & w1 & body & Hrun & Hbody & _ & _ & Hconn1 & _ & Hst & Hcode).
    rewrite bool_decide_eq_true_2, Hsleep in Hrun by exact Hmax.
    rewrite Hrun. simpl. eexists _, body. split; [reflexivity |]. auto.
Qed.
End ReconnectDelays.

Section ReconnectSuccess.
Context {W : Type} (tr : Transport W).

Lemma connect_opens (d : SA32Driver) (w w1 w2 : W) :
  PYMODBUS_AVAILABLE tr = true →
  mock_mode (settings d) = false →
  _connected d = false →
  client_init tr (new_client d) w = (Return tt, w1) →
  client_connect tr (new_client d) w1 = (Return true, w2) →
  connect tr {| self := d; world := w |}
  = (Return true,
     {| self := set_last_error EquipmentError_default
                  (set_connected true (set_client (Some (new_client d)) d));
        world := w2 |},
     [Locked ([ClientNew (new_client d); ClientConnect (new_client d)]
              ++ invocations "on_connect" None
                   (default [] (_callbacks d !! "on_connect")))]).
Proof.
  intros Hav Hmock Hconn Hinit Hopen.
  unfold connect. run_monad. rewrite Hconn, Hmock, Hav. simpl.
  rewrite Hinit. simpl. rewrite Hopen. simpl.
  rewrite trigger_callbacks_run. simpl. rewrite ?app_nil_r. reflexivity.
Qed.

Lemma connect_mock (d : SA32Driver) (w : W) :
  mock_mode (settings d) = true →
  _connected d = false →
  connect tr {| self := d; world := w |}
  = (Return true, {| self := set_connected true d; world := w |},
     [Locked (invocations "on_connect" None
                (default [] (_callbacks d !! "on_connect")))]).
Proof.
  intros Hmock Hconn. unfold connect. run_monad. rewrite Hconn, Hmock. simpl.
  rewrite trigger_callbacks_run. simpl. rewrite ?app_nil_r. reflexivity.
Qed.

Lemma ensure_connected_first_attempt (d : SA32Driver) (w : W) (s1 : Sys W)
    (t : list Effect) :
  auto_reconnect (settings d) = true →
  _connected d = false →
  1 ≤ max_reconnect_attempts (settings d) →
  connect tr {| self := d; world := w |} = (Return true, s1, t) →
  _ensure_connected tr {| self := d; world := w |} = (Return tt, s1, t).
Proof.
  intros Hauto Hconn Hmax Hrun.
  unfold _ensure_connected, _attempt_reconnect. run_monad.
  rewrite Hconn, Hauto. simpl. rewrite seqZ_cons by lia. simpl.
  unfold mbind at 1. unfold M_bind at 1.
  unfold reconnect_attempt, try_except. unfold mbind at 1. unfold M_bind at 1.
  rewrite Hrun. run_monad. rewrite !app_nil_r. reflexivity.
Qed.

(** X9. With auto-reconnect and at least one attempt allowed, a transport
    that opens at once is opened exactly once: [_ensure_connected] makes a
    single [connect], without any sleep, and returns with the session
    Connected, LastError reset and the 'on_connect' callbacks called. *)
Theorem reconnect_stops_at_first_success (d : SA32Driver) (w w1 w2 : W) :
  PYMODBUS_AVAILABLE tr = true →
  mock_mode (settings d) = false →
  auto_reconnect (settings d) = true →
  _connected d = false →
  1 ≤ max_reconnect_attempts (settings d) →
  client_init tr (new_client d) w = (Return tt, w1) →
  client_connect tr (new_client d) w1 = (Return true, w2) →
  _ensure_connected tr {| self := d; world := w |}
  = (Return tt,
     {| self := set_last_error EquipmentError_default
                  (set_connected true (set_client (Some (new_client d)) d));
        world := w2 |},
     [Locked ([ClientNew (new_client d); ClientConnect (new_client d)]
              ++ invocations "on_connect" None
                   (default [] (_callbacks d !! "on_connect")))]).
Proof.
  intros Hav Hmock Hauto Hconn Hmax Hinit Hopen.
  apply ensure_connected_first_attempt; try assumption.
  apply (connect_opens d w w1 w2); assumption.
Qed.

(** A Disconnected mock session with auto-reconnect and at least one
    attempt allowed is reconnected by [_ensure_connected] in one simulated
    [connect], which calls the 'on_connect' callbacks; LastError and the
    mock registers are kept and the world is not touched. *)
Theorem mock_session_reconnects (d : SA32Driver) (w : W) :
  mock_mode (settings d) = true →
  auto_reconnect (settings d) = true →
  _connected d = false →
  1 ≤ max_reconnect_attempts (settings d) →
  _ensure_connected tr {| self := d; world := w |}
  = (Return tt, {| self := set_connected true d; world := w |},
     [Locked (invocations "on_connect" None
                (default [] (_callbacks d !! "on_connect")))]).
Proof.
  intros Hmock Hauto Hconn Hmax.
  apply ensure_connected_first_attempt; try assumption.
  apply connect_mock; assumption.
Qed.

Lemma ensure_connected_zero_attempts (d : SA32Driver) (w : W) :
  auto_reconnect (settings d) = true →
  _connected d = false →
  max_reconnect_attempts (settings d) ≤ 0 →
  _ensure_connected tr {| self := d; world := w |}
  = (Return tt, {| self := d; world := w |}, []).
Proof.
  intros Hauto Hconn Hmax.
  unfold _ensure_connected, _attempt_reconnect. run_monad.
  rewrite Hconn, Hauto. simpl. rewrite seqZ_nil by lia. reflexivity.
Qed.

(** X10. With auto-reconnect and no attempt allowed ([max_reconnect_attempts]
    zero or negative), a register operation on a Disconnected mock session
    is not refused: it runs its mock access under the lock and returns,
    and the session is still Disconnected afterwards. *)
Theorem zero_attempts_runs_disconnected (op : RegisterOp) (d : SA32Driver) (w : W) :
  mock_mode (settings d) = true →
  auto_reconnect (settings d) = true →
  _connected d = false →
  max_reconnect_attempts (settings d) ≤ 0 →
  ∃ v s1 body,
    run_op tr op {| self := d; world := w |} = (Return v, s1, [Locked body]) ∧
    _connected (self s1) = false ∧
    _last_error (self s1) = _last_error d.
Proof.
  intros Hmock Hauto Hconn Hmax.
  pose proof (run_op_facts tr op d w) as H.
  rewrite (ensure_connected_zero_attempts d w Hauto Hconn Hmax) in H.
  destruct (run_op tr op {| self := d; world := w |}) as [[r s1] t].
  destruct H as (t1 & -> & (body & -> & _) & _ & Hc & _ & Hr). simpl in *.
  destruct r as [v | e].
  - exists v, s1, body. rewrite Hmock in Hr. repeat split; congruence.
  - destruct Hr as (_ & Hm & _). congruence.
Qed.

(** X11. On a non-mock session that never had a handle, with auto-reconnect and
    no attempt allowed, a register operation reaches for the missing
    client: it fails with SA32CommunicationError and code -3, after
    calling the 'on_error' callbacks, and no transport traffic is made. *)
Theorem missing_handle_is_a_communication_error (op : RegisterOp)
    (d : SA32Driver) (w : W) :
  PYMODBUS_AVAILABLE tr = true →
  mock_mode (settings d) = false →
  auto_reconnect (settings d) = true →
  _connected d = false →
  max_reconnect_attempts (settings d) ≤ 0 →
  _client d = None →
  ∃ msg err,
    run_op tr op {| self := d; world := w |}
    = (Raise (SA32CommunicationError msg),
       {| self := set_last_error err d; world := w |},
       [Locked (invocations "on_error" (Some (ErrorData err))
                  (default [] (_callbacks d !! "on_error")))]) ∧
    status err = true ∧ code err = -3 ∧ source err = msg.
Proof.
  intros Hav Hmock Hauto Hconn Hmax Hclient.
  destruct op; unfold run_op, read_holding_registers, read_input_registers,
    read_registers, write_register, write_registers;
    unfold mbind at 1; unfold M_bind at 1;
    rewrite ensure_connected_zero_attempts by assumption;
    unfold with_lock; unfold mbind at 1; unfold M_bind at 1;
    unfold get_self at 1; simpl; rewrite Hmock;
    unfold try_except, client_call; unfold mbind at 1; unfold M_bind at 1;
    unfold mbind at 1; unfold M_bind at 1; unfold get_self at 1; simpl;
    rewrite Hclient; unfold raise at 1; simpl;
    unfold communication_failure, caught_as_ModbusException; rewrite Hav; simpl;
    unfold mbind at 1; unfold M_bind at 1; rewrite record_error_run;
    run_monad; rewrite ?app_nil_r;
    eexists _, _; (split; [reflexivity |]); repeat split.
Qed.
End ReconnectSuccess.

(** ** Register access on the transport *)

(** The common start of a register operation on a Connected non-mock
    session with a handle: up to the call of the client. *)
Ltac enter_access Hconn Hmock Hclient :=
  unfold run_op, read_holding_registers, read_input_registers, read_registers,
    write_register, write_registers;
  unfold mbind at 1; unfold M_bind at 1;
  rewrite ensure_connected_when_connected by exact Hconn;
  unfold with_lock; unfold mbind at 1; unfold M_bind at 1;
  unfold get_self at 1; simpl; rewrite Hmock;
  unfold try_except, client_call; unfold mbind at 1; unfold M_bind at 1;
  unfold mbind at 1; unfold M_bind at 1; unfold get_self at 1; simpl;
  rewrite Hclient; unfold call_world; simpl.

Ltac leave_by_except :=
  unfold communication_failure, failure_record;
  match goal with
  | |- context [caught_as_ModbusException ?tr ?e] =>
      destruct (caught_as_ModbusException tr e)
  end;
  unfold mbind at 1; unfold M_bind at 1; rewrite record_error_run;
  run_monad; rewrite ?app_nil_r; reflexivity.

Section TransportAccess.
Context {W : Type} (tr : Transport W).

(** X12. A normal response: a read returns the registers of the response as
    they are, however many were asked for, and hands them to the
    'on_data_received' callbacks; a write returns True and calls no
    callback. Both reset LastError, and the request carries the slave id
    of the session. *)
Theorem normal_response_is_returned (op : RegisterOp) (d : SA32Driver)
    (c : Client) (registers : list Z) (w w1 : W) :
  mock_mode (settings d) = false →
  _connected d = true →
  _client d = Some c →
  client_request tr c (op_request op (slave_id (settings d))) w
  = (Return (RegistersResponse registers), w1) →
  run_op tr op {| self := d; world := w |}
  = (Return (op_value op registers),
     {| self := set_last_error EquipmentError_default d; world := w1 |},
     [Locked (ClientRequest c (op_request op (slave_id (settings d)))
              :: op_events op registers d)]).
Proof.
  intros Hmock Hconn Hclient Hreply.
  destruct op; simpl in Hreply; enter_access Hconn Hmock Hclient;
    rewrite Hreply; simpl; run_monad;
    rewrite ?trigger_callbacks_run; simpl; rewrite ?app_nil_r; reflexivity.
Qed.

(** X13. An exception of the transport: the operation raises
    SA32CommunicationError with the message of the [except] clause that
    caught it, records it in LastError with code -2 for a ModbusException
    and -3 for any other exception, and calls the 'on_error' callbacks
    inside the lock. The session stays Connected and keeps its handle. *)
Theorem transport_exception_is_classified (op : RegisterOp) (d : SA32Driver)
    (c : Client) (e : PyExc) (w w1 : W) :
  mock_mode (settings d) = false →
  _connected d = true →
  _client d = Some c →
  client_request tr c (op_request op (slave_id (settings d))) w = (Raise e, w1) →
  run_op tr op {| self := d; world := w |}
  = (Raise (SA32CommunicationError (source (failure_record tr (op_what op) e))),
     {| self := set_last_error (failure_record tr (op_what op) e) d; world := w1 |},
     [Locked (ClientRequest c (op_request op (slave_id (settings d)))
              :: invocations "on_error"
                   (Some (ErrorData (failure_record tr (op_what op) e)))
                   (default [] (_callbacks d !! "on_error")))]).
Proof.
  intros Hmock Hconn Hclient Hreply.
  destruct op; simpl in Hreply; enter_access Hconn Hmock Hclient;
    rewrite Hreply; simpl; leave_by_except.
Qed.

(** An exception response to any of the four operations: the exception
    raised for it inside the [try] is caught by the [except] clauses of
    the same operation, so the operation fails like on a transport
    exception whose message is "Erreur Modbus lors de ...", and the
    exception code of the response is not in the LastError it leaves. *)
Theorem exception_response_is_wrapped (op : RegisterOp) (d : SA32Driver)
    (c : Client) (exception_code : option Z) (repr : string) (w w1 : W) :
  mock_mode (settings d) = false →
  _connected d = true →
  _client d = Some c →
  client_request tr c (op_request op (slave_id (settings d))) w
  = (Return (ExceptionResponse exception_code repr), w1) →
  let err := failure_record tr (op_what op) (response_exception (op_what op) repr) in
  run_op tr op {| self := d; world := w |}
  = (Raise (SA32CommunicationError (source err)),
     {| self := set_last_error err d; world := w1 |},
     [Locked (ClientRequest c (op_request op (slave_id (settings d)))
              :: invocations "on_error" (Some (ErrorData err))
                   (default [] (_callbacks d !! "on_error")))]) ∧
  (code err = -2 ∨ code err = -3).
Proof.
  intros Hmock Hconn Hclient Hreply. split.
  - destruct op; simpl in Hreply; enter_access Hconn Hmock Hclient;
      rewrite Hreply; simpl; unfold response_exception; leave_by_except.
  - unfold failure_record.
    destruct (caught_as_ModbusException tr _); [left | right]; reflexivity.
Qed.

(** X14. [read_holding_register] returns the first register of a normal
    response, and None, without any error, when the response holds no
    register. *)
Theorem single_read_returns_first_register (address : Z) (d : SA32Driver)
    (c : Client) (registers : list Z) (w w1 : W) :
  mock_mode (settings d) = false →
  _connected d = true →
  _client d = Some c →
  client_request tr c (ReadHoldingRegisters address 1 (slave_id (settings d))) w
  = (Return (RegistersResponse registers), w1) →
  read_holding_register tr address {| self := d; world := w |}
  = (Return (head registers),
     {| self := set_last_error EquipmentError_default d; world := w1 |},
     [Locked (ClientRequest c (ReadHoldingRegisters address 1 (slave_id (settings d)))
              :: invocations "on_data_received"
                   (Some (RegisterData address registers))
                   (default [] (_callbacks d !! "on_data_received")))]).
Proof.
  intros Hmock Hconn Hclient Hreply.
  unfold read_holding_register. unfold mbind at 1. unfold M_bind at 1.
  enter_access Hconn Hmock Hclient.
  rewrite Hreply; simpl; run_monad;
    rewrite ?trigger_callbacks_run; simpl; rewrite ?app_nil_r; reflexivity.
Qed.

(** X15. Every failure of a register operation is recorded, and typed
    but for one case: LastError is set, and the exception is an
    SA32ConnectionError or an SA32CommunicationError, whatever the
    transport raised, unless it is what [time.sleep] raised for the
    reconnect delay, which escapes the reconnect loop of a Disconnected
    non-mock session with auto-reconnect and more than one attempt
    allowed. So when [time.sleep] accepts the delay of the session, every
    failure is one of the two SA32 exceptions. *)
Theorem operation_failures_are_recorded (op : RegisterOp) (s s1 : Sys W)
    (e : PyExc) (t : list Effect) :
  run_op tr op s = (Raise e, s1, t) →
  status (_last_error (self s1)) = true ∧
  (is_ConnectionError e = true ∨ is_CommunicationError e = true ∨
   (sleep_error (reconnect_delay (settings (self s))) = Some e ∧
    _connected (self s) = false ∧
    auto_reconnect (settings (self s)) = true ∧
    mock_mode (settings (self s)) = false ∧
    1 < max_reconnect_attempts (settings (self s)))).
Proof.
  destruct s as [d w]. intros Hrun.
  pose proof (run_op_facts tr op d w) as H.
  pose proof (ensure_connected_facts tr d w) as He.
  destruct (_ensure_connected tr {| self := d; world := w |})
    as [[[[] | e0] s0] t0] eqn:Hens; rewrite Hrun in H.
  - destruct H as (t1 & _ & _ & _ & _ & _ & Hc & _ & Hst).
    split; [exact Hst | right; left; exact Hc].
  - destruct H as (He0 & -> & _). injection He0 as ->.
    destruct He as (_ & _ & _ & _ & Hconn & _ & Hst & Hcase).
    split; [exact Hst |]. simpl.
    destruct Hcase as [(Hce & _) | (Hs & Hauto & Hmock & Hmax)].
    + left. exact Hce.
    + right. right. auto.
Qed.
End TransportAccess.

(** ** The simulated backend, further *)

Section MockReads.
Context {W : Type} (tr : Transport W).

(** The loop of [_mock_read_registers] on any register map: it returns
    one value for each index, only adds registers, and every value it
    returns is the one the map holds afterwards. *)
Lemma mock_read_loop_spec (address : Z) (idx acc : list Z) (d : SA32Driver) (w : W) :
  ∃ vals m w1 t,
    foldM (mock_read_step tr address) acc idx {| self := d; world := w |}
    = (Return (acc ++ vals), {| self := set_mock_registers m d; world := w1 |}, t) ∧
    _mock_registers d ⊆ m ∧
    Forall2 (λ i v, m !! (address + i) = Some v) idx vals ∧
    Forall (λ e, e = RandInt 0 65535) t ∧
    (t = [] → m = _mock_registers d ∧ w1 = w).
Proof.
  revert acc d w. induction idx as [| i idx IH]; intros acc d w.
  - exists [], (_mock_registers d), w, []. rewrite app_nil_r.
    split; [destruct d; reflexivity |]. split; [reflexivity |].
    split; [constructor |]. split; [constructor | auto].
  - simpl. unfold mbind at 1. unfold M_bind at 1.
    unfold mock_read_step at 1.
    unfold mbind at 1. unfold M_bind at 1. unfold get_self at 1. simpl.
    destruct (_mock_registers d !! (address + i)) as [v |] eqn:Hlook.
    + unfold mret at 1. unfold M_ret at 1.
      destruct (IH (acc ++ [v]) d w) as (vals & m & w1 & t & Hrun & Hsub & Hall & Ht & Hnil).
      rewrite Hrun. exists (v :: vals), m, w1, t.
      rewrite <- app_assoc. split; [reflexivity |]. split; [exact Hsub |].
      split; [| split; [exact Ht | exact Hnil]].
      constructor; [| exact Hall].
      eapply lookup_weaken; [exact Hlook | exact Hsub].
    + run_monad. destruct (random_randint tr 0 65535 w) as [v w0]. simpl.
      destruct (IH (acc ++ [v])
                  (set_mock_registers (<[address + i := v]> (_mock_registers d)) d)
                  w0) as (vals & m & w1 & t & Hrun & Hsub & Hall & Ht & _).
      rewrite Hrun. exists (v :: vals), m, w1, (RandInt 0 65535 :: t).
      rewrite <- app_assoc. split; [reflexivity |]. simpl in Hsub.
      split; [| split; [| split; [constructor; [reflexivity | exact Ht] | discriminate]]].
      * etransitivity; [| exact Hsub]. apply insert_subseteq, Hlook.
      * constructor; [| exact Hall].
        eapply lookup_weaken; [apply lookup_insert_eq | exact Hsub].
Qed.

(** A connected mock read, for any [count]: what it returns and leaves. *)
Lemma mock_read_run (kind : RegisterType) (address count : Z)
    (d : SA32Driver) (w : W) :
  mock_mode (settings d) = true →
  _connected d = true →
  ∃ vs m w1 t,
    read_registers tr kind address count {| self := d; world := w |}
    = (Return vs, {| self := set_mock_registers m d; world := w1 |},
       [Locked (t ++ invocations "on_data_received" (Some (RegisterData address vs))
                       (default [] (_callbacks d !! "on_data_received")))]) ∧
    _mock_registers d ⊆ m ∧
    Forall2 (λ i v, m !! (address + i) = Some v) (seqZ 0 count) vs ∧
    Forall (λ e, e = RandInt 0 65535) t ∧
    (t = [] → m = _mock_registers d ∧ w1 = w).
Proof.
  intros Hmock Hconn.
  destruct (mock_read_loop_spec address (seqZ 0 count) [] d w)
    as (vs & m & w1 & t & Hrun & Hsub & Hall & Ht & Hnil).
  exists vs, m, w1, t. split; [| auto].
  unfold read_registers. unfold mbind at 1. unfold M_bind at 1.
  rewrite ensure_connected_when_connected by exact Hconn.
  unfold with_lock. unfold mbind at 1. unfold M_bind at 1.
  unfold get_self at 1. simpl. rewrite Hmock.
  unfold mbind at 1. unfold M_bind at 1.
  unfold _mock_read_registers. rewrite Hrun. simpl.
  unfold mbind at 1. unfold M_bind at 1.
  rewrite trigger_callbacks_run. unfold mret, M_ret. simpl.
  rewrite app_nil_r. reflexivity.
Qed.

(** A connected mock read of registers that all hold a value, for any
    [count]. *)
Lemma mock_read_present_run (kind : RegisterType) (address count : Z)
    (vs : list Z) (d : SA32Driver) (w : W) :
  mock_mode (settings d) = true →
  _connected d = true →
  Forall2 (λ i v, _mock_registers d !! (address + i) = Some v) (seqZ 0 count) vs →
  read_registers tr kind address count {| self := d; world := w |}
  = (Return vs, {| self := d; world := w |},
     [Locked (invocations "on_data_received" (Some (RegisterData address vs))
                (default [] (_callbacks d !! "on_data_received")))]).
Proof.
  intros Hmock Hconn Hall.
  unfold read_registers. unfold mbind at 1. unfold M_bind at 1.
  rewrite ensure_connected_when_connected by exact Hconn.
  unfold with_lock. unfold mbind at 1. unfold M_bind at 1.
  unfold get_self at 1. simpl. rewrite Hmock.
  unfold mbind at 1. unfold M_bind at 1.
  unfold _mock_read_registers.
  rewrite (mock_read_loop_present tr address _ vs [] d w Hall).
  unfold mbind at 1. unfold M_bind at 1.
  rewrite trigger_callbacks_run. unfold mret, M_ret. simpl.
  rewrite app_nil_r. reflexivity.
Qed.

(** X16. A connected mock read never fails. It returns [count] values (none
    for a negative [count]), the stored value for each register that had
    one; the registers the session had keep their values, and LastError is
    kept. *)
Theorem mock_read_returns_count_values (kind : RegisterType) (address count : Z)
    (d : SA32Driver) (w : W) :
  mock_mode (settings d) = true →
  _connected d = true →
  ∃ vs s1 t,
    read_registers tr kind address count {| self := d; world := w |}
    = (Return vs, s1, [Locked t]) ∧
    length vs = Z.to_nat count ∧
    _mock_registers d ⊆ _mock_registers (self s1) ∧
    _last_error (self s1) = _last_error d ∧
    (∀ (i : nat) v,
       _mock_registers d !! (address + Z.of_nat i) = Some v →
       Z.of_nat i < count → vs !! i = Some v).
Proof.
  intros Hmock Hconn.
  destruct (mock_read_run kind address count d w Hmock Hconn)
    as (vs & m & w1 & t & Hrun & Hsub & Hall & _).
  eexists vs, _, _. split; [exact Hrun |].
  split; [| split; [exact Hsub | split; [reflexivity |]]].
  - rewrite <- (Forall2_length _ _ _ Hall). apply length_seqZ.
  - intros i v Hv Hi.
    destruct (Forall2_lookup_l _ _ _ i (0 + Z.of_nat i) Hall) as (v' & Hvs & Hm).
    { apply lookup_seqZ_lt, Hi. }
    rewrite Z.add_0_l in Hm.
    rewrite (lookup_weaken _ _ _ _ Hv Hsub) in Hm. congruence.
Qed.

(** X17. Mock reads are idempotent: a connected mock read that is repeated
    returns the same values, draws no random number and changes nothing,
    whether the registers were written before or invented by the first
    read. *)
Theorem mock_read_is_idempotent (kind kind' : RegisterType) (address count : Z)
    (s s1 : Sys W) (vs : list Z) (t : list Effect) :
  mock_mode (settings (self s)) = true →
  _connected (self s) = true →
  read_registers tr kind address count s = (Return vs, s1, t) →
  read_registers tr kind' address count s1
  = (Return vs, s1,
     [Locked (invocations "on_data_received" (Some (RegisterData address vs))
                (default [] (_callbacks (self s) !! "on_data_received")))]).
Proof.
  destruct s as [d w]. simpl. intros Hmock Hconn Hrun.
  destruct (mock_read_run kind address count d w Hmock Hconn)
    as (vs' & m & w1 & t' & Hrun' & _ & Hall & _).
  rewrite Hrun' in Hrun. injection Hrun as <- <- _.
  apply (mock_read_present_run kind' address count vs'
           (set_mock_registers m d) w1 Hmock Hconn Hall).
Qed.
End MockReads.

Section MockWrites.
Context {W : Type} (tr : Transport W).

Lemma mock_write_register_run (address value : Z) (d : SA32Driver) (w : W) :
  mock_mode (settings d) = true →
  _connected d = true →
  write_register tr address value {| self := d; world := w |}
  = (Return true,
     {| self := set_mock_registers (<[address := value]> (_mock_registers d)) d;
        world := w |},
     [Locked []]).
Proof.
  intros Hmock Hconn.
  unfold write_register. unfold mbind at 1. unfold M_bind at 1.
  rewrite ensure_connected_when_connected by exact Hconn.
  unfold with_lock. unfold mbind at 1. unfold M_bind at 1.
  unfold get_self at 1. simpl. rewrite Hmock.
  unfold _mock_write_register. run_monad. reflexivity.
Qed.

(** X18. A connected mock [write_register] stores the value as it is, over any
    value the register had and whatever its size, touches no other
    register, calls no callback, and a following [read_holding_register]
    of the address returns it. *)
Theorem mock_write_register_then_read (address value : Z) (d : SA32Driver) (w : W) :
  mock_mode (settings d) = true →
  _connected d = true →
  ∃ s1,
    write_register tr address value {| self := d; world := w |}
    = (Return true, s1, [Locked []]) ∧
    _mock_registers (self s1) = <[address := value]> (_mock_registers d) ∧
    world s1 = w ∧
    read_holding_register tr address s1
    = (Return (Some value), s1,
       [Locked (invocations "on_data_received"
                  (Some (RegisterData address [value]))
                  (default [] (_callbacks d !! "on_data_received")))]).
Proof.
  intros Hmock Hconn. eexists. split.
  - apply mock_write_register_run; assumption.
  - split; [reflexivity |]. split; [reflexivity |].
    unfold read_holding_register, read_holding_registers.
    unfold mbind at 1. unfold M_bind at 1.
    rewrite (mock_read_present_run tr HOLDING address 1 [value]);
      [| exact Hmock | exact Hconn |].
    + run_monad. rewrite ?app_nil_r. reflexivity.
    + simpl. repeat constructor. rewrite Z.add_0_r. apply lookup_insert_eq.
Qed.

(** X19. A connected mock [write_registers] changes the registers from
    [address] to [address + len(values) - 1] and no other, leaves the
    world alone and calls no callback. *)
Theorem mock_write_registers_frame (address : Z) (values : list Z)
    (d : SA32Driver) (w : W) :
  mock_mode (settings d) = true →
  _connected d = true →
  ∃ s1,
    write_registers tr address values {| self := d; world := w |}
    = (Return true, s1, [Locked []]) ∧
    world s1 = w ∧ _last_error (self s1) = _last_error d ∧
    (∀ b, ¬ (address ≤ b < address + Z.of_nat (length values)) →
          _mock_registers (self s1) !! b = _mock_registers d !! b) ∧
    (∀ (i : nat) v, values !! i = Some v →
          _mock_registers (self s1) !! (address + Z.of_nat i) = Some v).
Proof.
  intros Hmock Hconn. eexists. split.
  - apply mock_write_registers_run; assumption.
  - split; [reflexivity |]. split; [reflexivity |]. simpl. split.
    + intros b Hb. replace b with (address + (b - address)) by lia.
      apply store_all_untouched. intros i v Hin.
      apply elem_of_zip_l, elem_of_seqZ in Hin. lia.
    + intros i v Hi.
      pose proof (store_all_lookup address 0 values (_mock_registers d)) as Hall.
      destruct (Forall2_lookup_l _ _ _ i (0 + Z.of_nat i) Hall) as (v' & Hv' & Hm).
      { apply lookup_seqZ_lt. apply lookup_lt_Some in Hi. lia. }
      rewrite Z.add_0_l in Hm. unfold enumerate. congruence.
Qed.

(** X20. [read_float] on mock registers that do not fit in 16 bits, as
    [set_mock_register] and the mock writes can leave them: the registers
    are read and handed to the callbacks, then the decoding raises an
    exception that is not one of the driver's, and LastError is not
    touched. *)
Theorem read_float_of_wide_register (address hi lo : Z)
    (byte_order word_order : option Endian) (d : SA32Driver) (w : W) :
  mock_mode (settings d) = true →
  _connected d = true →
  _mock_registers d !! address = Some hi →
  _mock_registers d !! (address + 1) = Some lo →
  ¬ (in_16_bits hi ∧ in_16_bits lo) →
  ∃ msg,
    read_float tr address HOLDING byte_order word_order {| self := d; world := w |}
    = (Raise (PyException msg), {| self := d; world := w |},
       [Locked (invocations "on_data_received"
                  (Some (RegisterData address [hi; lo]))
                  (default [] (_callbacks d !! "on_data_received")))]).
Proof.
  intros Hmock Hconn Hhi Hlo Hwide.
  unfold read_float, read_holding_registers.
  unfold mbind at 1. unfold M_bind at 1.
  rewrite (mock_read_present_run tr HOLDING address 2 [hi; lo]);
    [| exact Hmock | exact Hconn |].
  - unfold lift_outcome, fromRegisters. simpl. unfold to_bytes_2_big.
    unfold in_16_bits in Hwide.
    destruct (PYMODBUS_AVAILABLE tr);
      repeat case_bool_decide; simpl; try tauto;
      run_monad; rewrite ?app_nil_r; eexists; reflexivity.
  - simpl. repeat constructor; [rewrite Z.add_0_r; exact Hhi | exact Hlo].
Qed.
End MockWrites.

(** ** The payload classes, further *)

Lemma to_bytes_2_big_in_range (reg : Z) :
  in_16_bits reg →
  ∃ x y, to_bytes_2_big reg = Return [x; y] ∧ int_from_bytes_big [x; y] = reg.
Proof.
  unfold in_16_bits, to_bytes_2_big. intros Hreg.
  rewrite bool_decide_eq_true_2 by exact Hreg.
  eexists _, _. split; [reflexivity |].
  rewrite int_from_bytes_big_pair.
  pose proof (Z.div_mod reg 256 ltac:(lia)). lia.
Qed.

Lemma to_bytes_2_big_out_of_range (reg : Z) :
  ¬ in_16_bits reg → ∃ e, to_bytes_2_big reg = Raise e.
Proof.
  unfold in_16_bits, to_bytes_2_big. intros Hreg.
  rewrite bool_decide_eq_false_2 by exact Hreg. eexists. reflexivity.
Qed.

Lemma join_registers_in_range (registers : list Z) :
  Forall in_16_bits registers →
  ∃ bs, join_registers registers = Return bs ∧
        registers_of_bytes bs = registers ∧
        length bs = (2 * length registers)%nat.
Proof.
  induction 1 as [| reg rest Hreg _ (bs & Hjoin & Hback & Hlen)].
  - exists []. repeat split.
  - destruct (to_bytes_2_big_in_range reg Hreg) as (x & y & Hbytes & Hint).
    exists (x :: y :: bs). simpl. rewrite Hbytes, Hjoin. simpl.
    split; [reflexivity |]. split; [| lia].
    rewrite Hback. f_equal. exact Hint.
Qed.

Lemma join_registers_out_of_range (registers : list Z) :
  ¬ Forall in_16_bits registers → ∃ e, join_registers registers = Raise e.
Proof.
  induction registers as [| reg rest IH]; intros Hbad.
  - exfalso. apply Hbad. constructor.
  - simpl. destruct (decide (in_16_bits reg)) as [Hreg | Hreg].
    + destruct (to_bytes_2_big_in_range reg Hreg) as (x & y & -> & _).
      destruct IH as [e He].
      { intros Hrest. apply Hbad. constructor; assumption. }
      rewrite He. eexists. reflexivity.
    + destruct (to_bytes_2_big_out_of_range reg Hreg) as [e ->].
      eexists. reflexivity.
Qed.

Lemma struct_unpack_f_length (byteorder : Endian) (bs : list Z) :
  (∃ v, struct_unpack_f byteorder bs = Return v) ↔ length bs = 4%nat.
Proof.
  destruct bs as [| x0 [| x1 [| x2 [| x3 [| x4 rest]]]]]; simpl;
    (split; [intros [v Hv]; (discriminate Hv || reflexivity)
            | intros Hlen; (discriminate Hlen
                            || (destruct byteorder; eexists; reflexivity))]).
Qed.

(** X22. [fromRegisters] accepts exactly the lists of 16-bit registers: it
    raises on any register outside [0, 65535], and otherwise builds a
    payload of two bytes for each register from which the loop of
    [to_registers] gives the registers back. *)
Theorem fromRegisters_round_trip (registers : list Z) (byteorder wordorder : Endian) :
  (Forall in_16_bits registers →
   ∃ decoder,
     fromRegisters registers byteorder wordorder = Return decoder ∧
     decoder_byteorder decoder = byteorder ∧
     length (decoder_payload decoder) = (2 * length registers)%nat ∧
     registers_of_bytes (decoder_payload decoder) = registers) ∧
  (¬ Forall in_16_bits registers →
   ∃ e, fromRegisters registers byteorder wordorder = Raise e).
Proof.
  unfold fromRegisters. split; intros H.
  - destruct (join_registers_in_range registers H) as (bs & -> & Hback & Hlen).
    eexists. split; [reflexivity |]. simpl. auto.
  - destruct (join_registers_out_of_range registers H) as (e & ->).
    eexists. reflexivity.
Qed.

(** X23. Decoding a float returns a value exactly when there are at least two
    registers and every register, also beyond the second, fits in 16
    bits; the value then depends on the first two registers only. *)
Theorem decode_float_needs_two_registers (byteorder wordorder : Endian)
    (registers : list Z) :
  ((∃ v, decode_float byteorder wordorder registers = Return v) ↔
   Forall in_16_bits registers ∧ (2 ≤ length registers)%nat) ∧
  (Forall in_16_bits registers →
   decode_float byteorder wordorder registers
   = decode_float byteorder wordorder (take 2 registers)).
Proof.
  split.
  - unfold decode_float, fromRegisters, decode_32bit_float. split.
    + intros [v Hv].
      destruct (decide (Forall in_16_bits registers)) as [Hall | Hbad].
      * split; [exact Hall |].
        destruct (join_registers_in_range registers Hall) as (bs & Hjoin & _ & Hlen).
        rewrite Hjoin in Hv. simpl in Hv.
        assert (Hfour : length (take 4 bs) = 4%nat).
        { apply (struct_unpack_f_length byteorder). eexists. exact Hv. }
        rewrite length_take in Hfour. lia.
      * destruct (join_registers_out_of_range registers Hbad) as (e & He).
        rewrite He in Hv. discriminate Hv.
    + intros [Hall Hlen].
      destruct (join_registers_in_range registers Hall) as (bs & -> & _ & Hbs).
      simpl. apply struct_unpack_f_length. rewrite length_take. lia.
  - intros Hall. destruct registers as [| hi [| lo rest]]; [reflexivity.. |].
    inversion Hall as [| ? ? Hhi Hrest]; subst.
    inversion Hrest as [| ? ? Hlo Hrest']; subst.
    unfold decode_float, fromRegisters, decode_32bit_float. simpl.
    destruct (to_bytes_2_big_in_range hi Hhi) as (x0 & x1 & -> & _).
    destruct (to_bytes_2_big_in_range lo Hlo) as (x2 & x3 & -> & _).
    destruct (join_registers_in_range rest Hrest') as (bs & -> & _).
    reflexivity.
Qed.

(** ** Construction, further *)

#[local] Instance valid_config_dec (a : InitArgs) : Decision (valid_config a).
Proof. unfold valid_config. apply _. Defined.

(** X24. The outcomes of construction are three, in this order of precedence:
    ImportError when pymodbus is missing and the session is not a mock,
    even for invalid arguments; SA32ConfigurationError when one of the six
    validated arguments is invalid; and otherwise a fresh session whose
    protocol is the member named by the protocol name in any letter case.
    The lookup of the member itself never fails. *)
Theorem construction_outcomes (available : bool) (a : InitArgs) :
  match __init__ available a with
  | Return d =>
      (available = true ∨ mock_mode a = true) ∧ valid_config a ∧
      d = fresh (if bool_decide (upper (protocol_name a) = "TCP") then TCP else RTU) a
  | Raise (ImportError _) => available = false ∧ mock_mode a = false
  | Raise (SA32ConfigurationError _) =>
      (available = true ∨ mock_mode a = true) ∧ ¬ valid_config a
  | Raise _ => False
  end.
Proof.
  unfold __init__.
  destruct (negb available && negb (mock_mode a)) eqn:Himp.
  - apply andb_true_iff in Himp as [Hav Hmock].
    apply negb_true_iff in Hav, Hmock. auto.
  - assert (Hav : available = true ∨ mock_mode a = true).
    { destruct available; [auto |]. destruct (mock_mode a); [auto | discriminate]. }
    destruct (decide (valid_config a)) as [Hv | Hbad].
    + rewrite (validate_config_accepts a Hv).
      unfold ModbusProtocol_getitem.
      pose proof Hv as (Hp & _).
      unfold valid_protocols in Hp. rewrite !elem_of_cons, elem_of_nil in Hp.
      case_bool_decide as Htcp.
      * split; [exact Hav |]. split; [exact Hv | reflexivity].
      * rewrite bool_decide_eq_true_2 by tauto.
        split; [exact Hav |]. split; [exact Hv | reflexivity].
    + destruct (validate_config_rejects a Hbad) as [msg ->]. auto.
Qed.

(** ** Callbacks *)

Lemma remove_first_app (x : Callback) (l1 l2 : list Callback) :
  x ∉ l1 → remove_first x (l1 ++ x :: l2) = l1 ++ l2.
Proof.
  induction l1 as [| y l1 IH]; intros Hx; simpl.
  - rewrite bool_decide_eq_true_2 by reflexivity. reflexivity.
  - rewrite not_elem_of_cons in Hx. destruct Hx as [Hxy Hx].
    rewrite bool_decide_eq_false_2 by congruence. rewrite IH by exact Hx.
    reflexivity.
Qed.

Section Callbacks.
Context {W : Type}.

(** X25. A callback registered for a known event is appended to the list of
    the event, also when it is already there: the event then calls the
    earlier callbacks first, in the order of their registration, and the
    new one last. Registration touches no other event and nothing else of
    the session, and calls nothing. *)
Theorem callbacks_run_in_registration_order (event : string)
    (callback : Callback) (cbs : list Callback) (data : option Payload)
    (d : SA32Driver) (w : W) :
  _callbacks d !! event = Some cbs →
  ∃ d',
    register_callback event callback {| self := d; world := w |}
    = (Return tt, {| self := d'; world := w |}, []) ∧
    _trigger_callbacks event data {| self := d'; world := w |}
    = (Return tt, {| self := d'; world := w |},
       invocations event data cbs ++ [Invoke event callback data]) ∧
    (∀ other, other ≠ event → _callbacks d' !! other = _callbacks d !! other) ∧
    d' = set_callbacks (_callbacks d') d.
Proof.
  intros Hcbs. eexists. unfold register_callback. run_monad. rewrite Hcbs.
  split; [reflexivity |]. split; [| split].
  - rewrite trigger_callbacks_run. simpl. rewrite lookup_insert_eq. simpl.
    unfold invocations. rewrite fmap_app. reflexivity.
  - intros other Hother. simpl. apply lookup_insert_ne. congruence.
  - reflexivity.
Qed.

(** X26. [unregister_callback] removes one registration of the callback, the
    earliest: the callbacks registered before and after it keep their
    order, a later registration of the same callback stays, and no other
    event is touched. *)
Theorem unregister_removes_first_registration (event : string)
    (callback : Callback) (before after : list Callback)
    (data : option Payload) (d : SA32Driver) (w : W) :
  _callbacks d !! event = Some (before ++ callback :: after) →
  callback ∉ before →
  ∃ d',
    unregister_callback event callback {| self := d; world := w |}
    = (Return tt, {| self := d'; world := w |}, []) ∧
    _trigger_callbacks event data {| self := d'; world := w |}
    = (Return tt, {| self := d'; world := w |},
       invocations event data (before ++ after)) ∧
    (∀ other, other ≠ event → _callbacks d' !! other = _callbacks d !! other) ∧
    d' = set_callbacks (_callbacks d') d.
Proof.
  intros Hcbs Hfirst. eexists. unfold unregister_callback. run_monad.
  rewrite Hcbs. rewrite bool_decide_eq_true_2.
  2: { apply elem_of_app. right. apply elem_of_cons. left. reflexivity. }
  split; [reflexivity |]. split; [| split].
  - rewrite trigger_callbacks_run. simpl. rewrite lookup_insert_eq. simpl.
    rewrite remove_first_app by exact Hfirst. reflexivity.
  - intros other Hother. simpl. apply lookup_insert_ne. congruence.
  - reflexivity.
Qed.

(** X27. Nothing is raised for an event or a callback the session does not
    know: registering for an unknown event and triggering one do nothing,
    and so does unregistering a callback that is not registered for the
    event, known or not. *)
Theorem unknown_event_or_callback_is_ignored (event : string)
    (callback : Callback) (data : option Payload) (s : Sys W) :
  (_callbacks (self s) !! event = None →
   register_callback event callback s = (Return tt, s, []) ∧
   _trigger_callbacks event data s = (Return tt, s, [])) ∧
  (callback ∉ default [] (_callbacks (self s) !! event) →
   unregister_callback event callback s = (Return tt, s, [])).
Proof.
  split.
  - intros Hnone. rewrite trigger_callbacks_run.
    unfold register_callback. run_monad. rewrite Hnone. auto.
  - intros Habsent. unfold unregister_callback. run_monad.
    destruct (_callbacks (self s) !! event) as [cbs |]; simpl in *.
    + rewrite bool_decide_eq_false_2 by exact Habsent. reflexivity.
    + reflexivity.
Qed.
End Callbacks.

(** ** The context manager *)

Section WithStatement.
Context {W : Type} (tr : Transport W).

(** X28. [with driver: body]. When the [connect] of [__enter__] raises, the
    statement raises the same exception and neither the block nor
    [disconnect] runs. Otherwise the block runs on the state [connect]
    left, [disconnect] runs after it whether it returned or raised, the
    session is Disconnected at the end, and the outcome of the statement
    is the outcome of the block: no exception is suppressed and
    [disconnect] adds none. *)
Theorem with_statement_disconnects {A : Type} (body : M W A) (s : Sys W) :
  let '(r, s', t) := with_statement tr body s in
  match connect tr s with
  | (Raise e, s1, t1) => r = Raise e ∧ s' = s1 ∧ t = t1
  | (Return _, s1, t1) =>
      let '(rb, s2, t2) := body s1 in
      r = map_outcome Some rb ∧
      _connected (self s') = false ∧
      s' = (disconnect tr s2).1.2 ∧
      t = t1 ++ t2 ++ (disconnect tr s2).2
  end.
Proof.
  unfold with_statement, __enter__, __exit__.
  unfold mbind at 1. unfold M_bind at 1.
  destruct (connect tr s) as [[[ok | e] s1] t1]; simpl; [| auto].
  rewrite app_nil_r.
  destruct (body s1) as [[rb [d2 w2]] t2].
  unfold mbind at 1. unfold M_bind at 1.
  pose proof (disconnect_facts tr d2 w2) as Hd.
  destruct (disconnect tr {| self := d2; world := w2 |}) as [[rd s3] t3].
  destruct Hd as (-> & Hconn & _). simpl. rewrite app_nil_r.
  destruct rb as [a | e]; simpl; auto.
Qed.
End WithStatement.

(** ** Mock sessions and pymodbus *)

Lemma count_effects_nil (p : Effect → bool) : count_effects p [] = 0%nat.
Proof. reflexivity. Qed.

Lemma count_effects_randoms (t : list Effect) :
  Forall (λ e, e = RandInt 0 65535) t →
  count_effects is_client_effect t = 0%nat.
Proof.
  induction 1 as [| e t -> _ IH]; [reflexivity |].
  change (RandInt 0 65535 :: t) with ([RandInt 0 65535] ++ t).
  rewrite count_effects_app, IH. reflexivity.
Qed.

Section MockAndPymodbus.
Context {W : Type} (tr : Transport W).

(** [_ensure_connected] on a mock session: at most one simulated
    [connect], which leaves the world as it is. *)
Lemma mock_ensure_connected (d : SA32Driver) (w : W) :
  mock_mode (settings d) = true →
  ∃ r d0 t0,
    _ensure_connected tr {| self := d; world := w |}
    = (r, {| self := d0; world := w |}, t0) ∧
    count_effects is_client_effect t0 = 0%nat ∧
    settings d0 = settings d ∧ _client d0 = _client d.
Proof.
  intros Hmock.
  destruct (_connected d) eqn:Hconn.
  { rewrite ensure_connected_when_connected by exact Hconn.
    eexists _, _, _. split; [reflexivity |]. auto. }
  destruct (auto_reconnect (settings d)) eqn:Hauto.
  2: { rewrite ensure_connected_refuses by assumption.
       eexists _, _, _. split; [reflexivity |].
       split; [apply count_effects_invocations; reflexivity | auto]. }
  destruct (decide (1 ≤ max_reconnect_attempts (settings d))) as [Hmax | Hmax].
  - rewrite (ensure_connected_first_attempt tr d w _ _ Hauto Hconn Hmax
               (connect_mock tr d w Hmock Hconn)).
    eexists _, _, _. split; [reflexivity |].
    rewrite count_effects_locked.
    split; [apply count_effects_invocations; reflexivity | auto].
  - rewrite ensure_connected_zero_attempts by (assumption || lia).
    eexists _, _, _. split; [reflexivity |]. auto.
Qed.

(** The access of a register operation on a mock session, after
    [_ensure_connected] has returned. *)
Lemma mock_access (op : RegisterOp) (d d0 : SA32Driver) (w w0 : W)
    (t0 : list Effect) :
  mock_mode (settings d0) = true →
  _ensure_connected tr {| self := d; world := w |}
  = (Return tt, {| self := d0; world := w0 |}, t0) →
  ∃ v s1 body,
    run_op tr op {| self := d; world := w |}
    = (Return v, s1, t0 ++ [Locked body]) ∧
    count_effects is_client_effect body = 0%nat ∧
    settings (self s1) = settings d0 ∧ _client (self s1) = _client d0.
Proof.
  intros Hmock Hens.
  destruct op as [address count | address count | address value | address values];
    unfold run_op, read_holding_registers, read_input_registers, read_registers,
      write_register, write_registers;
    unfold mbind at 1; unfold M_bind at 1; rewrite Hens;
    unfold with_lock; unfold mbind at 1; unfold M_bind at 1;
    unfold get_self at 1; simpl; rewrite Hmock.
  - unfold mbind at 1. unfold M_bind at 1. unfold _mock_read_registers.
    destruct (mock_read_loop_spec tr address (seqZ 0 count) [] d0 w0)
      as (vs & m & w1 & t & Hrun & _ & _ & Ht & _).
    rewrite Hrun. unfold mbind at 1. unfold M_bind at 1.
    rewrite trigger_callbacks_run. unfold mret, M_ret. simpl.
    rewrite app_nil_r. eexists _, _, _. split; [reflexivity |].
    rewrite count_effects_app, (count_effects_randoms t Ht).
    split; [apply count_effects_invocations; reflexivity | auto].
  - unfold mbind at 1. unfold M_bind at 1. unfold _mock_read_registers.
    destruct (mock_read_loop_spec tr address (seqZ 0 count) [] d0 w0)
      as (vs & m & w1 & t & Hrun & _ & _ & Ht & _).
    rewrite Hrun. unfold mbind at 1. unfold M_bind at 1.
    rewrite trigger_callbacks_run. unfold mret, M_ret. simpl.
    rewrite app_nil_r. eexists _, _, _. split; [reflexivity |].
    rewrite count_effects_app, (count_effects_randoms t Ht).
    split; [apply count_effects_invocations; reflexivity | auto].
  - unfold _mock_write_register. run_monad.
    eexists _, _, _. split; [reflexivity |]. auto.
  - unfold mbind at 1. unfold M_bind at 1.
    rewrite mock_write_loop. unfold mret, M_ret. simpl.
    eexists _, _, _. split; [reflexivity |]. auto.
Qed.

(** X29. A mock session never reaches pymodbus: whatever its state, none of
    [connect], [disconnect] and the four register operations builds a
    client or calls one, returning or raising, and the session is still a
    mock session with the same handle afterwards; so the same holds of
    every sequence of such calls. *)
Theorem mock_session_never_reaches_pymodbus (c : PublicCall)
    (d : SA32Driver) (w : W) :
  mock_mode (settings d) = true →
  count_effects is_client_effect
    (trace_of_call tr c {| self := d; world := w |}) = 0%nat ∧
  mock_mode (settings (self (after_call tr c {| self := d; world := w |})))
  = true ∧
  _client (self (after_call tr c {| self := d; world := w |})) = _client d.
Proof.
  intros Hmock. destruct c as [| | op]; unfold trace_of_call, after_call.
  - destruct (_connected d) eqn:Hconn.
    + rewrite connect_when_connected by exact Hconn. simpl. auto.
    + rewrite connect_mock by assumption. simpl.
      rewrite count_effects_locked.
      split; [apply count_effects_invocations; reflexivity | auto].
  - unfold disconnect. run_monad.
    destruct (_connected d) eqn:Hconn; simpl; [| auto].
    rewrite Hmock. simpl. rewrite trigger_callbacks_run. simpl.
    rewrite ?app_nil_r, count_effects_locked.
    split; [apply count_effects_invocations; reflexivity | auto].
  - destruct (mock_ensure_connected d w Hmock)
      as (r & d0 & t0 & Hens & Ht0 & Hset & Hcl).
    destruct r as [[] | e].
    + destruct (mock_access op d d0 w w t0) as (v & s1 & body & Hrun & Hb & Hs1 & Hc1).
      { rewrite Hset. exact Hmock. }
      { exact Hens. }
      rewrite Hrun. simpl.
      rewrite count_effects_app, count_effects_locked, Ht0, Hb.
      split; [reflexivity |]. split; congruence.
    + pose proof (run_op_facts tr op d w) as H. rewrite Hens in H.
      destruct (run_op tr op {| self := d; world := w |}) as [[r s1] t].
      destruct H as (_ & -> & ->). simpl.
      split; [exact Ht0 |]. split; congruence.
Qed.
End MockAndPymodbus.

(** ** Floats on the simulated backend *)

Section MockFloats.
Context {W : Type} (tr : Transport W).

(** X21. On a connected mock session, where pymodbus is importable and
    the payload classes are the fallback classes of the module, a finite
    float32 value written by [write_float] is returned by a following
    [read_float] of the same address with the same byte and word orders,
    given or defaulted: [write_float] returns True and [read_float]
    returns the value, bit for bit. Without pymodbus the two names are
    bound to [None] and [write_float] raises before it touches the
    session, also in mock mode. *)
Theorem write_float_then_read_float (address v : Z)
    (byte_order word_order : option Endian) (d : SA32Driver) (w : W) :
  (PYMODBUS_AVAILABLE tr = true →
   mock_mode (settings d) = true →
   _connected d = true →
   is_finite32 v →
   ∃ s1 t1 s2 t2,
     write_float tr address v byte_order word_order {| self := d; world := w |}
     = (Return true, s1, t1) ∧
     read_float tr address HOLDING byte_order word_order s1
     = (Return (Some v), s2, t2)) ∧
  (PYMODBUS_AVAILABLE tr = false →
   ∃ msg,
     write_float tr address v byte_order word_order {| self := d; world := w |}
     = (Raise (PyException msg), {| self := d; world := w |}, [])).
Proof.
  split.
  - intros Hav Hmock Hconn [Hv _].
    apply mock_write_float_then_read; assumption.
  - intros Hav. unfold write_float. rewrite Hav. eexists. reflexivity.
Qed.
End MockFloats.

(** ** The further properties on concrete sessions *)

(** [SA32Driver()] on the scripted transport: the second [connect()]. *)
Lemma second_connect_is_silent_witness :
  connect scripted (start (fresh TCP default_args) (answering []))
  = (Return true, start tcp_connected (answering []),
     [Locked [ClientNew tcp_client; ClientConnect tcp_client]]) ∧
  connect scripted (start tcp_connected (answering []))
  = (Return true, start tcp_connected (answering []), [Locked []]).
Proof.
  split; [reflexivity |].
  apply (second_connect_is_silent scripted
           (start (fresh TCP default_args) (answering []))
           (start tcp_connected (answering [])) true
           [Locked [ClientNew tcp_client; ClientConnect tcp_client]]).
  reflexivity.
Defined.

(** A session that lost its connection after a failed read, connected
    again: LastError is the default record. *)
Lemma successful_open_resets_last_error_witness :
  status (_last_error (set_connected false tcp_after_failure)) = true ∧
  connect scripted
    {| self := set_connected false tcp_after_failure; world := answering [] |}
  = (Return true, {| self := tcp_connected; world := answering [] |},
     [Locked [ClientNew tcp_client; ClientConnect tcp_client]]).
Proof.
  split; [reflexivity |].
  apply (successful_open_resets_last_error scripted
           (set_connected false tcp_after_failure)
           (answering []) (answering []) (answering [])); reflexivity.
Defined.

(** [SA32Driver()] on the transport that never opens. *)
Lemma failed_connect_records_error_witness :
  ∃ e s1 t,
    connect refusing (start (fresh TCP default_args) tt) = (Raise e, s1, t) ∧
    _last_error (self s1) = {| status := true; code := -1; source := str e |} ∧
    is_ConnectionError e = true ∧
    ∃ body,
      Forall (λ e, is_client_effect e = true) body ∧
      t = [Locked (body ++ invocations "on_error"
                             (Some (ErrorData (_last_error (self s1))))
                             (default [] (_callbacks (fresh TCP default_args)
                                            !! "on_error")))].
Proof.
  eexists _, _, _. split; [reflexivity |].
  apply (failed_connect_records_error refusing
           (start (fresh TCP default_args) tt)).
  reflexivity.
Defined.

(** [test_read_not_connected] with an 'on_error' callback. *)
Lemma disconnected_operation_fails_witness :
  _connected (with_callback "on_error" 1%nat (fresh TCP default_args)) = false ∧
  auto_reconnect (settings (with_callback "on_error" 1%nat (fresh TCP default_args)))
  = false ∧
  run_op scripted (ReadHolding 1000 1)
    {| self := with_callback "on_error" 1%nat (fresh TCP default_args);
       world := answering [] |}
  = (Raise (SA32ConnectionError
              "Aucune connexion active. Appelez connect() d'abord."),
     {| self := set_last_error no_connection_error
                  (with_callback "on_error" 1%nat (fresh TCP default_args));
        world := answering [] |},
     [Invoke "on_error" 1%nat (Some (ErrorData no_connection_error))]).
Proof.
  split; [reflexivity |]. split; [reflexivity |].
  apply (disconnected_operation_fails scripted (ReadHolding 1000 1)
           (with_callback "on_error" 1%nat (fresh TCP default_args))
           (answering [])); reflexivity.
Defined.

(** Three attempts on the transport that never opens. *)
Lemma auto_reconnect_outcomes_witness :
  auto_reconnect (settings (fresh TCP reconnecting_args)) = true ∧
  _connected (fresh TCP reconnecting_args) = false ∧
  ∃ r s1 t,
    _ensure_connected refusing {| self := fresh TCP reconnecting_args; world := tt |}
    = (r, s1, t) ∧
    reconnect_trace t ∧
    (sleep_error 0 = None → r = Return tt) ∧
    match r with
    | Return _ =>
        (_connected (self s1) = true ∧ (1 ≤ lock_acquisitions t ≤ 3)%nat) ∨
        (_connected (self s1) = false ∧ lock_acquisitions t = 3%nat)
    | Raise e =>
        sleep_error 0 = Some e ∧
        is_ConnectionError e = false ∧ is_CommunicationError e = false ∧
        mock_mode (settings (fresh TCP reconnecting_args)) = false ∧
        _connected (self s1) = false ∧
        (1 ≤ lock_acquisitions t < 3)%nat
    end.
Proof.
  split; [reflexivity |]. split; [reflexivity |].
  apply (auto_reconnect_outcomes refusing (fresh TCP reconnecting_args) tt);
    reflexivity.
Defined.

(** Three attempts, two sleeps of length 0 between them. *)
Lemma reconnect_sleeps_between_attempts_witness :
  open_always_fails refusing ∧
  mock_mode (settings (fresh TCP reconnecting_args)) = false ∧
  auto_reconnect (settings (fresh TCP reconnecting_args)) = true ∧
  _connected (fresh TCP reconnecting_args) = false ∧
  sleep_error (reconnect_delay (settings (fresh TCP reconnecting_args))) = None ∧
  ∃ s1 bodies,
    _ensure_connected refusing {| self := fresh TCP reconnecting_args; world := tt |}
    = (Return tt, s1, between (Sleep 0) (Locked <$> bodies)) ∧
    length bodies = 3%nat ∧
    Forall failed_connect_region bodies ∧
    count_effects is_sleep (between (Sleep 0) (Locked <$> bodies)) = 2%nat.
Proof.
  split; [exact refusing_never_opens |].
  split; [reflexivity |]. split; [reflexivity |]. split; [reflexivity |].
  split; [reflexivity |].
  apply (reconnect_sleeps_between_attempts refusing refusing_never_opens
           (fresh TCP reconnecting_args) tt); reflexivity.
Defined.

(** The first attempt opens the scripted transport. *)
Lemma reconnect_stops_at_first_success_witness :
  _ensure_connected scripted
    {| self := fresh TCP reconnecting_args; world := answering [] |}
  = (Return tt,
     {| self := set_connected true
                  (set_client (Some tcp_client) (fresh TCP reconnecting_args));
        world := answering [] |},
     [Locked [ClientNew tcp_client; ClientConnect tcp_client]]).
Proof.
  apply (reconnect_stops_at_first_success scripted (fresh TCP reconnecting_args)
           (answering []) (answering []) (answering []));
    (reflexivity || (vm_compute; discriminate)).
Defined.

(** [SA32Driver(mock_mode=True, auto_reconnect=True,
    max_reconnect_attempts=0)], never connected: a write goes through. *)
Lemma zero_attempts_runs_disconnected_witness :
  ∃ v s1 body,
    run_op scripted (WriteSingle 10 7)
      {| self := fresh TCP (with_reconnect true 0 mock_args); world := answering [] |}
    = (Return v, s1, [Locked body]) ∧
    _connected (self s1) = false ∧
    _last_error (self s1)
    = _last_error (fresh TCP (with_reconnect true 0 mock_args)).
Proof.
  apply (zero_attempts_runs_disconnected scripted (WriteSingle 10 7)
           (fresh TCP (with_reconnect true 0 mock_args)) (answering []));
    (reflexivity || (vm_compute; discriminate)).
Defined.

(** The same arguments without mock mode: the read finds no client. *)
Lemma missing_handle_is_a_communication_error_witness :
  ∃ msg err,
    run_op scripted (ReadHolding 0 1)
      {| self := fresh TCP (with_reconnect true 0 default_args);
         world := answering [] |}
    = (Raise (SA32CommunicationError msg),
       {| self := set_last_error err (fresh TCP (with_reconnect true 0 default_args));
          world := answering [] |},
       [Locked (invocations "on_error" (Some (ErrorData err))
                  (default [] (_callbacks
                                 (fresh TCP (with_reconnect true 0 default_args))
                               !! "on_error")))]) ∧
    status err = true ∧ code err = -3 ∧ source err = msg.
Proof.
  apply (missing_handle_is_a_communication_error scripted (ReadHolding 0 1)
           (fresh TCP (with_reconnect true 0 default_args)) (answering []));
    (reflexivity || (vm_compute; discriminate)).
Defined.

(** A read of two registers answered by the device. *)
Lemma normal_response_is_returned_witness :
  run_op scripted (ReadHolding 100 2)
    {| self := tcp_after_failure;
       world := answering [Return (RegistersResponse [11; 22])] |}
  = (Return (Registers [11; 22]),
     {| self := tcp_connected; world := answering [] |},
     [Locked [ClientRequest tcp_client (ReadHoldingRegisters 100 2 1)]]).
Proof.
  apply (normal_response_is_returned scripted (ReadHolding 100 2)
           tcp_after_failure tcp_client [11; 22]
           (answering [Return (RegistersResponse [11; 22])]) (answering []));
    reflexivity.
Defined.

(** A write the device does not answer: pymodbus raises ModbusException. *)
Lemma transport_exception_is_classified_witness :
  run_op scripted (WriteSingle 5 9)
    {| self := tcp_connected; world := answering [] |}
  = (Raise (SA32CommunicationError "Exception Modbus: No response received"),
     {| self := tcp_after_failure; world := answering [] |},
     [Locked [ClientRequest tcp_client (WriteRegister 5 9 1)]]).
Proof.
  apply (transport_exception_is_classified scripted (WriteSingle 5 9)
           tcp_connected tcp_client (ModbusException "No response received")
           (answering []) (answering [])); reflexivity.
Defined.

(** A device that answers a read of one register with two. *)
Lemma single_read_returns_first_register_witness :
  read_holding_register scripted 100
    {| self := tcp_connected;
       world := answering [Return (RegistersResponse [7; 8])] |}
  = (Return (Some 7), {| self := tcp_connected; world := answering [] |},
     [Locked [ClientRequest tcp_client (ReadHoldingRegisters 100 1 1)]]).
Proof.
  apply (single_read_returns_first_register scripted 100 tcp_connected tcp_client
           [7; 8] (answering [Return (RegistersResponse [7; 8])]) (answering []));
    reflexivity.
Defined.

(** A read on the unopened client of the refusing transport. *)
Lemma operation_failures_are_recorded_witness :
  ∃ e s1 t,
    run_op refusing (ReadHolding 0 1) (start tcp_connected tt) = (Raise e, s1, t) ∧
    status (_last_error (self s1)) = true ∧
    (is_ConnectionError e = true ∨ is_CommunicationError e = true ∨
     (sleep_error (reconnect_delay (settings tcp_connected)) = Some e ∧
      _connected tcp_connected = false ∧
      auto_reconnect (settings tcp_connected) = true ∧
      mock_mode (settings tcp_connected) = false ∧
      1 < max_reconnect_attempts (settings tcp_connected))).
Proof.
  eexists _, _, _. split; [reflexivity |].
  eapply (operation_failures_are_recorded refusing (ReadHolding 0 1)
            (start tcp_connected tt)).
  reflexivity.
Defined.

(** A mock read of three registers that were never written. *)
Lemma mock_read_returns_count_values_witness :
  ∃ vs s1 t,
    read_registers scripted INPUT 100 3
      {| self := mock_connected; world := answering [] |}
    = (Return vs, s1, [Locked t]) ∧
    length vs = 3%nat ∧
    _mock_registers mock_connected ⊆ _mock_registers (self s1) ∧
    _last_error (self s1) = _last_error mock_connected ∧
    (∀ (i : nat) v,
       _mock_registers mock_connected !! (100 + Z.of_nat i) = Some v →
       Z.of_nat i < 3 → vs !! i = Some v).
Proof.
  apply (mock_read_returns_count_values scripted INPUT 100 3 mock_connected
           (answering [])); reflexivity.
Defined.

(** The same read, twice, as input then as holding registers. *)
Lemma mock_read_is_idempotent_witness :
  ∃ vs s1 t,
    read_registers scripted INPUT 100 3 (start mock_connected (answering []))
    = (Return vs, s1, t) ∧
    read_registers scripted HOLDING 100 3 s1 = (Return vs, s1, [Locked []]).
Proof.
  eexists _, _, _. split; [reflexivity |].
  eapply (mock_read_is_idempotent scripted INPUT HOLDING 100 3
            (start mock_connected (answering []))); reflexivity.
Defined.

(** A value that does not fit a Modbus register is stored and read back
    as it is. *)
Lemma mock_write_register_then_read_witness :
  ∃ s1,
    write_register scripted 10 70000
      {| self := mock_connected; world := answering [] |}
    = (Return true, s1, [Locked []]) ∧
    _mock_registers (self s1) = <[10 := 70000]> (_mock_registers mock_connected) ∧
    world s1 = answering [] ∧
    read_holding_register scripted 10 s1 = (Return (Some 70000), s1, [Locked []]).
Proof.
  apply (mock_write_register_then_read scripted 10 70000 mock_connected
           (answering [])); reflexivity.
Defined.

Lemma mock_write_registers_frame_witness :
  ∃ s1,
    write_registers scripted 2000 [1; 2; 3]
      {| self := mock_with_wide_register; world := answering [] |}
    = (Return true, s1, [Locked []]) ∧
    world s1 = answering [] ∧
    _last_error (self s1) = _last_error mock_with_wide_register ∧
    (∀ b, ¬ (2000 ≤ b < 2000 + 3) →
          _mock_registers (self s1) !! b
          = _mock_registers mock_with_wide_register !! b) ∧
    (∀ (i : nat) v, [1; 2; 3] !! i = Some v →
          _mock_registers (self s1) !! (2000 + Z.of_nat i) = Some v).
Proof.
  apply (mock_write_registers_frame scripted 2000 [1; 2; 3]
           mock_with_wide_register (answering [])); reflexivity.
Defined.

(** [read_float(100)] on registers 70000 and 0. *)
Lemma read_float_of_wide_register_witness :
  ∃ msg,
    read_float scripted 100 HOLDING None None
      {| self := mock_with_wide_register; world := answering [] |}
    = (Raise (PyException msg),
       {| self := mock_with_wide_register; world := answering [] |},
       [Locked []]).
Proof.
  apply (read_float_of_wide_register scripted 100 70000 0 None None
           mock_with_wide_register (answering []));
    try reflexivity.
  unfold in_16_bits. lia.
Defined.

(** A second 'on_error' callback is called after the first. *)
Lemma callbacks_run_in_registration_order_witness :
  ∃ d',
    register_callback "on_error" 2%nat
      {| self := with_callback "on_error" 1%nat (fresh TCP default_args);
         world := tt |}
    = (Return tt, {| self := d'; world := tt |}, []) ∧
    _trigger_callbacks "on_error" None {| self := d'; world := tt |}
    = (Return tt, {| self := d'; world := tt |},
       [Invoke "on_error" 1%nat None; Invoke "on_error" 2%nat None]) ∧
    (∀ other, other ≠ "on_error" →
       _callbacks d' !! other
       = _callbacks (with_callback "on_error" 1%nat (fresh TCP default_args))
         !! other) ∧
    d' = set_callbacks (_callbacks d')
           (with_callback "on_error" 1%nat (fresh TCP default_args)).
Proof.
  apply (callbacks_run_in_registration_order "on_error" 2%nat [1%nat] None
           (with_callback "on_error" 1%nat (fresh TCP default_args)) tt).
  reflexivity.
Defined.

(** Callback 1 registered twice around callback 2: unregistering 1 drops
    the first registration only. *)
Lemma unregister_removes_first_registration_witness :
  ∃ d',
    unregister_callback "on_error" 1%nat
      {| self := set_callbacks (<["on_error" := [2; 1; 3; 1]%nat]> no_callbacks)
                   (fresh TCP default_args);
         world := tt |}
    = (Return tt, {| self := d'; world := tt |}, []) ∧
    _trigger_callbacks "on_error" None {| self := d'; world := tt |}
    = (Return tt, {| self := d'; world := tt |},
       invocations "on_error" None [2; 3; 1]%nat) ∧
    (∀ other, other ≠ "on_error" →
       _callbacks d' !! other
       = _callbacks (set_callbacks (<["on_error" := [2; 1; 3; 1]%nat]> no_callbacks)
                       (fresh TCP default_args)) !! other) ∧
    d' = set_callbacks (_callbacks d')
           (set_callbacks (<["on_error" := [2; 1; 3; 1]%nat]> no_callbacks)
              (fresh TCP default_args)).
Proof.
  apply (unregister_removes_first_registration "on_error" 1%nat [2%nat]
           [3; 1]%nat None
           (set_callbacks (<["on_error" := [2; 1; 3; 1]%nat]> no_callbacks)
              (fresh TCP default_args)) tt).
  - reflexivity.
  - rewrite elem_of_cons, elem_of_nil. intros [H | []]. discriminate H.
Defined.

(** A mock read that has to reconnect first. *)
Lemma mock_session_never_reaches_pymodbus_witness :
  count_effects is_client_effect
    (trace_of_call scripted (CallOp (ReadHolding 0 2))
       {| self := fresh TCP (with_reconnect true 3 mock_args);
          world := answering [] |}) = 0%nat ∧
  mock_mode (settings (self (after_call scripted (CallOp (ReadHolding 0 2))
       {| self := fresh TCP (with_reconnect true 3 mock_args);
          world := answering [] |}))) = true ∧
  _client (self (after_call scripted (CallOp (ReadHolding 0 2))
       {| self := fresh TCP (with_reconnect true 3 mock_args);
          world := answering [] |}))
  = _client (fresh TCP (with_reconnect true 3 mock_args)).
Proof.
  apply (mock_session_never_reaches_pymodbus scripted (CallOp (ReadHolding 0 2))
           (fresh TCP (with_reconnect true 3 mock_args)) (answering [])).
  reflexivity.
Defined.

(** [connect(); read; disconnect(); connect()] on [SA32Driver()]. *)
Lemma connected_has_handle_witness :
  _connected (self (after_calls scripted
     [CallConnect; CallOp (ReadHolding 0 1); CallDisconnect; CallConnect]
     (start (fresh TCP default_args) (answering [])))) = true ∧
  is_Some (_client (self (after_calls scripted
     [CallConnect; CallOp (ReadHolding 0 1); CallDisconnect; CallConnect]
     (start (fresh TCP default_args) (answering []))))).
Proof.
  split; [reflexivity |].
  apply (connected_has_handle scripted
           [CallConnect; CallOp (ReadHolding 0 1); CallDisconnect; CallConnect]
           TCP default_args (answering [])); reflexivity.
Defined.

(** [write_float(300, 3.14159274)] then [read_float(300)], with the
    default orders. *)
Lemma write_float_then_read_float_witness :
  PYMODBUS_AVAILABLE scripted = true ∧
  is_finite32 float32_pi ∧
  ∃ s1 t1 s2 t2,
    write_float scripted 300 float32_pi None None
      {| self := mock_connected; world := answering [] |}
    = (Return true, s1, t1) ∧
    read_float scripted 300 HOLDING None None s1 = (Return (Some float32_pi), s2, t2).
Proof.
  assert (Hpi : is_finite32 float32_pi).
  { unfold is_finite32, is_float32, float32_pi. split; [lia |].
    vm_compute. discriminate. }
  split; [reflexivity |]. split; [exact Hpi |].
  apply (write_float_then_read_float scripted 300 float32_pi None None
           mock_connected (answering [])); [reflexivity | reflexivity | reflexivity | exact Hpi].
Defined.
